(** * Orchestration skeleton of the two laboratory pipelines

    Shallow embedding of [lab_7_llm/main.py], [lab_7_llm/start.py] and
    [lab_8_sft/main.py].  Tables are pandas frames modelled row by row,
    Python exceptions are a sum type, and the tokenizer and the network are
    functions held by the pipeline records. *)

From Stdlib Require Import ZArith Ascii String Decimal DecimalString DecimalZ QArith_base.
From stdpp Require Import base tactics option list strings gmap.
From Equations Require Import Equations.

Local Open Scope string_scope.
Local Open Scope nat_scope.

(** ** Python exceptions and fallible results *)

Inductive exn : Type :=
| KeyError (key : string)
| ValueError (msg : string)
| TypeError (msg : string)
| AttributeError (msg : string)
| IndexError.

Inductive result (A : Type) : Type :=
| Ok (a : A)
| Raise (e : exn).
Arguments Ok {A} a.
Arguments Raise {A} e.

#[global] Instance result_ret : MRet result := fun A a => Ok a.
#[global] Instance result_bind : MBind result := fun A B f m =>
  match m with
  | Ok a => f a
  | Raise e => Raise e
  end.
#[global] Instance result_fmap : FMap result := fun A B f m =>
  match m with
  | Ok a => Ok (f a)
  | Raise e => Raise e
  end.

(** [mapM] for [result]: the first exception wins, as in a comprehension. *)
Fixpoint traverse {A B : Type} (f : A -> result B) (l : list A) : result (list B) :=
  match l with
  | [] => Ok []
  | x :: l' => y ← f x; ys ← traverse f l'; Ok (y :: ys)
  end.

Definition from_some {A : Type} (e : exn) (o : option A) : result A :=
  match o with
  | Some a => Ok a
  | None => Raise e
  end.

(** ** Python [str] and [int] on integers *)

Definition str (z : Z) : string := NilZero.string_of_int (Z.to_int z).

Definition int (s : string) : option Z := Z.of_int <$> NilZero.int_of_string s.

(** ** [str.replace(old, new)] on one string: literal, leftmost, non-overlapping *)

Fixpoint replace_from (skip : nat) (old new s : string) : string :=
  match s with
  | EmptyString => EmptyString
  | String c s' =>
      match skip with
      | S k => replace_from k old new s'
      | O =>
          if String.prefix old s
          then new +:+ replace_from (String.length old - 1) old new s'
          else String c (replace_from 0 old new s')
      end
  end.

Definition replace (old new s : string) : string :=
  match old with
  | EmptyString => s
  | _ => replace_from 0 old new s
  end.

(** ** [len(text)]

    Text is held as the bytes of its UTF-8 encoding.  [len] counts code
    points: the bytes that do not continue a character, which are all but
    those of the form [10xxxxxx]. *)

Definition continuation_byte (c : ascii) : bool :=
  (128 <=? nat_of_ascii c) && (nat_of_ascii c <? 192).

Fixpoint text_len (s : string) : nat :=
  match s with
  | EmptyString => 0
  | String c s' => if continuation_byte c then text_len s' else S (text_len s')
  end.

(** ** Column names *)

Module ColumnNames.
(** Modelled from the spec: the [ColumnNames] enumeration of
    [core_utils.llm.raw_data_preprocessor], whose members carry the
    canonical names [source], [target] and [prediction]; [str(member)] and
    [member.value] both give that name. *)
Definition SOURCE : string := "source".
Definition TARGET : string := "target".
Definition PREDICTION : string := "prediction".
End ColumnNames.

(** ** pandas *)

Module pd.

(** One value of a frame: missing ([NaN]/[None]), a Python integer or text. *)
Inductive cell : Type :=
| NA
| Int (z : Z)
| Str (s : string).

#[global] Instance cell_eq_dec : EqDecision cell.
Proof. solve_decision. Defined.

(** A series is a column with its index labels. *)
Definition Series : Type := list (nat * cell).

(** A frame: column labels, and rows carrying their index label. *)
Record DataFrame : Type := {
  columns : list string;
  rows : list (nat * list cell)
}.

(** [pd.DataFrame()] *)
Definition empty : DataFrame := {| columns := []; rows := [] |}.

(** [len(df)] *)
Definition len (df : DataFrame) : nat := length (rows df).

(** Keep the positions of [xs] whose flag is set. *)
Fixpoint select {A : Type} (keep : list bool) (xs : list A) : list A :=
  match keep, xs with
  | true :: keep', x :: xs' => x :: select keep' xs'
  | false :: keep', _ :: xs' => select keep' xs'
  | _, _ => []
  end.

(** [df.drop(labels, axis=1)]: a label that names no column raises. *)
Definition drop (labels : list string) (df : DataFrame) : result DataFrame :=
  match list_find (fun l => l ∉ columns df) labels with
  | Some (_, l) => Raise (KeyError l)
  | None =>
      let keep := (fun c => bool_decide (c ∉ labels)) <$> columns df in
      Ok {| columns := select keep (columns df);
            rows := (fun r => (r.1, select keep r.2)) <$> rows df |}
  end.

(** [df.rename(columns=mapping)]: labels outside the mapping are kept. *)
Definition rename (mapping : gmap string string) (df : DataFrame) : DataFrame :=
  {| columns := (fun c => default c (mapping !! c)) <$> columns df;
     rows := rows df |}.

(** [df.dropna()]: drop every row holding a missing value. *)
Definition dropna (df : DataFrame) : DataFrame :=
  {| columns := columns df;
     rows := filter (fun r => NA ∉ r.2) (rows df) |}.

(** [df.drop_duplicates()]: keep the first of the rows with equal values;
    index labels do not take part, and missing values compare equal. *)
Fixpoint first_occurrences (seen : list (list cell)) (rs : list (nat * list cell))
  : list (nat * list cell) :=
  match rs with
  | [] => []
  | r :: rs' =>
      if decide (r.2 ∈ seen) then first_occurrences seen rs'
      else r :: first_occurrences (r.2 :: seen) rs'
  end.

Definition drop_duplicates (df : DataFrame) : DataFrame :=
  {| columns := columns df;
     rows := first_occurrences [] (rows df) |}.

(** Position of the one column carrying a label. *)
Definition column_position (name : string) (df : DataFrame) : result nat :=
  from_some (KeyError name) (fst <$> list_find (fun c => c = name) (columns df)).

(** [df[name]] *)
Definition getitem (name : string) (df : DataFrame) : result Series :=
  pos ← column_position name df;
  Ok ((fun r => (r.1, default NA (r.2 !! pos))) <$> rows df).

(** [df[name] = series], for a series that carries the frame's own index:
    an existing column is overwritten in place, a new one is appended. *)
Definition setitem (name : string) (s : Series) (df : DataFrame) : DataFrame :=
  match list_find (fun c => c = name) (columns df) with
  | Some (pos, _) =>
      {| columns := columns df;
         rows := zip_with (fun r v => (r.1, <[pos := v.2]> r.2)) (rows df) s |}
  | None =>
      {| columns := (columns df ++ [name])%list;
         rows := zip_with (fun r v => (r.1, (r.2 ++ [v.2])%list)) (rows df) s |}
  end.

(** [series[label]] *)
Definition loc (label : nat) (s : Series) : result cell :=
  from_some (KeyError (str (Z.of_nat label)))
            (snd <$> (snd <$> list_find (fun r => r.1 = label) s)).

(** [series.map(mapping)] with a dictionary: a value that is not a key
    becomes missing. *)
Definition map (mapping : gmap string Z) (s : Series) : Series :=
  (fun r => (r.1, match r.2 with
                  | Str k => from_option Int NA (mapping !! k)
                  | _ => NA
                  end)) <$> s.

(** Is a value text?  Is it a number? *)
Definition is_text (c : cell) : bool :=
  match c with
  | Str _ => true
  | _ => false
  end.

Definition is_number (c : cell) : bool :=
  match c with
  | Int _ => true
  | _ => false
  end.

(** [series.str.replace(old, new)].  A column of numbers (with or without
    gaps) has no [.str] accessor.  A column that holds text has one, and so
    has a column of nothing but missing values, taken as the object column
    that a text column of the dataset is.  Text is replaced in; a number
    that sits among text becomes missing; missing values stay missing. *)
Definition str_replace (old new : string) (s : Series) : result Series :=
  if existsb (fun r => is_number r.2) s && negb (existsb (fun r => is_text r.2) s)
  then Raise (AttributeError "Can only use .str accessor with string values!")
  else Ok ((fun r => (r.1, match r.2 with
                           | Str t => Str (replace old new t)
                           | _ => NA
                           end)) <$> s).

(** [df.reset_index(inplace=True, drop=True)] *)
Definition reset_index (df : DataFrame) : DataFrame :=
  {| columns := columns df;
     rows := imap (fun i r => (i, r.2)) (rows df) |}.

(** [df.head(n)] *)
Definition head (n : nat) (df : DataFrame) : DataFrame :=
  {| columns := columns df; rows := take n (rows df) |}.

(** [pd.DataFrame({name1: series, name2: values})]: the index is the
    series' own, and the list must be as long as it. *)
Definition of_series_and_list (name1 : string) (s : Series)
    (name2 : string) (values : list cell) : result DataFrame :=
  if decide (length values = length s)
  then Ok {| columns := [name1; name2];
             rows := zip_with (fun r v => (r.1, [r.2; v])) s values |}
  else Raise (ValueError "Length of values does not match length of index").

(** [df.duplicated()]: flag each row whose values repeat those of an
    earlier row; a frame without columns or without rows gives the empty
    series. *)
Fixpoint duplicated_from (seen : list (list cell)) (rs : list (nat * list cell))
  : list bool :=
  match rs with
  | [] => []
  | r :: rs' =>
      if decide (r.2 ∈ seen) then true :: duplicated_from seen rs'
      else false :: duplicated_from (r.2 :: seen) rs'
  end.

Definition duplicated (df : DataFrame) : list bool :=
  match columns df with
  | [] => []
  | _ :: _ => duplicated_from [] (rows df)
  end.

(** [df.isnull().any(axis=1)]: flag each row that holds a missing value. *)
Definition isnull_any (df : DataFrame) : list bool :=
  (fun r => bool_decide (NA ∈ r.2)) <$> rows df.

(** [flags.sum()] on a boolean series. *)
Definition sum_flags (flags : list bool) : nat :=
  length (filter (fun b => b = true) flags).

(** [series.dropna()] *)
Definition series_dropna (s : Series) : Series :=
  filter (fun r => r.2 ≠ NA) s.

(** [series.map(len)]: only text has a length, its number of characters. *)
Definition map_len (s : Series) : result (list (nat * nat)) :=
  traverse (fun r => match r.2 with
                     | Str t => Ok (r.1, text_len t)
                     | Int _ => Raise (TypeError "object of type 'int' has no len()")
                     | NA => Raise (TypeError "object of type 'float' has no len()")
                     end) s.

(** [series.min()] and [series.max()] on numbers: missing on an empty series. *)
Definition series_min (s : list (nat * nat)) : option nat :=
  match s with
  | [] => None
  | r :: s' => Some (foldl (fun m r' => Nat.min m r'.2) r.2 s')
  end.

Definition series_max (s : list (nat * nat)) : option nat :=
  match s with
  | [] => None
  | r :: s' => Some (foldl (fun m r' => Nat.max m r'.2) r.2 s')
  end.

End pd.

(** ** CSV files, as pandas writes and reads them

    A file is modelled as its records of fields, header first; the quoting
    of fields is the writer's and the reader's own inverse pair and is left
    out. *)

Module csv.
Import pd.

Definition file : Type := list (list string).




(** Fields that [read_csv] takes for a missing value. *)
Definition na_values : list string :=
  [""; "#N/A"; "#N/A N/A"; "#NA"; "-1.#IND"; "-1.#QNAN"; "-NaN"; "-nan";
   "1.#IND"; "1.#QNAN"; "<NA>"; "N/A"; "NA"; "NULL"; "NaN"; "None"; "n/a";
   "nan"; "null"].

Definition is_na_field (f : string) : bool := bool_decide (f ∈ na_values).

(** A column is read as integers when each field that is present spells
    one; otherwise its fields stay text.  (Fields spelling floats or
    booleans are outside this model and stay text too.) *)
Definition integer_column (fields : list string) : bool :=
  forallb (fun f => is_na_field f || bool_decide (is_Some (int f))) fields.

Definition cell_of_field (as_integer : bool) (f : string) : cell :=
  if is_na_field f then NA
  else if as_integer then from_option Int (Str f) (int f)
  else Str f.

Definition header_name (j : nat) (h : string) : string :=
  match h with
  | EmptyString => "Unnamed: " +:+ str (Z.of_nat j)
  | _ => h
  end.

(** [pd.read_csv(path)] on the content of the file: the first record
    names the columns, the index is a fresh range. *)
Definition read_csv (f : file) : result DataFrame :=
  match f with
  | [] => Raise (ValueError "No columns to parse from file")
  | header :: records =>
      let as_integer :=
        imap (fun j _ => integer_column ((fun r => default "" (r !! j)) <$> records))
             header in
      Ok {| columns := imap header_name header;
            rows := imap (fun i r =>
                            (i, zip_with cell_of_field as_integer r)) records |}
  end.

End csv.

(** ** transformers: tokenizer calls *)

Module transformers.

(** A tokenizer: text to token ids, token ids back to text (special
    tokens skipped), and the id used for padding. *)
Record Tokenizer : Type := {
  encode : string -> list nat;
  decode : list nat -> string;
  pad_token_id : nat
}.

Record Encoding : Type := {
  input_ids : list nat;
  attention_mask : list nat
}.

(** Pad a truncated sequence up to [width]. *)
Definition pad_to (tk : Tokenizer) (width : nat) (ids : list nat) : Encoding :=
  {| input_ids := ids ++ replicate (width - length ids) (pad_token_id tk);
     attention_mask := replicate (length ids) 1 ++ replicate (width - length ids) 0 |}.

(** [tokenizer(text, padding="max_length", truncation=True, max_length=n)] *)
Definition call_max_length (tk : Tokenizer) (text : string) (max_length : nat) : Encoding :=
  pad_to tk max_length (take max_length (encode tk text)).

(** [tokenizer(texts, max_length=n, padding=True, truncation=True,
    return_tensors='pt')]: every row is padded to the longest of the batch. *)
Definition call_longest (tk : Tokenizer) (texts : list string) (max_length : nat)
  : list Encoding :=
  let seqs := (fun t => take max_length (encode tk t)) <$> texts in
  pad_to tk (max_list (length <$> seqs)) <$> seqs.

(** What a network reads of a padded row: the ids under the mask. *)
Definition visible (e : Encoding) : list nat :=
  fst <$> filter (fun p => p.2 ≠ 0) (zip (input_ids e) (attention_mask e)).

End transformers.

(** ** torch: arg-max and the data loader *)

Module torch.

(** First position of the largest score of a non-empty row. *)
Fixpoint argmax_from (best_i : nat) (best : Z) (i : nat) (xs : list Z) : nat :=
  match xs with
  | [] => best_i
  | x :: xs' =>
      if (best <? x)%Z then argmax_from i x (S i) xs'
      else argmax_from best_i best (S i) xs'
  end.

Definition argmax (row : Z * list Z) : nat := argmax_from 0 row.1 1 row.2.

(** Consecutive index batches of a [DataLoader] without shuffling. *)
Equations? batches {A : Type} (batch_size : nat) (l : list A) : list (list A)
  by wf (length l) lt :=
  batches 0 _ := [];
  batches _ [] := [];
  batches (S n) (x :: l') := (x :: take n l') :: batches (S n) (drop n l').
Proof. rewrite length_drop. simpl. lia. Qed.

Definition as_text (c : pd.cell) : result string :=
  match c with
  | pd.Str s => Ok s
  | _ => Raise (TypeError "text input must be of type str")
  end.

(** [default_collate] on a batch of tuples: one list per tuple field. *)
Definition default_collate (batch : list (list pd.cell)) : result (list (list string)) :=
  match batch with
  | [] => Ok []
  | item :: _ =>
      traverse (fun j => traverse (fun it : list pd.cell =>
                                     c ← from_some IndexError (it !! j); as_text c) batch)
               (seq 0 (length item))
  end.

(** Iterating [DataLoader(dataset, batch_size)]: the batch sampler refuses
    a batch size that is not positive; the items of each index batch are
    fetched and collated when the loop reaches it. *)
Definition DataLoader (len : nat) (getitem : nat -> result (list pd.cell))
    (batch_size : nat) : result (list (result (list (list string)))) :=
  if decide (batch_size = 0)
  then Raise (ValueError
                ("batch_size should be a positive integer value, but got batch_size="
                 +:+ str (Z.of_nat batch_size)))
  else Ok ((fun indices => items ← traverse getitem indices; default_collate items)
           <$> batches batch_size (seq 0 len)).

End torch.

(** ** Metric identifiers and scorers *)

Module Metrics.
(** Modelled from the spec: the [Metrics] enumeration of
    [core_utils.llm.metrics], "a fixed enumerated metric identifier".  The
    source names the members [BLEU] and [ROUGE]; a member carries its name
    as [value], and [str(member)] gives that value. *)
Inductive t : Type := BLEU | ROUGE | F1 | ACCURACY.

Definition value (m : t) : string :=
  match m with
  | BLEU => "bleu"
  | ROUGE => "rouge"
  | F1 => "f1"
  | ACCURACY => "accuracy"
  end.

#[global] Instance eq_dec : EqDecision t.
Proof. solve_decision. Defined.
End Metrics.

(** Python objects that [==] compares in the evaluator: a member of the
    enumeration is an object of its own and never equals a string. *)
Inductive pyobj : Type :=
| PyMember (m : Metrics.t)
| PyStr (s : string).

Definition py_eq (a b : pyobj) : bool :=
  match a, b with
  | PyMember m, PyMember m' => bool_decide (m = m')
  | PyStr s, PyStr s' => bool_decide (s = s')
  | _, _ => false
  end.

Module evaluate.
(** A loaded scorer remembers the name and the seed it was loaded with. *)
Record EvaluationModule : Type := {
  name : string;
  seed : option nat
}.

(** [evaluate.load(path, seed=...)] *)
Definition load (path : string) (seed : option nat) : EvaluationModule :=
  {| name := path; seed := seed |}.

(** What [module.compute(references=, predictions=, average=)] returns:
    scores by key.  The computation is the library's. *)
Definition compute_fn : Type :=
  EvaluationModule -> pd.Series -> pd.Series -> option string -> result (gmap string Q).
End evaluate.

(** Files on disk, by path. *)
Definition filesystem : Type := gmap string csv.file.

(** What [analyze()] reports: the dictionary's six entries.  The two
    lengths are missing ([NaN]) when no sample has text. *)
Record analysis : Type := {
  dataset_number_of_samples : nat;
  dataset_columns : nat;
  dataset_duplicates : nat;
  dataset_empty_rows : nat;
  dataset_sample_min_len : option nat;
  dataset_sample_max_len : option nat
}.

(** ** Laboratory work 7: classification *)

Module Lab7.

Module RawDataPreprocessor.
Record t : Type := {
  _raw_data : pd.DataFrame;
  _data : option pd.DataFrame
}.

Definition dropped_columns : list string :=
  ["part"; "movie_name"; "review_id"; "author"; "date"; "title"; "grade10"].

Definition renamed_columns : gmap string string :=
  {[ "grade3" := ColumnNames.TARGET; "content" := ColumnNames.SOURCE ]}.

Definition label_codes : gmap string Z :=
  {[ "Good" := 1%Z; "Bad" := 2%Z; "Neutral" := 0%Z ]}.

(** [analyze()]: the dictionary's entries are computed in order. *)
Definition analyze (self : t) : result analysis :=
  let samples := pd.len (_raw_data self) in
  let columns := length (pd.columns (_raw_data self)) in
  let duplicates := pd.sum_flags (pd.duplicated (_raw_data self)) in
  let empty_rows := pd.sum_flags (pd.isnull_any (_raw_data self)) in
  min_len ← (content ← pd.getitem "content" (_raw_data self);
             pd.series_min <$> pd.map_len (pd.series_dropna content));
  max_len ← (content ← pd.getitem "content" (_raw_data self);
             pd.series_max <$> pd.map_len (pd.series_dropna content));
  Ok {| dataset_number_of_samples := samples;
        dataset_columns := columns;
        dataset_duplicates := duplicates;
        dataset_empty_rows := empty_rows;
        dataset_sample_min_len := min_len;
        dataset_sample_max_len := max_len |}.

(** [transform()]: the method's outcome and the object afterwards. *)
Definition transform (self : t) : result unit * t :=
  match pd.drop dropped_columns (_raw_data self) with
  | Raise e => (Raise e, self)
  | Ok dropped =>
      let data := pd.dropna (pd.rename renamed_columns dropped) in
      match pd.getitem ColumnNames.TARGET data with
      | Raise e => (Raise e, {| _raw_data := _raw_data self; _data := Some data |})
      | Ok target =>
          let data := pd.setitem ColumnNames.TARGET (pd.map label_codes target) data in
          (Ok (), {| _raw_data := _raw_data self;
                     _data := Some (pd.reset_index data) |})
      end
  end.
End RawDataPreprocessor.

Module TaskDataset.
Record t : Type := { _data : pd.DataFrame }.

Definition __init__ (data : pd.DataFrame) : t := {| _data := data |}.

Definition __len__ (self : t) : nat := pd.len (_data self).

(** The item is a one-field tuple. *)
Definition __getitem__ (self : t) (index : nat) : result (list pd.cell) :=
  column ← pd.getitem ColumnNames.SOURCE (_data self);
  c ← pd.loc index column;
  Ok [c].

Definition data (self : t) : pd.DataFrame := _data self.
End TaskDataset.

Module LLMPipeline.
(** A loaded classifier gives a row of class scores (never empty) for
    the ids it reads of one input row. *)
Definition BertForSequenceClassification : Type := list nat -> Z * list Z.

Record t : Type := {
  _model_name : string;
  _dataset : TaskDataset.t;
  _max_length : nat;
  _batch_size : nat;
  _device : string;
  _model : option BertForSequenceClassification;
  _tokenizer : transformers.Tokenizer
}.

(** The comprehension's element: [str(i) if i != 0 else "2"]. *)
Definition prediction_of_index (i : nat) : string :=
  if decide (i ≠ 0) then str (Z.of_nat i) else "2".

Definition _infer_batch (self : t) (sample_batch : list (list string))
  : result (list string) :=
  texts ← from_some IndexError (head sample_batch);
  let inputs := transformers.call_longest (_tokenizer self) texts (_max_length self) in
  model ← from_some (ValueError "There is no model") (_model self);
  let logits := (fun e => model (transformers.visible e)) <$> inputs in
  let predicted := torch.argmax <$> logits in
  Ok (prediction_of_index <$> predicted).

Definition infer_sample (self : t) (sample : list string) : result string :=
  match _model self with
  | None => Raise (ValueError "There is no model")
  | Some _ =>
      predictions ← _infer_batch self [sample];
      from_some IndexError (predictions !! 0)
  end.

Definition infer_dataset (self : t) : result pd.DataFrame :=
  dataloader ← torch.DataLoader (TaskDataset.__len__ (_dataset self))
                                 (TaskDataset.__getitem__ (_dataset self))
                                 (_batch_size self);
  predictions ← @concat string <$> traverse (fun next =>
                                       batch ← next; _infer_batch self batch)
                                    dataloader;
  target ← pd.getitem ColumnNames.TARGET (TaskDataset.data (_dataset self));
  pd.of_series_and_list ColumnNames.TARGET target
                        ColumnNames.PREDICTION (pd.Str <$> predictions).
End LLMPipeline.

Module TaskEvaluator.
(** The registry is a dictionary in insertion order. *)
Record t : Type := {
  _metrics : list Metrics.t;
  _data_path : string;
  _metrics_dict : list (string * evaluate.EvaluationModule)
}.

Definition __init__ (data_path : string) (metrics : list Metrics.t) : t :=
  {| _metrics := metrics;
     _data_path := data_path;
     _metrics_dict :=
       foldl (fun d metric =>
                let scorer := evaluate.load (Metrics.value metric) None in
                match list_find (fun kv => kv.1 = Metrics.value metric) d with
                | Some (i, _) => <[i := (Metrics.value metric, scorer)]> d
                | None => (d ++ [(Metrics.value metric, scorer)])%list
                end) [] metrics |}.

Definition run (compute : evaluate.compute_fn) (self : t) (fs : filesystem)
  : result (gmap string Q) :=
  content ← from_some (ValueError "No such file") (fs !! _data_path self);
  pred_df ← csv.read_csv content;
  foldl (fun acc kv =>
           metric_counts ← acc;
           references ← pd.getitem ColumnNames.TARGET pred_df;
           predictions ← pd.getitem ColumnNames.PREDICTION pred_df;
           res ← compute kv.2 references predictions (Some "micro");
           score ← from_some (KeyError kv.1) (res !! kv.1);
           Ok (<[kv.1 := score]> metric_counts))
        (Ok ∅) (_metrics_dict self).
End TaskEvaluator.

(** [start.py]: from whole-dataset inference to the predictions file. *)
Module start.


End start.

End Lab7.

(** ** Laboratory work 8: fine-tuning for summarization *)

Module Lab8.

Module RawDataPreprocessor.
Record t : Type := {
  _raw_data : pd.DataFrame;
  _data : option pd.DataFrame
}.

Definition renamed_columns : gmap string string :=
  {[ "highlights" := ColumnNames.TARGET; "article" := ColumnNames.SOURCE ]}.

(** [analyze()]: the dictionary's entries are computed in order. *)
Definition analyze (self : t) : result analysis :=
  let samples := pd.len (_raw_data self) in
  let columns := length (pd.columns (_raw_data self)) in
  let duplicates := pd.sum_flags (pd.duplicated (_raw_data self)) in
  let empty_rows := pd.sum_flags (pd.isnull_any (_raw_data self)) in
  min_len ← (article ← pd.getitem "article" (_raw_data self);
             pd.series_min <$> pd.map_len (pd.series_dropna article));
  max_len ← (article ← pd.getitem "article" (_raw_data self);
             pd.series_max <$> pd.map_len (pd.series_dropna article));
  Ok {| dataset_number_of_samples := samples;
        dataset_columns := columns;
        dataset_duplicates := duplicates;
        dataset_empty_rows := empty_rows;
        dataset_sample_min_len := min_len;
        dataset_sample_max_len := max_len |}.

(** [transform()]: the method's outcome and the object afterwards. *)
Definition transform (self : t) : result unit * t :=
  match pd.drop ["id"] (_raw_data self) with
  | Raise e => (Raise e, self)
  | Ok dropped =>
      let data := pd.drop_duplicates (pd.rename renamed_columns dropped) in
      let failed e := (Raise e, {| _raw_data := _raw_data self; _data := Some data |}) in
      match pd.getitem "source" data with
      | Raise e => failed e
      | Ok source =>
          match pd.str_replace "(CNN)" "" source with
          | Raise e => failed e
          | Ok replaced =>
              let data := pd.setitem "source" replaced data in
              (Ok (), {| _raw_data := _raw_data self;
                         _data := Some (pd.reset_index data) |})
          end
      end
  end.
End RawDataPreprocessor.

Module TaskDataset.
Record t : Type := { _data : pd.DataFrame }.

Definition __init__ (data : pd.DataFrame) : t := {| _data := data |}.

Definition __len__ (self : t) : nat := pd.len (_data self).

Definition __getitem__ (self : t) (index : nat) : result (list pd.cell) :=
  column ← pd.getitem ColumnNames.SOURCE (_data self);
  c ← pd.loc index column;
  Ok [c].

Definition data (self : t) : pd.DataFrame := _data self.
End TaskDataset.

(** A row of a frame handed to [apply(..., axis=1)]: values by column label. *)
Definition sample_getitem (name : string) (sample : list (string * pd.cell))
  : result pd.cell :=
  from_some (KeyError name) (snd <$> (snd <$> list_find (fun kv => kv.1 = name) sample)).

Definition tokenize_sample (sample : list (string * pd.cell))
    (tokenizer : transformers.Tokenizer) (max_length : nat)
  : result (gmap string (list nat)) :=
  source ← sample_getitem ColumnNames.SOURCE sample;
  source_text ← torch.as_text source;
  let tokenized_source := transformers.call_max_length tokenizer source_text 120 in
  target ← sample_getitem ColumnNames.TARGET sample;
  target_text ← torch.as_text target;
  let tokenized_target := transformers.call_max_length tokenizer target_text 120 in
  Ok {[ "input_ids" := transformers.input_ids tokenized_source;
        "attention_mask" := transformers.attention_mask tokenized_source;
        "labels" := transformers.input_ids tokenized_target ]}.

Module TokenizedTaskDataset.
Record t : Type := { _data : list (gmap string (list nat)) }.

Definition __init__ (data : pd.DataFrame) (tokenizer : transformers.Tokenizer)
    (max_length : nat) : result t :=
  tokenized ← traverse (fun r => tokenize_sample (zip (pd.columns data) r.2)
                                                 tokenizer max_length)
                       (pd.rows data);
  Ok {| _data := tokenized |}.

Definition __len__ (self : t) : nat := length (_data self).

Definition __getitem__ (self : t) (index : nat) : result (gmap string (list nat)) :=
  from_some IndexError (_data self !! index).
End TokenizedTaskDataset.

Module LLMPipeline.
(** A loaded sequence-to-sequence model: [generate] on the ids it reads
    of one input row, up to [max_length] output ids. *)
Record AutoModelForSeq2SeqLM : Type := {
  generate : list nat -> nat -> list nat
}.

Record t : Type := {
  _model_name : string;
  _dataset : TaskDataset.t;
  _max_length : nat;
  _batch_size : nat;
  _device : string;
  _model : option AutoModelForSeq2SeqLM;
  _tokenizer : transformers.Tokenizer
}.

Definition _infer_batch (self : t) (sample_batch : list (list string))
  : result (list string) :=
  _ ← from_some (AttributeError "'NoneType' object has no attribute 'eval'")
                (_model self);
  texts ← from_some IndexError (head sample_batch);
  let inputs := transformers.call_longest (_tokenizer self) texts (_max_length self) in
  model ← from_some (ValueError "There is no model") (_model self);
  let outputs := (fun e => generate model (transformers.visible e) (_max_length self))
                   <$> inputs in
  let decoded_output := transformers.decode (_tokenizer self) <$> outputs in
  Ok decoded_output.

Definition infer_sample (self : t) (sample : list string) : result string :=
  match _model self with
  | None => Raise (ValueError "There is no model")
  | Some _ =>
      predictions ← _infer_batch self [sample];
      from_some IndexError (predictions !! 0)
  end.

Definition infer_dataset (self : t) : result pd.DataFrame :=
  dataloader ← torch.DataLoader (TaskDataset.__len__ (_dataset self))
                                 (TaskDataset.__getitem__ (_dataset self))
                                 (_batch_size self);
  predictions ← @concat string <$> traverse (fun next =>
                                       batch ← next; _infer_batch self batch)
                                    dataloader;
  target ← pd.getitem ColumnNames.TARGET (TaskDataset.data (_dataset self));
  pd.of_series_and_list ColumnNames.TARGET target
                        ColumnNames.PREDICTION (pd.Str <$> predictions).
End LLMPipeline.

Module TaskEvaluator.
Record t : Type := {
  _metrics : list Metrics.t;
  _data_path : string;
  _metrics_dict : list evaluate.EvaluationModule
}.

Definition __init__ (data_path : string) (metrics : list Metrics.t) : t :=
  {| _metrics := metrics;
     _data_path := data_path;
     _metrics_dict :=
       (fun metric =>
          if py_eq (PyMember metric) (PyStr (Metrics.value Metrics.ROUGE))
          then evaluate.load (Metrics.value metric) (Some 77)
          else evaluate.load (Metrics.value metric) None) <$> metrics |}.

Definition run (compute : evaluate.compute_fn) (self : t) (fs : filesystem)
  : result (gmap string Q) :=
  content ← from_some (ValueError "No such file") (fs !! _data_path self);
  pred_df ← csv.read_csv content;
  foldl (fun acc metric =>
           metric_counts ← acc;
           references ← pd.getitem ColumnNames.TARGET pred_df;
           predictions ← pd.getitem ColumnNames.PREDICTION pred_df;
           res ← compute metric references predictions None;
           let key := if bool_decide (evaluate.name metric = Metrics.value Metrics.BLEU)
                      then "bleu" else "rougeL" in
           score ← from_some (KeyError key) (res !! key);
           Ok (<[evaluate.name metric := score]> metric_counts))
        (Ok ∅) (_metrics_dict self).
End TaskEvaluator.

(** Modelled from the spec: the fine-tuning parameters of
    [config.lab_settings], each of which the configuration may leave unset
    (device, output path, step budget, batch size, learning rate). *)
Record SFTParams : Type := {
  device : string;
  finetuned_model_path : option string;
  max_fine_tuning_steps : option nat;
  batch_size : option nat;
  learning_rate : option Q
}.

Module SFTPipeline.
Record LoraConfig : Type := {
  r : nat;
  lora_alpha : nat;
  lora_dropout : Q
}.

(** What [self._model] holds: an adapter-wrapped network, or an object
    that is no [torch.nn.Module]. *)
Inductive model_object : Type :=
| PeftModel (base_name : string) (config : LoraConfig) (on_device : string)
| NotAModule.

Record TrainingArguments : Type := {
  output_dir : string;
  max_steps : nat;
  per_device_train_batch_size : nat;
  args_learning_rate : Q;
  save_strategy : string;
  use_cpu : bool;
  load_best_model_at_end : bool
}.

(** What fine-tuning does to the outside. *)
Inductive event : Type :=
| TrainerTrain (args : TrainingArguments) (dataset_length : nat)
| MergeAndUnload
| ModelSavePretrained (path : string)
| TokenizerSavePretrained (model_name path : string).

Record world : Type := {
  directories : gset string;
  events : list event
}.

Record t : Type := {
  _model_name : string;
  _dataset : TokenizedTaskDataset.t;
  _model : model_object;
  _lora_config : LoraConfig;
  _device : string;
  _finetuned_model_path : option string;
  _max_steps : option nat;
  _per_device_train_batch_size : option nat;
  _learning_rate : option Q
}.

Definition __init__ (model_name : string) (dataset : TokenizedTaskDataset.t)
    (sft_params : SFTParams) : t :=
  let lora_config := {| r := 4; lora_alpha := 8; lora_dropout := (1 # 10)%Q |} in
  {| _model_name := model_name;
     _dataset := dataset;
     _model := PeftModel model_name lora_config (device sft_params);
     _lora_config := lora_config;
     _device := device sft_params;
     _finetuned_model_path := finetuned_model_path sft_params;
     _max_steps := max_fine_tuning_steps sft_params;
     _per_device_train_batch_size := batch_size sft_params;
     _learning_rate := learning_rate sft_params |}.

Definition emit (e : event) (w : world) : world :=
  {| directories := directories w; events := events w ++ [e] |}.

Definition makedirs (path : string) (w : world) : world :=
  {| directories := {[ path ]} ∪ directories w; events := events w |}.

(** [run()]: the method's outcome and the outside afterwards.  Past the
    guard and the class test, the library calls are logged in the order the
    method makes them, as in a run in which none of them raises. *)
Definition run (self : t) (w : world) : result unit * world :=
  match _finetuned_model_path self, _per_device_train_batch_size self,
        _max_steps self, _learning_rate self with
  | Some path, Some batch, Some steps, Some rate =>
      match _model self with
      | NotAModule => (Raise (TypeError "Wrong class of model"), w)
      | PeftModel _ _ _ =>
          let training_params :=
            {| output_dir := path;
               max_steps := steps;
               per_device_train_batch_size := batch;
               args_learning_rate := rate;
               save_strategy := "no";
               use_cpu := bool_decide (_device self = "cpu");
               load_best_model_at_end := false |} in
          let w := emit (TrainerTrain training_params
                           (TokenizedTaskDataset.__len__ (_dataset self))) w in
          let w := emit MergeAndUnload w in
          let w := emit (ModelSavePretrained path) (makedirs path w) in
          let w := emit (TokenizerSavePretrained (_model_name self) path)
                        (makedirs path w) in
          (Ok (), w)
      end
  | _, _, _, _ => (Ok (), w)
  end.
End SFTPipeline.

End Lab8.

(** * Notions used in the statements *)

(** The class index a classifier prefers for one text, read through the
    pipeline's tokenizer and length limit. *)
Definition predicted_index (self : Lab7.LLMPipeline.t)
    (model : Lab7.LLMPipeline.BertForSequenceClassification) (text : string) : nat :=
  torch.argmax (model (take (Lab7.LLMPipeline._max_length self)
                            (transformers.encode (Lab7.LLMPipeline._tokenizer self) text))).

(** The summary a sequence-to-sequence model generates for one text. *)
Definition generated_text (self : Lab8.LLMPipeline.t)
    (model : Lab8.LLMPipeline.AutoModelForSeq2SeqLM) (text : string) : string :=
  transformers.decode (Lab8.LLMPipeline._tokenizer self)
    (Lab8.LLMPipeline.generate model
       (take (Lab8.LLMPipeline._max_length self)
             (transformers.encode (Lab8.LLMPipeline._tokenizer self) text))
       (Lab8.LLMPipeline._max_length self)).

(** The remapping as the specification words it: index 0 and code 2 swapped. *)
Definition swapped_prediction (i : nat) : string :=
  match i with
  | 0 => "2"
  | 2 => "0"
  | _ => str (Z.of_nat i)
  end.

(** Every row is as wide as the header. *)
Definition rectangular (df : pd.DataFrame) : Prop :=
  Forall (fun r : nat * list pd.cell => length r.2 = length (pd.columns df)) (pd.rows df).

(** Index labels are the row positions [0 .. n-1]. *)
Definition range_index (df : pd.DataFrame) : Prop :=
  fst <$> pd.rows df = seq 0 (length (pd.rows df)).

(** The cell of a row under the first column whose label passes a test. *)
Fixpoint first_cell (test : string -> bool) (columns : list string) (cells : list pd.cell)
  : option pd.cell :=
  match columns, cells with
  | c :: columns', x :: cells' =>
      if test c then Some x else first_cell test columns' cells'
  | _, _ => None
  end.


(** The integer code that lab 7 gives a label cell. *)
Definition code_of_label (c : pd.cell) : pd.cell :=
  match c with
  | pd.Str k => from_option pd.Int pd.NA (Lab7.RawDataPreprocessor.label_codes !! k)
  | _ => pd.NA
  end.

(** The text that lab 8 leaves in a source cell. *)
Definition without_cnn (c : pd.cell) : pd.cell :=
  match c with
  | pd.Str t => pd.Str (replace "(CNN)" "" t)
  | _ => pd.NA
  end.




(** What a report says of a raw table and of its text column: the row
    and column counts; fewer duplicates than rows; no more rows with a gap
    than rows; and either both lengths missing, when no row has text, or the
    least and the greatest length, in characters, of the texts present. *)
Definition report_describes (a : analysis) (raw : pd.DataFrame)
    (texts : list (nat * pd.cell)) : Prop :=
  dataset_number_of_samples a = pd.len raw
  /\ dataset_columns a = length (pd.columns raw)
  /\ (pd.len raw = 0 \/ dataset_duplicates a < pd.len raw)
  /\ dataset_empty_rows a <= pd.len raw
  /\ ((dataset_sample_min_len a = None /\ dataset_sample_max_len a = None
       /\ forall r, r ∈ texts -> r.2 = pd.NA)
      \/ exists lo hi,
          dataset_sample_min_len a = Some lo /\ dataset_sample_max_len a = Some hi
          /\ (forall r, r ∈ texts ->
                        r.2 = pd.NA
                        \/ exists t, r.2 = pd.Str t /\ lo <= text_len t <= hi)
          /\ (exists r t, r ∈ texts /\ r.2 = pd.Str t /\ text_len t = lo)
          /\ (exists r t, r ∈ texts /\ r.2 = pd.Str t /\ text_len t = hi)).

(** No missing value anywhere in a table. *)
Definition complete (df : pd.DataFrame) : Prop :=
  Forall (fun r : nat * list pd.cell => pd.NA ∉ r.2) (pd.rows df).



(** * Sample objects

    Small concrete instances on which the statements below are exercised. *)

Module Samples.

(** Character codes as token ids; id 0 pads. *)
Definition tokenizer : transformers.Tokenizer :=
  {| transformers.encode := fun s => nat_of_ascii <$> list_ascii_of_string s;
     transformers.decode := fun ids => string_of_list_ascii (ascii_of_nat <$> ids);
     transformers.pad_token_id := 0 |}.

(** Scores over three classes, read off the length of the input. *)
Definition classifier : Lab7.LLMPipeline.BertForSequenceClassification :=
  fun ids => (Z.of_nat (length ids mod 2) * 10, [Z.of_nat (length ids); 5])%Z.

(** A classifier that always prefers class 1. *)
Definition always_class_1 : Lab7.LLMPipeline.BertForSequenceClassification :=
  fun _ => (0, [1; 0])%Z.

(** A classifier that always prefers class 2. *)
Definition prefers_class_2 : Lab7.LLMPipeline.BertForSequenceClassification :=
  fun _ => (0, [1; 2])%Z.

Definition clean_table : pd.DataFrame :=
  {| pd.columns := ["target"; "source"];
     pd.rows := [(0, [pd.Int 1; pd.Str "good movie"]);
                 (1, [pd.Int 2; pd.Str "bad movie"]);
                 (2, [pd.Int 0; pd.Str "ok movie"])] |}.

Definition pipeline7 (model : option Lab7.LLMPipeline.BertForSequenceClassification)
  : Lab7.LLMPipeline.t :=
  {| Lab7.LLMPipeline._model_name := "bert";
     Lab7.LLMPipeline._dataset := Lab7.TaskDataset.__init__ clean_table;
     Lab7.LLMPipeline._max_length := 120;
     Lab7.LLMPipeline._batch_size := 2;
     Lab7.LLMPipeline._device := "cpu";
     Lab7.LLMPipeline._model := model;
     Lab7.LLMPipeline._tokenizer := tokenizer |}.

(** Raw reviews as the lab-7 dataset has them; the second has no text. *)
Definition raw_reviews : pd.DataFrame :=
  {| pd.columns := ["part"; "movie_name"; "review_id"; "author"; "date"; "title";
                    "grade3"; "grade10"; "content"];
     pd.rows :=
       [(0, [pd.Str "top"; pd.Str "Alien"; pd.Int 1; pd.Str "ann"; pd.Str "2020";
             pd.Str "t1"; pd.Str "Good"; pd.Int 9; pd.Str "good movie"]);
        (1, [pd.Str "top"; pd.Str "Alien"; pd.Int 2; pd.Str "bob"; pd.Str "2020";
             pd.Str "t2"; pd.Str "Neutral"; pd.Int 5; pd.NA]);
        (2, [pd.Str "top"; pd.Str "Alien"; pd.Int 3; pd.Str "cyd"; pd.Str "2021";
             pd.NA; pd.Str "Bad"; pd.Int 2; pd.Str "bad movie"])] |}.

(** The same, with a label outside the three that the code maps. *)
Definition raw_reviews_with_other_label : pd.DataFrame :=
  {| pd.columns := pd.columns raw_reviews;
     pd.rows :=
       [(0, [pd.Str "top"; pd.Str "Alien"; pd.Int 1; pd.Str "ann"; pd.Str "2020";
             pd.Str "t1"; pd.Str "Good"; pd.Int 9; pd.Str "good movie"]);
        (1, [pd.Str "top"; pd.Str "Alien"; pd.Int 2; pd.Str "bob"; pd.Str "2020";
             pd.Str "t2"; pd.Str "Excellent"; pd.Int 10; pd.Str "great movie"])] |}.

(** Raw articles as the lab-8 dataset has them; the second repeats the first. *)
Definition raw_articles : pd.DataFrame :=
  {| pd.columns := ["article"; "highlights"; "id"];
     pd.rows := [(0, [pd.Str "(CNN)Rain fell all day."; pd.Str "rain"; pd.Str "a"]);
                 (1, [pd.Str "(CNN)Rain fell all day."; pd.Str "rain"; pd.Str "a"]);
                 (2, [pd.Str "The sun came out."; pd.Str "sun"; pd.Str "b"])] |}.


Definition preprocessor7 (raw : pd.DataFrame) : Lab7.RawDataPreprocessor.t :=
  {| Lab7.RawDataPreprocessor._raw_data := raw; Lab7.RawDataPreprocessor._data := None |}.

Definition preprocessor8 (raw : pd.DataFrame) : Lab8.RawDataPreprocessor.t :=
  {| Lab8.RawDataPreprocessor._raw_data := raw; Lab8.RawDataPreprocessor._data := None |}.

(** A summarizer that keeps the first three ids it reads. *)
Definition summarizer : Lab8.LLMPipeline.AutoModelForSeq2SeqLM :=
  {| Lab8.LLMPipeline.generate := fun ids max_length => take (min 3 max_length) ids |}.

Definition articles : pd.DataFrame :=
  {| pd.columns := ["source"; "target"];
     pd.rows := [(0, [pd.Str "rain fell all day"; pd.Str "rain"]);
                 (1, [pd.Str "sun came out"; pd.Str "sun"]);
                 (2, [pd.Str "wind rose"; pd.Str "wind"])] |}.

Definition pipeline8 (model : option Lab8.LLMPipeline.AutoModelForSeq2SeqLM)
  : Lab8.LLMPipeline.t :=
  {| Lab8.LLMPipeline._model_name := "t5";
     Lab8.LLMPipeline._dataset := Lab8.TaskDataset.__init__ articles;
     Lab8.LLMPipeline._max_length := 120;
     Lab8.LLMPipeline._batch_size := 2;
     Lab8.LLMPipeline._device := "cpu";
     Lab8.LLMPipeline._model := model;
     Lab8.LLMPipeline._tokenizer := tokenizer |}.

(** Fine-tuning parameters that leave the step budget unset. *)
Definition params_without_steps : Lab8.SFTParams :=
  {| Lab8.device := "cpu";
     Lab8.finetuned_model_path := Some "dist/t5";
     Lab8.max_fine_tuning_steps := None;
     Lab8.batch_size := Some 3;
     Lab8.learning_rate := Some (1 # 1000)%Q |}.

Definition untouched_world : Lab8.SFTPipeline.world :=
  {| Lab8.SFTPipeline.directories := ∅; Lab8.SFTPipeline.events := [] |}.

Definition no_training_data : Lab8.TokenizedTaskDataset.t :=
  {| Lab8.TokenizedTaskDataset._data := [] |}.

(** Raw reviews that carry no label column. *)
Definition raw_reviews_without_labels : pd.DataFrame :=
  {| pd.columns := ["part"; "movie_name"; "review_id"; "author"; "date"; "title";
                    "grade10"; "content"];
     pd.rows :=
       [(0, [pd.Str "top"; pd.Str "Alien"; pd.Int 1; pd.Str "ann"; pd.Str "2020";
             pd.Str "t1"; pd.Int 9; pd.Str "good movie"])] |}.

(** Raw summaries that carry no article column. *)
Definition raw_highlights : pd.DataFrame :=
  {| pd.columns := ["highlights"; "id"];
     pd.rows := [(0, [pd.Str "rain"; pd.Str "a"])] |}.

(** One row of a clean lab-8 table that lost its source. *)
Definition sample_without_source : list (string * pd.cell) :=
  [("target", pd.Str "rain")].

(** A predictions file, and a scorer that always answers. *)
Definition predictions_file : csv.file :=
  [[""; "target"; "prediction"]; ["0"; "1"; "1"]; ["1"; "2"; "1"]; ["2"; "0"; "1"]].

Definition agreeable_scorer : evaluate.compute_fn :=
  fun scorer _ _ _ =>
    Ok {[ evaluate.name scorer := (1 # 2)%Q; "rougeL" := (1 # 4)%Q ]}.

(** A clean table that has no rows. *)
Definition no_rows : pd.DataFrame :=
  {| pd.columns := ["target"; "source"]; pd.rows := [] |}.

(** Pipelines over a given table, with a given batch size. *)
Definition pipeline7_over (df : pd.DataFrame) (batch_size : nat)
    (model : option Lab7.LLMPipeline.BertForSequenceClassification) : Lab7.LLMPipeline.t :=
  {| Lab7.LLMPipeline._model_name := "bert";
     Lab7.LLMPipeline._dataset := Lab7.TaskDataset.__init__ df;
     Lab7.LLMPipeline._max_length := 120;
     Lab7.LLMPipeline._batch_size := batch_size;
     Lab7.LLMPipeline._device := "cpu";
     Lab7.LLMPipeline._model := model;
     Lab7.LLMPipeline._tokenizer := tokenizer |}.

Definition pipeline8_over (df : pd.DataFrame) (batch_size : nat)
    (model : option Lab8.LLMPipeline.AutoModelForSeq2SeqLM) : Lab8.LLMPipeline.t :=
  {| Lab8.LLMPipeline._model_name := "t5";
     Lab8.LLMPipeline._dataset := Lab8.TaskDataset.__init__ df;
     Lab8.LLMPipeline._max_length := 120;
     Lab8.LLMPipeline._batch_size := batch_size;
     Lab8.LLMPipeline._device := "cpu";
     Lab8.LLMPipeline._model := model;
     Lab8.LLMPipeline._tokenizer := tokenizer |}.

(** The clean table with its rows under the index labels 2, 0, 1, as a
    table that was reordered and not re-indexed carries them. *)
Definition shuffled_table : pd.DataFrame :=
  {| pd.columns := ["target"; "source"];
     pd.rows := [(2, [pd.Int 1; pd.Str "good movie"]);
                 (0, [pd.Int 2; pd.Str "bad movie"]);
                 (1, [pd.Int 0; pd.Str "ok movie"])] |}.


(** Raw reviews in Russian, as the lab-7 dataset has them: six and two
    letters, each letter two bytes long. *)
Definition raw_russian_reviews : pd.DataFrame :=
  {| pd.columns := ["grade3"; "content"];
     pd.rows := [(0, [pd.Str "Good"; pd.Str "привет"]);
                 (1, [pd.Str "Bad"; pd.Str "да"])] |}.

(** Raw articles among which a number sits where an article should be. *)
Definition raw_articles_with_number : pd.DataFrame :=
  {| pd.columns := ["article"; "highlights"; "id"];
     pd.rows := [(0, [pd.Str "(CNN)Rain fell all day."; pd.Str "rain"; pd.Str "a"]);
                 (1, [pd.Int 5; pd.Str "five"; pd.Str "b"])] |}.

End Samples.

(** * Properties *)

(** ** Results *)

Lemma traverse_Ok_fmap {A B : Type} (f : A -> result B) (g : A -> B) (l : list A) :
  (forall x, x ∈ l -> f x = Ok (g x)) -> traverse f l = Ok (g <$> l).
Proof.
  induction l as [|x l IH]; intros Hf; simpl.
  - reflexivity.
  - rewrite (Hf x) by apply list_elem_of_here. simpl.
    rewrite IH; [reflexivity |].
    intros y Hy. apply Hf. now apply list_elem_of_further.
Qed.

(** Membership in a list that is written out. *)
Ltac elem_of_listed :=
  repeat first [apply list_elem_of_here | apply list_elem_of_further].

Ltac not_elem_of_listed H :=
  repeat (apply elem_of_cons in H as [H | H]; [discriminate H |]);
  now apply elem_of_nil in H.

(** ** Decimal rendering *)

Lemma to_int_proper (z : Z) : Z.to_int z <> Pos Nil /\ Z.to_int z <> Neg Nil.
Proof.
  destruct z as [|p|p]; simpl; split; try discriminate;
    intros [= H]; now apply (DecimalPos.Unsigned.to_uint_nonnil p).
Qed.

Lemma int_str (z : Z) : int (str z) = Some z.
Proof.
  unfold int, str.
  destruct (to_int_proper z) as [Hp Hn].
  rewrite NilZero.isi by assumption.
  simpl. now rewrite DecimalZ.of_to.
Qed.

Lemma str_inj (z z' : Z) : str z = str z' -> z = z'.
Proof.
  intros H. apply (f_equal int) in H. rewrite !int_str in H. congruence.
Qed.

(** ** Fine-tuning: the guard of [run()] *)

Section sft_run.
Import Lab8 Lab8.SFTPipeline.

Lemma run_guard (self : SFTPipeline.t) (w : world) :
  _finetuned_model_path self = None
  \/ _per_device_train_batch_size self = None
  \/ _max_steps self = None
  \/ _learning_rate self = None ->
  run self w = (Ok (), w).
Proof.
  unfold run.
  intros [H | [H | [H | H]]]; rewrite H.
  - reflexivity.
  - now destruct (_finetuned_model_path self).
  - now destruct (_finetuned_model_path self), (_per_device_train_batch_size self).
  - now destruct (_finetuned_model_path self), (_per_device_train_batch_size self),
      (_max_steps self).
Qed.

End sft_run.

(** C2. [SFTPipeline.run()] with any of output path, batch size, step budget
    or learning rate unset returns normally and leaves the outside as it
    was: no training step is logged and no directory is created.  The same
    holds for a pipeline built by [__init__] from parameters that leave one
    of them unset, in particular [max_fine_tuning_steps = None]. *)
Theorem sft_run_is_noop_when_unset :
  (forall (self : Lab8.SFTPipeline.t) (w : Lab8.SFTPipeline.world),
      Lab8.SFTPipeline._finetuned_model_path self = None
      \/ Lab8.SFTPipeline._per_device_train_batch_size self = None
      \/ Lab8.SFTPipeline._max_steps self = None
      \/ Lab8.SFTPipeline._learning_rate self = None ->
      Lab8.SFTPipeline.run self w = (Ok (), w))
  /\ (forall model_name dataset (params : Lab8.SFTParams) (w : Lab8.SFTPipeline.world),
         Lab8.finetuned_model_path params = None
         \/ Lab8.batch_size params = None
         \/ Lab8.max_fine_tuning_steps params = None
         \/ Lab8.learning_rate params = None ->
         let after := Lab8.SFTPipeline.run
                        (Lab8.SFTPipeline.__init__ model_name dataset params) w in
         after.1 = Ok ()
         /\ Lab8.SFTPipeline.events after.2 = Lab8.SFTPipeline.events w
         /\ Lab8.SFTPipeline.directories after.2 = Lab8.SFTPipeline.directories w).
Proof.
  split.
  - intros self w H. now apply run_guard.
  - intros model_name dataset params w H after. subst after.
    rewrite run_guard; [now repeat split |].
    exact H.
Qed.

Lemma sft_run_is_noop_when_unset_witness :
  let after := Lab8.SFTPipeline.run
                 (Lab8.SFTPipeline.__init__ "t5" Samples.no_training_data
                                            Samples.params_without_steps)
                 Samples.untouched_world in
  after.1 = Ok ()
  /\ Lab8.SFTPipeline.events after.2 = []
  /\ Lab8.SFTPipeline.directories after.2 = ∅.
Proof.
  apply (proj2 sft_run_is_noop_when_unset "t5" Samples.no_training_data
               Samples.params_without_steps Samples.untouched_world).
  right; right; left. reflexivity.
Defined.

(** ** The lab-8 evaluator's scorers *)

(** C9. [TaskEvaluator.__init__] of lab 8 makes one scorer per requested
    metric, in order, and every one of them is loaded without a seed: the
    test [metric == Metrics.ROUGE.value] compares a member of the
    enumeration with a string and never holds, so ROUGE gets no seed. *)
Theorem lab8_evaluator_loads_every_metric_unseeded (data_path : string)
    (metrics : list Metrics.t) :
  Lab8.TaskEvaluator._metrics_dict (Lab8.TaskEvaluator.__init__ data_path metrics)
  = (fun metric => evaluate.load (Metrics.value metric) None) <$> metrics
  /\ Lab8.TaskEvaluator._metrics_dict (Lab8.TaskEvaluator.__init__ data_path [Metrics.ROUGE])
     = [ {| evaluate.name := "rouge"; evaluate.seed := None |} ].
Proof.
  split; reflexivity.
Qed.

(** ** Tokenization for training *)

Lemma pad_to_length (tk : transformers.Tokenizer) (width : nat) (ids : list nat) :
  length ids <= width ->
  length (transformers.input_ids (transformers.pad_to tk width ids)) = width
  /\ length (transformers.attention_mask (transformers.pad_to tk width ids)) = width.
Proof.
  intros H. unfold transformers.pad_to. simpl.
  rewrite !length_app, !length_replicate. lia.
Qed.

Lemma call_max_length_length (tk : transformers.Tokenizer) (text : string) (n : nat) :
  length (transformers.input_ids (transformers.call_max_length tk text n)) = n
  /\ length (transformers.attention_mask (transformers.call_max_length tk text n)) = n.
Proof.
  apply pad_to_length. rewrite length_take. lia.
Qed.

(** C8. The per-sample tokenization does not use its [max_length]
    argument: whatever value is passed, source and target are cut and padded
    to 120, so [input_ids], [attention_mask] and [labels] have 120 entries
    each (for instance with [max_length = 64]). *)
Theorem tokenize_sample_pads_to_120 (tk : transformers.Tokenizer)
    (source target : string) (max_length : nat) :
  exists encoded,
    Lab8.tokenize_sample [(ColumnNames.SOURCE, pd.Str source);
                          (ColumnNames.TARGET, pd.Str target)] tk max_length
    = Ok encoded
    /\ length <$> encoded !! "input_ids" = Some 120
    /\ length <$> encoded !! "attention_mask" = Some 120
    /\ length <$> encoded !! "labels" = Some 120
    /\ Lab8.tokenize_sample [(ColumnNames.SOURCE, pd.Str source);
                             (ColumnNames.TARGET, pd.Str target)] tk 64
       = Ok encoded.
Proof.
  eexists. split; [reflexivity |].
  destruct (call_max_length_length tk source 120) as [Hi Hm].
  destruct (call_max_length_length tk target 120) as [Hl _].
  repeat split.
  - rewrite lookup_insert_eq. simpl. f_equal. exact Hi.
  - rewrite lookup_insert_ne by discriminate.
    rewrite (lookup_insert_eq (M := gmap string)). simpl. f_equal. exact Hm.
  - rewrite !lookup_insert_ne by discriminate. rewrite lookup_singleton_eq.
    simpl. f_equal. exact Hl.
Qed.

(** ** Batch inference *)

Lemma visible_of_mask_ones (ids : list nat) :
  fst <$> filter (fun p : nat * nat => p.2 ≠ 0) (zip ids (replicate (length ids) 1)) = ids.
Proof.
  induction ids as [|i ids IH]; [reflexivity |].
  cbn [length replicate zip_with].
  rewrite filter_cons_True by (simpl; lia).
  rewrite fmap_cons. simpl fst. now rewrite IH.
Qed.

Lemma visible_of_mask_zeros (k pad : nat) :
  filter (fun p : nat * nat => p.2 ≠ 0) (zip (replicate k pad) (replicate k 0)) = [].
Proof.
  induction k as [|k IH]; [reflexivity |].
  cbn [replicate zip_with].
  rewrite filter_cons_False by (simpl; lia). exact IH.
Qed.

(** Under its attention mask a padded row shows the sequence it was made of. *)
Lemma visible_pad_to (tk : transformers.Tokenizer) (width : nat) (ids : list nat) :
  transformers.visible (transformers.pad_to tk width ids) = ids.
Proof.
  unfold transformers.visible, transformers.pad_to.
  cbn [transformers.input_ids transformers.attention_mask].
  rewrite zip_with_app by now rewrite length_replicate.
  rewrite filter_app, fmap_app.
  rewrite visible_of_mask_ones, visible_of_mask_zeros.
  apply app_nil_r.
Qed.

Lemma visible_call_longest {B : Type} (tk : transformers.Tokenizer) (texts : list string)
    (max_length : nat) (net : list nat -> B) :
  (fun e => net (transformers.visible e)) <$> transformers.call_longest tk texts max_length
  = (fun t => net (take max_length (transformers.encode tk t))) <$> texts.
Proof.
  unfold transformers.call_longest.
  rewrite <- !list_fmap_compose.
  apply list_fmap_ext. intros _ t _. simpl. now rewrite visible_pad_to.
Qed.

Section lab7_inference.
Import Lab7.LLMPipeline.

Lemma infer_batch_loaded (self : t) model (texts : list string) (rest : list (list string)) :
  _model self = Some model ->
  _infer_batch self (texts :: rest)
  = Ok ((fun text => prediction_of_index (predicted_index self model text)) <$> texts).
Proof.
  intros Hm. unfold _infer_batch. simpl. rewrite Hm. simpl. f_equal.
  rewrite <- list_fmap_compose.
  rewrite (visible_call_longest _ _ _ model).
  rewrite <- !list_fmap_compose. reflexivity.
Qed.

Lemma infer_batch_Ok (self : t) (batch : list (list string)) (predictions : list string) :
  _infer_batch self batch = Ok predictions ->
  exists model texts rest,
    _model self = Some model /\ batch = texts :: rest
    /\ predictions
       = (fun text => prediction_of_index (predicted_index self model text)) <$> texts.
Proof.
  intros H. destruct batch as [|texts rest].
  - discriminate H.
  - destruct (_model self) as [model|] eqn:Hm.
    + exists model, texts, rest. rewrite (infer_batch_loaded _ model) in H by exact Hm.
      injection H as <-. auto.
    + unfold _infer_batch in H. simpl in H. rewrite Hm in H. discriminate H.
Qed.

Lemma prediction_of_index_not_0 (i : nat) : prediction_of_index i ≠ "0".
Proof.
  unfold prediction_of_index. destruct (decide (i ≠ 0)) as [Hi|Hi].
  - change "0" with (str 0). intros H. apply str_inj in H. lia.
  - discriminate.
Qed.
End lab7_inference.

Section lab8_inference.
Import Lab8.LLMPipeline.

Lemma generate_batch_loaded (self : t) model (texts : list string)
    (rest : list (list string)) :
  _model self = Some model ->
  _infer_batch self (texts :: rest) = Ok (generated_text self model <$> texts).
Proof.
  intros Hm. unfold _infer_batch. rewrite Hm.
  cbn [from_some head mbind result_bind]. f_equal.
  rewrite <- list_fmap_compose.
  exact (visible_call_longest (_tokenizer self) texts (_max_length self)
           (fun ids => transformers.decode (_tokenizer self)
                         (generate model ids (_max_length self)))).
Qed.
End lab8_inference.

(** C10. The lab-7 batch inference never yields the string "0": index 0
    is rendered as "2", every other index as its own decimal string, so
    indices 0 and 2 both give "2". *)
Theorem lab7_predictions_never_0 :
  (forall (self : Lab7.LLMPipeline.t) (batch : list (list string))
          (predictions : list string),
      Lab7.LLMPipeline._infer_batch self batch = Ok predictions ->
      "0" ∉ predictions)
  /\ Lab7.LLMPipeline.prediction_of_index 0 = "2"
  /\ Lab7.LLMPipeline.prediction_of_index 2 = "2"
  /\ (forall i, i ≠ 0 -> Lab7.LLMPipeline.prediction_of_index i = str (Z.of_nat i)).
Proof.
  repeat split.
  - intros self batch predictions H Hin.
    apply infer_batch_Ok in H as (model & texts & rest & _ & _ & ->).
    apply list_elem_of_fmap in Hin as (text & Heq & _).
    symmetry in Heq. now apply prediction_of_index_not_0 in Heq.
  - intros i Hi. unfold Lab7.LLMPipeline.prediction_of_index.
    now destruct (decide (i ≠ 0)).
Qed.

Lemma lab7_predictions_never_0_witness :
  Lab7.LLMPipeline._infer_batch (Samples.pipeline7 (Some Samples.classifier))
                                [["bad"; "good"; "great!"]]
  = Ok ["2"; "2"; "1"]
  /\ "0" ∉ ["2"; "2"; "1"].
Proof.
  assert (H : Lab7.LLMPipeline._infer_batch (Samples.pipeline7 (Some Samples.classifier))
                                            [["bad"; "good"; "great!"]]
              = Ok ["2"; "2"; "1"]) by reflexivity.
  split; [exact H |].
  exact (proj1 lab7_predictions_never_0 _ _ _ H).
Defined.

(** C1 (as the code has it). With a model loaded, the lab-7 batch inference
    returns one string per input text, in order: "2" where the arg-max
    class index is 0, and the decimal string of the index everywhere else
    (so an arg-max of 2 also yields "2"). *)
Theorem lab7_infer_batch_remapping (self : Lab7.LLMPipeline.t)
    (model : Lab7.LLMPipeline.BertForSequenceClassification)
    (texts : list string) (rest : list (list string)) :
  Lab7.LLMPipeline._model self = Some model ->
  Lab7.LLMPipeline._infer_batch self (texts :: rest)
  = Ok ((fun text => match predicted_index self model text with
                     | 0 => "2"
                     | S i => str (Z.of_nat (S i))
                     end) <$> texts).
Proof.
  intros Hm. rewrite (infer_batch_loaded self model) by exact Hm. f_equal.
  apply list_fmap_ext. intros _ text _.
  unfold Lab7.LLMPipeline.prediction_of_index.
  destruct (predicted_index self model text) as [|i].
  - destruct (decide (0 ≠ 0)) as [Hne|_]; [now destruct Hne | reflexivity].
  - destruct (decide (S i ≠ 0)) as [_|He]; [reflexivity |].
    exfalso. apply He. discriminate.
Qed.

Lemma lab7_infer_batch_remapping_witness :
  Lab7.LLMPipeline._infer_batch (Samples.pipeline7 (Some Samples.prefers_class_2))
                                [["bad movie"; "ok movie"]]
  = Ok ["2"; "2"].
Proof.
  rewrite (lab7_infer_batch_remapping _ Samples.prefers_class_2) by reflexivity.
  reflexivity.
Defined.

(** C1 as stated fails: a network whose arg-max is 2 gets "2", not the "0"
    that a swap of index 0 and code 2 would give. *)
Lemma lab7_remapping_is_no_swap :
  ~ (forall (self : Lab7.LLMPipeline.t) model texts rest,
        Lab7.LLMPipeline._model self = Some model ->
        Lab7.LLMPipeline._infer_batch self (texts :: rest)
        = Ok ((fun text => swapped_prediction (predicted_index self model text)) <$> texts)).
Proof.
  intros H.
  specialize (H (Samples.pipeline7 (Some Samples.prefers_class_2)) Samples.prefers_class_2
                ["bad movie"] [] eq_refl).
  discriminate H.
Qed.

(** C6. Without a loaded model [infer_sample] raises the "There is no
    model" value error, whatever the sample; with a model it returns the
    first prediction of the one-item batch holding the sample, which for a
    one-text sample is the model's prediction for that text.  Both labs. *)
Theorem infer_sample_contract :
  (forall (self : Lab7.LLMPipeline.t) (sample : list string),
      Lab7.LLMPipeline._model self = None ->
      Lab7.LLMPipeline.infer_sample self sample = Raise (ValueError "There is no model"))
  /\ (forall (self : Lab7.LLMPipeline.t) model (text : string) (more : list string),
         Lab7.LLMPipeline._model self = Some model ->
         Lab7.LLMPipeline.infer_sample self (text :: more)
         = Ok (Lab7.LLMPipeline.prediction_of_index (predicted_index self model text))
         /\ Lab7.LLMPipeline._infer_batch self [[text]]
            = Ok [Lab7.LLMPipeline.prediction_of_index (predicted_index self model text)])
  /\ (forall (self : Lab8.LLMPipeline.t) (sample : list string),
         Lab8.LLMPipeline._model self = None ->
         Lab8.LLMPipeline.infer_sample self sample = Raise (ValueError "There is no model"))
  /\ (forall (self : Lab8.LLMPipeline.t) model (text : string) (more : list string),
         Lab8.LLMPipeline._model self = Some model ->
         Lab8.LLMPipeline.infer_sample self (text :: more)
         = Ok (generated_text self model text)
         /\ Lab8.LLMPipeline._infer_batch self [[text]]
            = Ok [generated_text self model text]).
Proof.
  repeat split.
  - intros self sample Hm. unfold Lab7.LLMPipeline.infer_sample. now rewrite Hm.
  - unfold Lab7.LLMPipeline.infer_sample. rewrite H.
    now rewrite (infer_batch_loaded self model) by exact H.
  - now rewrite (infer_batch_loaded self model) by exact H.
  - intros self sample Hm. unfold Lab8.LLMPipeline.infer_sample. now rewrite Hm.
  - unfold Lab8.LLMPipeline.infer_sample. rewrite H.
    now rewrite (generate_batch_loaded self model) by exact H.
  - now rewrite (generate_batch_loaded self model) by exact H.
Qed.

Lemma infer_sample_contract_witness :
  Lab7.LLMPipeline.infer_sample (Samples.pipeline7 None) ["good movie"]
  = Raise (ValueError "There is no model")
  /\ Lab7.LLMPipeline.infer_sample (Samples.pipeline7 (Some Samples.classifier)) ["great!"]
     = Ok "1"
  /\ Lab8.LLMPipeline.infer_sample (Samples.pipeline8 None) ["rain fell all day"]
     = Raise (ValueError "There is no model")
  /\ Lab8.LLMPipeline.infer_sample (Samples.pipeline8 (Some Samples.summarizer))
                                   ["rain fell all day"]
     = Ok "rai".
Proof.
  destruct infer_sample_contract as (H7none & H7some & H8none & H8some).
  split; [| split; [| split]].
  - apply H7none. reflexivity.
  - apply (H7some (Samples.pipeline7 (Some Samples.classifier)) Samples.classifier
                  "great!" []). reflexivity.
  - apply H8none. reflexivity.
  - apply (H8some (Samples.pipeline8 (Some Samples.summarizer)) Samples.summarizer
                  "rain fell all day" []). reflexivity.
Defined.

(** ** Preprocessing: running [transform()] again *)

Lemma lab7_transform_keeps_raw (self : Lab7.RawDataPreprocessor.t) :
  Lab7.RawDataPreprocessor._raw_data (Lab7.RawDataPreprocessor.transform self).2
  = Lab7.RawDataPreprocessor._raw_data self.
Proof.
  unfold Lab7.RawDataPreprocessor.transform.
  destruct (pd.drop _ _) as [dropped|e]; [| reflexivity].
  simpl. now destruct (pd.getitem _ _).
Qed.

Lemma lab7_transform_again (self : Lab7.RawDataPreprocessor.t) :
  Lab7.RawDataPreprocessor.transform (Lab7.RawDataPreprocessor.transform self).2
  = Lab7.RawDataPreprocessor.transform self.
Proof.
  unfold Lab7.RawDataPreprocessor.transform at 2 3.
  destruct (pd.drop _ _) as [dropped|e] eqn:Hdrop.
  - cbn zeta.
    destruct (pd.getitem _ _) as [target|e] eqn:Htarget;
      unfold Lab7.RawDataPreprocessor.transform; simpl;
      rewrite Hdrop; cbn zeta; rewrite Htarget; reflexivity.
  - unfold Lab7.RawDataPreprocessor.transform. simpl. now rewrite Hdrop.
Qed.

Lemma lab8_transform_keeps_raw (self : Lab8.RawDataPreprocessor.t) :
  Lab8.RawDataPreprocessor._raw_data (Lab8.RawDataPreprocessor.transform self).2
  = Lab8.RawDataPreprocessor._raw_data self.
Proof.
  unfold Lab8.RawDataPreprocessor.transform.
  destruct (pd.drop _ _) as [dropped|e]; [| reflexivity].
  simpl. destruct (pd.getitem _ _); [| reflexivity].
  now destruct (pd.str_replace _ _ _).
Qed.

Lemma lab8_transform_again (self : Lab8.RawDataPreprocessor.t) :
  Lab8.RawDataPreprocessor.transform (Lab8.RawDataPreprocessor.transform self).2
  = Lab8.RawDataPreprocessor.transform self.
Proof.
  unfold Lab8.RawDataPreprocessor.transform at 2 3.
  destruct (pd.drop _ _) as [dropped|e] eqn:Hdrop.
  - cbn zeta.
    destruct (pd.getitem _ _) as [source|e] eqn:Hsource.
    + destruct (pd.str_replace _ _ _) as [replaced|e] eqn:Hreplaced;
        unfold Lab8.RawDataPreprocessor.transform; simpl;
        rewrite Hdrop; cbn zeta; rewrite Hsource, Hreplaced; reflexivity.
    + unfold Lab8.RawDataPreprocessor.transform; simpl.
      rewrite Hdrop; cbn zeta; rewrite Hsource; reflexivity.
  - unfold Lab8.RawDataPreprocessor.transform. simpl. now rewrite Hdrop.
Qed.

(** C3. Calling [transform()] a second time on the same preprocessor (the
    raw table is not touched by the call) ends in the same outcome and the
    same clean table as calling it once, in lab 7 and in lab 8. *)
Theorem transform_is_idempotent :
  (forall self : Lab7.RawDataPreprocessor.t,
      let once := Lab7.RawDataPreprocessor.transform self in
      let twice := Lab7.RawDataPreprocessor.transform once.2 in
      Lab7.RawDataPreprocessor._raw_data once.2 = Lab7.RawDataPreprocessor._raw_data self
      /\ twice.1 = once.1
      /\ Lab7.RawDataPreprocessor._data twice.2 = Lab7.RawDataPreprocessor._data once.2)
  /\ (forall self : Lab8.RawDataPreprocessor.t,
      let once := Lab8.RawDataPreprocessor.transform self in
      let twice := Lab8.RawDataPreprocessor.transform once.2 in
      Lab8.RawDataPreprocessor._raw_data once.2 = Lab8.RawDataPreprocessor._raw_data self
      /\ twice.1 = once.1
      /\ Lab8.RawDataPreprocessor._data twice.2 = Lab8.RawDataPreprocessor._data once.2).
Proof.
  split; intros self once twice; subst once twice.
  - rewrite lab7_transform_again. split; [apply lab7_transform_keeps_raw | now split].
  - rewrite lab8_transform_again. split; [apply lab8_transform_keeps_raw | now split].
Qed.

(** ** Whole-dataset inference *)

Lemma traverse_fmap {A B C : Type} (f : B -> result C) (h : A -> B) (l : list A) :
  traverse f (h <$> l) = traverse (fun x => f (h x)) l.
Proof.
  induction l as [|x l IH]; [reflexivity |].
  rewrite fmap_cons. cbn [traverse]. now rewrite IH.
Qed.

Lemma concat_fmap {A B : Type} (f : A -> B) (ls : list (list A)) :
  concat ((fun l : list A => f <$> l) <$> ls) = f <$> concat ls.
Proof.
  induction ls as [|l ls IH]; [reflexivity |].
  rewrite fmap_cons. simpl concat. now rewrite fmap_app, IH.
Qed.

Lemma batches_concat {A : Type} (batch_size : nat) (l : list A) :
  batch_size ≠ 0 -> concat (torch.batches batch_size l) = l.
Proof.
  funelim (torch.batches batch_size l); simp batches; intros Hne.
  - now destruct Hne.
  - reflexivity.
  - simpl. f_equal.
    match goal with IH : _ -> concat _ = _ |- _ => rewrite IH by exact Hne end.
    apply take_drop.
Qed.

Lemma batches_elem {A : Type} (batch_size : nat) (l chunk : list A) :
  chunk ∈ torch.batches batch_size l ->
  chunk ≠ [] /\ forall x, x ∈ chunk -> x ∈ l.
Proof.
  funelim (torch.batches batch_size l); simp batches; intros Hin.
  - now apply elem_of_nil in Hin.
  - now apply elem_of_nil in Hin.
  - apply elem_of_cons in Hin as [-> | Hin].
    + split; [discriminate |].
      intros y Hy. apply elem_of_cons in Hy as [-> | Hy].
      * apply list_elem_of_here.
      * apply list_elem_of_further.
        match type of Hy with _ ∈ take ?k ?m => rewrite <- (take_drop k m) end.
        apply elem_of_app. now left.
    + match goal with IH : forall c, _ ∈ _ -> _ /\ _ |- _ =>
        destruct (IH _ Hin) as [Hne Hsub] end.
      split; [exact Hne |].
      intros y Hy. apply list_elem_of_further. apply Hsub in Hy.
      match type of Hy with _ ∈ drop ?k ?m => rewrite <- (take_drop k m) end.
      apply elem_of_app. now right.
Qed.

(** On a range index a label is found at its own position. *)
Lemma loc_range_index (s : list (nat * pd.cell)) (i : nat) (r : nat * pd.cell) :
  fst <$> s = seq 0 (length s) -> s !! i = Some r -> pd.loc i s = Ok r.2.
Proof.
  intros Hrange Hi. unfold pd.loc.
  assert (Hlabel : forall j y, s !! j = Some y -> y.1 = j).
  { intros j y Hj.
    assert (H : (fst <$> s) !! j = Some y.1) by now rewrite list_lookup_fmap, Hj.
    rewrite Hrange in H. apply lookup_seq in H. simpl in H. lia. }
  assert (Hfind : list_find (fun r0 : nat * pd.cell => r0.1 = i) s = Some (i, r)).
  { apply list_find_Some. split; [exact Hi |]. split; [now apply Hlabel |].
    intros j y Hj Hlt Hy. apply Hlabel in Hj. lia. }
  now rewrite Hfind.
Qed.

Section whole_dataset.
Variable infer : list (list string) -> result (list string).
Variable predict : string -> string.
Hypothesis infer_spec : forall texts rest, infer (texts :: rest) = Ok (predict <$> texts).

Variable df : pd.DataFrame.
Variable texts : list string.
Variables sources targets : list (nat * pd.cell).
Variable batch_size : nat.
Hypothesis batch_size_positive : batch_size ≠ 0.
Hypothesis index_is_range : range_index df.
Hypothesis source_column : pd.getitem ColumnNames.SOURCE df = Ok sources.
Hypothesis sources_are_text : snd <$> sources = pd.Str <$> texts.
Hypothesis target_column : pd.getitem ColumnNames.TARGET df = Ok targets.

Let fetch (index : nat) : result (list pd.cell) :=
  column ← pd.getitem ColumnNames.SOURCE df;
  c ← pd.loc index column;
  Ok [c].

Let text_at (i : nat) : string := default "" (texts !! i).

Lemma column_length name s : pd.getitem name df = Ok s -> length s = pd.len df.
Proof.
  unfold pd.getitem. destruct (pd.column_position name df); simpl; [| discriminate].
  intros [= <-]. now rewrite length_fmap.
Qed.

Lemma column_index name s : pd.getitem name df = Ok s -> fst <$> s = fst <$> pd.rows df.
Proof.
  unfold pd.getitem. destruct (pd.column_position name df); simpl; [| discriminate].
  intros [= <-]. rewrite <- list_fmap_compose. reflexivity.
Qed.

Lemma texts_length : length texts = pd.len df.
Proof.
  rewrite <- (column_length _ _ source_column).
  rewrite <- (length_fmap snd sources), sources_are_text. now rewrite length_fmap.
Qed.

Lemma fetch_in_range i : i < pd.len df -> fetch i = Ok [pd.Str (text_at i)].
Proof.
  intros Hi. unfold fetch. rewrite source_column. simpl.
  destruct (lookup_lt_is_Some_2 sources i) as [r Hr].
  { now rewrite (column_length _ _ source_column). }
  rewrite (loc_range_index sources i r); [simpl | | exact Hr].
  - assert (H : (snd <$> sources) !! i = Some r.2) by now rewrite list_lookup_fmap, Hr.
    rewrite sources_are_text, list_lookup_fmap in H.
    unfold text_at. destruct (texts !! i); simpl in *; congruence.
  - rewrite (column_index _ _ source_column), (column_length _ _ source_column).
    exact index_is_range.
Qed.

Lemma collate_texts (indices : list nat) :
  indices ≠ [] ->
  torch.default_collate ((fun i => [pd.Str (text_at i)]) <$> indices)
  = Ok [text_at <$> indices].
Proof.
  destruct indices as [|i indices]; [congruence | intros _].
  unfold torch.default_collate. rewrite fmap_cons. simpl seq.
  cbn [traverse]. rewrite traverse_fmap.
  rewrite (traverse_Ok_fmap _ text_at); [reflexivity |].
  intros j _. reflexivity.
Qed.

Lemma batch_step (indices : list nat) :
  indices ≠ [] -> (forall i, i ∈ indices -> i < pd.len df) ->
  (items ← traverse fetch indices; torch.default_collate items) ≫= infer
  = Ok ((fun i => predict (text_at i)) <$> indices).
Proof.
  intros Hne Hlt.
  rewrite (traverse_Ok_fmap fetch (fun i => [pd.Str (text_at i)])).
  - simpl. rewrite collate_texts by exact Hne. simpl.
    rewrite infer_spec. now rewrite <- list_fmap_compose.
  - intros i Hi. apply fetch_in_range. now apply Hlt.
Qed.

Lemma text_at_range : text_at <$> seq 0 (pd.len df) = texts.
Proof.
  rewrite <- texts_length. apply list_eq. intros i.
  rewrite list_lookup_fmap. unfold text_at.
  destruct (texts !! i) as [t|] eqn:Ht.
  - rewrite (lookup_seq_lt 0 (length texts) i) by (now apply lookup_lt_Some in Ht).
    simpl. now rewrite Ht.
  - rewrite lookup_seq_ge; [reflexivity |]. now apply lookup_ge_None.
Qed.

Lemma loop_over_batches (chunks : list (list nat)) :
  (forall chunk, chunk ∈ chunks ->
                 chunk ≠ [] /\ forall i, i ∈ chunk -> i < pd.len df) ->
  traverse (fun next : result (list (list string)) => batch ← next; infer batch)
           ((fun indices : list nat =>
               items ← traverse fetch indices; torch.default_collate items)
              <$> chunks)
  = Ok ((fun chunk : list nat => (fun i => predict (text_at i)) <$> chunk) <$> chunks).
Proof.
  intros Hchunks. rewrite traverse_fmap.
  apply traverse_Ok_fmap. intros chunk Hin.
  destruct (Hchunks chunk Hin) as [Hne Hlt]. now apply batch_step.
Qed.

(** The table that the loop and the final frame construction produce. *)
Lemma infer_dataset_loop :
  (dataloader ← torch.DataLoader (pd.len df) fetch batch_size;
   predictions ← @concat string <$> traverse (fun next => batch ← next; infer batch)
                                             dataloader;
   target ← pd.getitem ColumnNames.TARGET df;
   pd.of_series_and_list ColumnNames.TARGET target
                         ColumnNames.PREDICTION (pd.Str <$> predictions))
  = Ok {| pd.columns := [ColumnNames.TARGET; ColumnNames.PREDICTION];
          pd.rows := zip_with (fun (r : nat * pd.cell) text =>
                                 (r.1, [r.2; pd.Str (predict text)])) targets texts |}.
Proof.
  unfold torch.DataLoader.
  destruct (decide (batch_size = 0)) as [H0|_]; [now destruct batch_size_positive |].
  cbn [mbind result_bind].
  rewrite loop_over_batches.
  2:{ intros chunk Hin. apply batches_elem in Hin as [Hne Hsub]. split; [exact Hne |].
      intros i Hi. apply Hsub, elem_of_seq in Hi. lia. }
  cbn [fmap result_fmap mbind result_bind].
  rewrite target_column. cbn [mbind result_bind].
  assert (Hpred : concat ((fun chunk : list nat =>
                             (fun i => predict (text_at i)) <$> chunk)
                            <$> torch.batches batch_size (seq 0 (pd.len df)))
                  = predict <$> texts).
  { rewrite concat_fmap.
    rewrite batches_concat by exact batch_size_positive.
    rewrite <- text_at_range at 1. now rewrite <- list_fmap_compose. }
  rewrite Hpred. unfold pd.of_series_and_list.
  rewrite !length_fmap, texts_length, (column_length _ _ target_column).
  destruct (decide (pd.len df = pd.len df)) as [_|Hne]; [| now destruct Hne].
  f_equal. f_equal.
  rewrite <- list_fmap_compose, zip_with_fmap_r. reflexivity.
Qed.

Lemma predictions_frame_columns :
  let out := {| pd.columns := [ColumnNames.TARGET; ColumnNames.PREDICTION];
                pd.rows := zip_with (fun (r : nat * pd.cell) text =>
                                       (r.1, [r.2; pd.Str (predict text)]))
                                    targets texts |} in
  pd.len out = pd.len df
  /\ pd.getitem ColumnNames.TARGET out = Ok targets
  /\ pd.getitem ColumnNames.PREDICTION out
     = Ok (zip_with (fun (r : nat * pd.cell) text => (r.1, pd.Str (predict text)))
                    targets texts).
Proof.
  assert (Hlen : length targets = length texts).
  { now rewrite texts_length, (column_length _ _ target_column). }
  intros out. subst out. split; [| split].
  - unfold pd.len. simpl. rewrite length_zip_with.
    rewrite <- Hlen, (column_length _ _ target_column). unfold pd.len. lia.
  - unfold pd.getitem. simpl. f_equal.
    clear -Hlen. revert texts Hlen.
    induction targets as [|[l c] ts IH]; intros [|t tx] Hlen; simpl in *;
      try discriminate; [reflexivity |].
    f_equal. apply IH. lia.
  - unfold pd.getitem. simpl. f_equal.
    clear -Hlen. revert texts Hlen.
    induction targets as [|[l c] ts IH]; intros [|t tx] Hlen; simpl in *;
      try discriminate; [reflexivity |].
    f_equal. apply IH. lia.
Qed.
End whole_dataset.


(** C5 (as the code has it).  With a model loaded, a positive batch size
    and a table whose index is the row range (as the clean table of
    [transform()] has it) and whose source column is text,
    [infer_dataset()] returns a table with as many rows as the dataset, whose
    target column is the dataset's target column in its order, and whose
    prediction in row [i] is the model's prediction for the source text of
    row [i].  Both labs. *)
Theorem infer_dataset_row_aligned :
  (forall (self : Lab7.LLMPipeline.t) model (texts : list string)
          (sources targets : list (nat * pd.cell)),
      let df := Lab7.TaskDataset.data (Lab7.LLMPipeline._dataset self) in
      Lab7.LLMPipeline._model self = Some model ->
      Lab7.LLMPipeline._batch_size self ≠ 0 ->
      range_index df ->
      pd.getitem ColumnNames.SOURCE df = Ok sources ->
      snd <$> sources = pd.Str <$> texts ->
      pd.getitem ColumnNames.TARGET df = Ok targets ->
      exists out,
        Lab7.LLMPipeline.infer_dataset self = Ok out
        /\ pd.len out = Lab7.TaskDataset.__len__ (Lab7.LLMPipeline._dataset self)
        /\ pd.getitem ColumnNames.TARGET out = Ok targets
        /\ pd.getitem ColumnNames.PREDICTION out
           = Ok (zip_with (fun (r : nat * pd.cell) text =>
                             (r.1, pd.Str (Lab7.LLMPipeline.prediction_of_index
                                             (predicted_index self model text))))
                          targets texts))
  /\ (forall (self : Lab8.LLMPipeline.t) model (texts : list string)
             (sources targets : list (nat * pd.cell)),
         let df := Lab8.TaskDataset.data (Lab8.LLMPipeline._dataset self) in
         Lab8.LLMPipeline._model self = Some model ->
         Lab8.LLMPipeline._batch_size self ≠ 0 ->
         range_index df ->
         pd.getitem ColumnNames.SOURCE df = Ok sources ->
         snd <$> sources = pd.Str <$> texts ->
         pd.getitem ColumnNames.TARGET df = Ok targets ->
         exists out,
           Lab8.LLMPipeline.infer_dataset self = Ok out
           /\ pd.len out = Lab8.TaskDataset.__len__ (Lab8.LLMPipeline._dataset self)
           /\ pd.getitem ColumnNames.TARGET out = Ok targets
           /\ pd.getitem ColumnNames.PREDICTION out
              = Ok (zip_with (fun (r : nat * pd.cell) text =>
                                (r.1, pd.Str (generated_text self model text)))
                             targets texts)).
Proof.
  split.
  - intros self model texts sources targets df Hm Hbs Hrange Hsrc Htext Htgt.
    eexists. split.
    + exact (infer_dataset_loop (Lab7.LLMPipeline._infer_batch self) _
               (fun texts rest => infer_batch_loaded self model texts rest Hm) df texts sources targets _
               Hbs Hrange Hsrc Htext Htgt).
    + exact (predictions_frame_columns _ df texts sources targets _ Hbs Hsrc Htext Htgt).
  - intros self model texts sources targets df Hm Hbs Hrange Hsrc Htext Htgt.
    eexists. split.
    + exact (infer_dataset_loop (Lab8.LLMPipeline._infer_batch self) _
               (fun texts rest => generate_batch_loaded self model texts rest Hm) df texts sources targets _
               Hbs Hrange Hsrc Htext Htgt).
    + exact (predictions_frame_columns _ df texts sources targets _ Hbs Hsrc Htext Htgt).
Qed.

Lemma infer_dataset_row_aligned_witness :
  (exists out,
      Lab7.LLMPipeline.infer_dataset (Samples.pipeline7 (Some Samples.classifier)) = Ok out
      /\ pd.len out = 3
      /\ pd.getitem ColumnNames.TARGET out = Ok [(0, pd.Int 1); (1, pd.Int 2); (2, pd.Int 0)]
      /\ pd.getitem ColumnNames.PREDICTION out
         = Ok [(0, pd.Str "1"); (1, pd.Str "2"); (2, pd.Str "1")])
  /\ (exists out,
         Lab8.LLMPipeline.infer_dataset (Samples.pipeline8 (Some Samples.summarizer)) = Ok out
         /\ pd.len out = 3
         /\ pd.getitem ColumnNames.TARGET out
            = Ok [(0, pd.Str "rain"); (1, pd.Str "sun"); (2, pd.Str "wind")]
         /\ pd.getitem ColumnNames.PREDICTION out
            = Ok [(0, pd.Str "rai"); (1, pd.Str "sun"); (2, pd.Str "win")]).
Proof.
  split.
  - apply (proj1 infer_dataset_row_aligned
                 (Samples.pipeline7 (Some Samples.classifier)) Samples.classifier
                 ["good movie"; "bad movie"; "ok movie"]
                 [(0, pd.Str "good movie"); (1, pd.Str "bad movie"); (2, pd.Str "ok movie")]
                 [(0, pd.Int 1); (1, pd.Int 2); (2, pd.Int 0)]).
    + reflexivity.
    + discriminate.
    + reflexivity.
    + reflexivity.
    + reflexivity.
    + reflexivity.
  - apply (proj2 infer_dataset_row_aligned
                 (Samples.pipeline8 (Some Samples.summarizer)) Samples.summarizer
                 ["rain fell all day"; "sun came out"; "wind rose"]
                 [(0, pd.Str "rain fell all day"); (1, pd.Str "sun came out");
                  (2, pd.Str "wind rose")]
                 [(0, pd.Str "rain"); (1, pd.Str "sun"); (2, pd.Str "wind")]).
    + reflexivity.
    + discriminate.
    + reflexivity.
    + reflexivity.
    + reflexivity.
    + reflexivity.
Defined.

(** C5 as stated fails on a table whose index is not the row range: the
    data loader fetches item [i] by the index label [i], and the predictions
    are attached to the target column by position.  Under the labels 2, 0, 1
    the first row, "good movie", is paired with "2", the prediction for
    "bad movie"; the model's prediction for "good movie" is "1". *)
Lemma infer_dataset_misaligned_off_the_row_range :
  exists out sources targets predictions,
    ~ range_index Samples.shuffled_table
    /\ pd.getitem ColumnNames.SOURCE Samples.shuffled_table = Ok sources
    /\ pd.getitem ColumnNames.TARGET Samples.shuffled_table = Ok targets
    /\ Lab7.LLMPipeline.infer_dataset
         (Samples.pipeline7_over Samples.shuffled_table 2 (Some Samples.classifier)) = Ok out
    /\ pd.getitem ColumnNames.TARGET out = Ok targets
    /\ pd.getitem ColumnNames.PREDICTION out = Ok predictions
    /\ sources !! 0 = Some (2, pd.Str "good movie")
    /\ predictions !! 0 = Some (2, pd.Str "2")
    /\ Lab7.LLMPipeline.infer_sample
         (Samples.pipeline7_over Samples.shuffled_table 2 (Some Samples.classifier))
         ["good movie"] = Ok "1"
    /\ Lab7.LLMPipeline.infer_sample
         (Samples.pipeline7_over Samples.shuffled_table 2 (Some Samples.classifier))
         ["bad movie"] = Ok "2"
    /\ predictions
       ≠ zip_with (fun (r : nat * pd.cell) text =>
                     (r.1, pd.Str (Lab7.LLMPipeline.prediction_of_index
                                     (predicted_index
                                        (Samples.pipeline7_over Samples.shuffled_table 2
                                           (Some Samples.classifier))
                                        Samples.classifier text))))
                  targets ["good movie"; "bad movie"; "ok movie"].
Proof.
  eexists _, _, _, _.
  split; [discriminate |].
  split; [reflexivity |]. split; [reflexivity |]. split; [reflexivity |].
  split; [reflexivity |]. split; [reflexivity |]. split; [reflexivity |].
  split; [reflexivity |]. split; [reflexivity |]. split; [reflexivity |].
  discriminate.
Qed.


(** ** Frames *)

Section frames.
Import pd.


Lemma select_elem {A : Type} (keep : list bool) (xs : list A) (x : A) :
  x ∈ select keep xs -> x ∈ xs.
Proof.
  revert xs. induction keep as [|k keep IH]; intros [|y xs] Hin; simpl in *;
    try (now apply elem_of_nil in Hin).
  - destruct k; now apply elem_of_nil in Hin.
  - destruct k.
    + apply elem_of_cons in Hin as [-> | Hin]; [apply list_elem_of_here |].
      apply list_elem_of_further. now apply IH.
    + apply list_elem_of_further. now apply IH.
Qed.

Lemma getitem_Ok (name : string) (df : DataFrame) (s : list (nat * cell)) :
  getitem name df = Ok s ->
  exists pos,
    list_find (fun c => c = name) (columns df) = Some (pos, name)
    /\ s = (fun r : nat * list cell => (r.1, default NA (r.2 !! pos))) <$> rows df.
Proof.
  unfold getitem, column_position.
  destruct (list_find _ (columns df)) as [[pos c]|] eqn:Hfind; simpl; [| discriminate].
  intros [= <-]. exists pos. split; [| reflexivity].
  apply list_find_Some in Hfind as (_ & -> & _). reflexivity.
Qed.

Lemma setitem_update (name : string) (pos : nat) (g : cell -> cell) (df : DataFrame) :
  list_find (fun c => c = name) (columns df) = Some (pos, name) ->
  setitem name ((fun r : nat * cell => (r.1, g r.2))
                  <$> ((fun r : nat * list cell => (r.1, default NA (r.2 !! pos)))
                         <$> rows df)) df
  = {| columns := columns df;
       rows := (fun r : nat * list cell =>
                  (r.1, <[pos := g (default NA (r.2 !! pos))]> r.2)) <$> rows df |}.
Proof.
  intros Hfind. unfold setitem. rewrite Hfind. f_equal.
  rewrite !zip_with_fmap_r, zip_with_diag. reflexivity.
Qed.

(** What a column of a re-indexed, column-updated frame holds. *)
Lemma updated_column_cells (cols : list string) (rows1 : list (nat * list cell))
    (pos : nat) (g : cell -> cell) (name : string) (s : list (nat * cell)) (x : nat * cell) :
  getitem name
    (reset_index {| columns := cols;
                    rows := (fun r : nat * list cell =>
                               (r.1, <[pos := g (default NA (r.2 !! pos))]> r.2))
                              <$> rows1 |}) = Ok s ->
  x ∈ s ->
  exists p r,
    list_find (fun c => c = name) cols = Some (p, name)
    /\ r ∈ rows1
    /\ x.2 = default NA (<[pos := g (default NA (r.2 !! pos))]> r.2 !! p).
Proof.
  intros Hget Hx. apply getitem_Ok in Hget as (p & Hfind & ->). simpl in *.
  apply list_elem_of_fmap in Hx as (r' & -> & Hr').
  apply elem_of_lookup_imap in Hr' as (i & r2 & -> & Hr2).
  apply list_elem_of_lookup_2, list_elem_of_fmap in Hr2 as (r & -> & Hr).
  exists p, r. auto.
Qed.

Lemma reset_index_range (df : DataFrame) : range_index (reset_index df).
Proof.
  unfold range_index, reset_index. simpl.
  rewrite fmap_imap, length_imap. apply list_eq. intros i.
  rewrite list_lookup_imap.
  destruct (rows df !! i) as [r|] eqn:Hr; simpl.
  - symmetry. apply lookup_seq. split; [reflexivity |]. now apply lookup_lt_Some in Hr.
  - symmetry. apply lookup_seq_ge. now apply lookup_ge_None.
Qed.

Lemma first_cell_find (name : string) (cols : list string) (cells : list cell) (pos : nat) :
  list_find (fun c => c = name) cols = Some (pos, name) ->
  first_cell (fun c => bool_decide (c = name)) cols cells = cells !! pos.
Proof.
  revert cells pos. induction cols as [|c cols IH]; intros cells pos Hfind.
  - discriminate Hfind.
  - simpl in Hfind. destruct cells as [|x cells].
    + simpl. now destruct pos.
    + simpl. destruct (decide (c = name)) as [->|Hne].
      * injection Hfind as <-. now rewrite bool_decide_eq_true_2.
      * rewrite bool_decide_eq_false_2 by exact Hne.
        destruct (list_find _ cols) as [[j c']|] eqn:Hrec; simpl in Hfind; [| discriminate].
        injection Hfind as <- ->. simpl. now apply IH.
Qed.

Lemma first_cell_select (test keepf : string -> bool) (cols : list string)
    (cells : list cell) :
  (forall c, test c = true -> keepf c = true) ->
  length cells = length cols ->
  first_cell test (select (keepf <$> cols) cols) (select (keepf <$> cols) cells)
  = first_cell test cols cells.
Proof.
  intros Himp. revert cells. induction cols as [|c cols IH]; intros [|x cells] Hlen;
    simpl in *; try discriminate; [reflexivity |].
  destruct (keepf c) eqn:Hk; simpl.
  - destruct (test c); [reflexivity |]. apply IH. lia.
  - destruct (test c) eqn:Ht.
    + apply Himp in Ht. congruence.
    + apply IH. lia.
Qed.

Lemma first_cell_fmap (test : string -> bool) (f : string -> string) (cols : list string)
    (cells : list cell) :
  first_cell test (f <$> cols) cells = first_cell (fun c => test (f c)) cols cells.
Proof.
  revert cells. induction cols as [|c cols IH]; intros [|x cells]; simpl; try reflexivity.
  destruct (test (f c)); [reflexivity | apply IH].
Qed.

Lemma first_cell_ext (test test' : string -> bool) (cols : list string) (cells : list cell) :
  (forall c, c ∈ cols -> test c = test' c) ->
  first_cell test cols cells = first_cell test' cols cells.
Proof.
  revert cells. induction cols as [|c cols IH]; intros [|x cells] Hext; simpl;
    try reflexivity.
  rewrite <- (Hext c) by apply list_elem_of_here.
  destruct (test c); [reflexivity |].
  apply IH. intros c' Hc'. apply Hext. now apply list_elem_of_further.
Qed.

(** The cell that a row keeps under a renamed column is the cell it had
    under the column's old name. *)
Lemma kept_cell (labels : list string) (rename : string -> string) (old new : string)
    (cols : list string) (cells : list pd.cell) (pos pos0 : nat) :
  rename old = new ->
  (forall c, rename c = new -> c = old \/ c = new) ->
  old ∉ labels -> new ∉ labels -> new ∉ cols ->
  length cells = length cols ->
  let keep := (fun c => bool_decide (c ∉ labels)) <$> cols in
  list_find (fun c => c = new) (rename <$> pd.select keep cols) = Some (pos, new) ->
  list_find (fun c => c = old) cols = Some (pos0, old) ->
  pd.select keep cells !! pos = cells !! pos0.
Proof.
  intros Hold Hnew Hold_kept Hnew_kept Hfresh Hwidth keep Hfind Hfind0.
  rewrite <- (first_cell_find _ _ _ _ Hfind0).
  rewrite <- (first_cell_find _ _ _ _ Hfind).
  rewrite first_cell_fmap. unfold keep.
  rewrite first_cell_select; [| | exact Hwidth].
  - apply first_cell_ext. intros c Hc.
    destruct (decide (c = old)) as [->|Hne].
    + now rewrite !bool_decide_eq_true_2.
    + rewrite (bool_decide_eq_false_2 (c = old)) by exact Hne.
      apply bool_decide_eq_false_2. intros Hren.
      apply Hnew in Hren as [-> | ->]; [now apply Hne | now apply Hfresh].
  - intros c Htest. apply bool_decide_eq_true in Htest.
    apply bool_decide_eq_true_2.
    apply Hnew in Htest as [-> | ->]; assumption.
Qed.

End frames.

(** ** Missing values after [transform()] *)

Section clean_tables.
Import pd.

Lemma drop_Ok (labels : list string) (df dropped : DataFrame) :
  drop labels df = Ok dropped ->
  let keep := (fun c => bool_decide (c ∉ labels)) <$> columns df in
  dropped = {| columns := select keep (columns df);
               rows := (fun r : nat * list cell => (r.1, select keep r.2)) <$> rows df |}.
Proof.
  unfold drop. destruct (list_find _ labels) as [[i l]|]; [discriminate |].
  now intros [= <-].
Qed.



Lemma first_occurrences_elem seen (rs : list (nat * list cell)) r :
  r ∈ first_occurrences seen rs -> r ∈ rs.
Proof.
  revert seen. induction rs as [|r0 rs IH]; intros seen Hin; simpl in *.
  - exact Hin.
  - destruct (decide (r0.2 ∈ seen)).
    + apply list_elem_of_further. eapply IH. exact Hin.
    + apply elem_of_cons in Hin as [-> | Hin]; [apply list_elem_of_here |].
      apply list_elem_of_further. eapply IH. exact Hin.
Qed.


Lemma renamed_to_target (c : string) :
  default c (Lab7.RawDataPreprocessor.renamed_columns !! c) = ColumnNames.TARGET ->
  c = "grade3" \/ c = ColumnNames.TARGET.
Proof.
  unfold Lab7.RawDataPreprocessor.renamed_columns.
  destruct (decide (c = "grade3")) as [->|Hg]; [now left |].
  rewrite lookup_insert_ne by congruence.
  destruct (decide (c = "content")) as [->|Hc].
  - rewrite lookup_singleton_eq. discriminate.
  - rewrite lookup_singleton_ne by congruence. simpl. now right.
Qed.

Lemma renamed_to_source (c : string) :
  default c (Lab8.RawDataPreprocessor.renamed_columns !! c) = ColumnNames.SOURCE ->
  c = "article" \/ c = ColumnNames.SOURCE.
Proof.
  unfold Lab8.RawDataPreprocessor.renamed_columns.
  destruct (decide (c = "article")) as [->|Ha]; [now left |].
  destruct (decide (c = "highlights")) as [->|Hh].
  - rewrite lookup_insert_eq. discriminate.
  - rewrite lookup_insert_ne by congruence.
    rewrite lookup_singleton_ne by congruence. simpl. now right.
Qed.


End clean_tables.

Section lab7_clean.
Import pd Lab7.RawDataPreprocessor.

Lemma lab7_transform_Ok (self self' : Lab7.RawDataPreprocessor.t) :
  transform self = (Ok (), self') ->
  exists dropped pos,
    drop dropped_columns (_raw_data self) = Ok dropped
    /\ list_find (fun c => c = ColumnNames.TARGET)
                 ((fun c => default c (renamed_columns !! c)) <$> columns dropped)
       = Some (pos, ColumnNames.TARGET)
    /\ _data self'
       = Some (reset_index
                 {| columns := (fun c => default c (renamed_columns !! c)) <$> columns dropped;
                    rows := (fun r : nat * list cell =>
                               (r.1, <[pos := code_of_label (default NA (r.2 !! pos))]> r.2))
                              <$> filter (fun r : nat * list cell => NA ∉ r.2)
                                         (rows dropped) |}).
Proof.
  unfold transform.
  destruct (drop dropped_columns (_raw_data self)) as [dropped|e]; [| discriminate].
  cbn zeta.
  destruct (getitem ColumnNames.TARGET _) as [target|e] eqn:Ht; [| discriminate].
  intros [= <-]. apply getitem_Ok in Ht as (pos & Hfind & ->).
  exists dropped, pos. split; [reflexivity |]. split; [exact Hfind |].
  simpl. do 2 f_equal.
  exact (setitem_update ColumnNames.TARGET pos code_of_label _ Hfind).
Qed.



End lab7_clean.

Section lab8_clean.
Import pd Lab8.RawDataPreprocessor.

Lemma str_replace_Ok (old new : string) (s s' : list (nat * cell)) :
  str_replace old new s = Ok s' ->
  s' = (fun r : nat * cell => (r.1, match r.2 with
                                    | Str t => Str (replace old new t)
                                    | _ => NA
                                    end)) <$> s.
Proof.
  unfold str_replace. destruct (_ && _); [discriminate |]. now intros [= <-].
Qed.

Lemma lab8_transform_Ok (self self' : Lab8.RawDataPreprocessor.t) :
  transform self = (Ok (), self') ->
  exists dropped pos,
    drop ["id"] (_raw_data self) = Ok dropped
    /\ list_find (fun c => c = "source")
                 ((fun c => default c (renamed_columns !! c)) <$> columns dropped)
       = Some (pos, "source")
    /\ _data self'
       = Some (reset_index
                 {| columns := (fun c => default c (renamed_columns !! c)) <$> columns dropped;
                    rows := (fun r : nat * list cell =>
                               (r.1, <[pos := without_cnn (default NA (r.2 !! pos))]> r.2))
                              <$> first_occurrences [] (rows dropped) |}).
Proof.
  unfold transform.
  destruct (drop ["id"] (_raw_data self)) as [dropped|e]; [| discriminate].
  cbn zeta.
  destruct (getitem "source" _) as [source|e] eqn:Hsrc; [| discriminate].
  destruct (str_replace "(CNN)" "" source) as [replaced|e] eqn:Hrep; [| discriminate].
  intros [= <-]. apply getitem_Ok in Hsrc as (pos & Hfind & ->).
  apply str_replace_Ok in Hrep as ->.
  exists dropped, pos. split; [reflexivity |]. split; [exact Hfind |].
  simpl. do 2 f_equal.
  exact (setitem_update "source" pos without_cnn _ Hfind).
Qed.



End lab8_clean.

(** The clean table of either lab carries the range index that the data
    loader counts on, and [head] keeps it. *)
Lemma clean_table_range_index :
  (forall (self self' : Lab7.RawDataPreprocessor.t) (clean : pd.DataFrame),
      Lab7.RawDataPreprocessor.transform self = (Ok (), self') ->
      Lab7.RawDataPreprocessor._data self' = Some clean ->
      range_index clean)
  /\ (forall (self self' : Lab8.RawDataPreprocessor.t) (clean : pd.DataFrame),
         Lab8.RawDataPreprocessor.transform self = (Ok (), self') ->
         Lab8.RawDataPreprocessor._data self' = Some clean ->
         range_index clean).
Proof.
  split; intros self self' clean Ht Hclean.
  - apply lab7_transform_Ok in Ht as (dropped & pos & _ & _ & Hdata).
    rewrite Hdata in Hclean. injection Hclean as <-. apply reset_index_range.
  - apply lab8_transform_Ok in Ht as (dropped & pos & _ & _ & Hdata).
    rewrite Hdata in Hclean. injection Hclean as <-. apply reset_index_range.
Qed.





(** Why lab 8 needs every article to be text: a number among the articles
    does not stop [transform()], and leaves a missing source. *)
Example lab8_number_among_articles_goes_missing :
  exists self' clean,
    complete Samples.raw_articles_with_number
    /\ Lab8.RawDataPreprocessor.transform
         (Samples.preprocessor8 Samples.raw_articles_with_number) = (Ok (), self')
    /\ Lab8.RawDataPreprocessor._data self' = Some clean
    /\ pd.getitem ColumnNames.SOURCE clean
       = Ok [(0, pd.Str "Rain fell all day."); (1, pd.NA)].
Proof.
  eexists _, _. split; [| split; [reflexivity |]; split; reflexivity].
  repeat constructor; intros Hin; not_elem_of_listed Hin.
Qed.

(** ** The predictions file *)

Section predictions_file.
Import pd csv.









End predictions_file.







(** * Further properties of the code *)

(** ** Indexing a dataset *)

Lemma loc_beyond_range (s : list (nat * pd.cell)) (i : nat) :
  fst <$> s = seq 0 (length s) -> length s <= i ->
  pd.loc i s = Raise (KeyError (str (Z.of_nat i))).
Proof.
  intros Hrange Hi. unfold pd.loc.
  assert (Hnone : list_find (fun r : nat * pd.cell => r.1 = i) s = None).
  { apply list_find_None. apply Forall_forall. intros r Hr Heq.
    apply list_elem_of_lookup in Hr as [j Hj].
    assert (H : (fst <$> s) !! j = Some r.1) by now rewrite list_lookup_fmap, Hj.
    rewrite Hrange in H. apply lookup_seq in H. simpl in H. lia. }
  now rewrite Hnone.
Qed.

Lemma item_of_range_indexed_frame (df : pd.DataFrame) (sources : list (nat * pd.cell)) :
  range_index df ->
  pd.getitem ColumnNames.SOURCE df = Ok sources ->
  pd.len df = length sources
  /\ (forall i r, sources !! i = Some r ->
                  (column ← pd.getitem ColumnNames.SOURCE df;
                   c ← pd.loc i column; Ok [c]) = Ok [r.2])
  /\ (forall i, length sources <= i ->
                (column ← pd.getitem ColumnNames.SOURCE df;
                 c ← pd.loc i column; Ok [c]) = Raise (KeyError (str (Z.of_nat i)))).
Proof.
  intros Hrange Hsrc.
  assert (Hlen : length sources = pd.len df) by exact (column_length df _ _ Hsrc).
  assert (Hidx : fst <$> sources = seq 0 (length sources)).
  { rewrite (column_index df _ _ Hsrc), Hlen. exact Hrange. }
  split; [now symmetry |]. split.
  - intros i r Hi. rewrite Hsrc. simpl.
    now rewrite (loc_range_index sources i r Hidx Hi).
  - intros i Hi. rewrite Hsrc. simpl.
    now rewrite (loc_beyond_range sources i Hidx Hi).
Qed.

(** X1. On a table whose index is the row range, the dataset's length is
    its number of rows, item [i] is the one-field tuple holding the source
    cell of row [i], and an index at or past the length raises the key
    error of pandas for that label.  Both labs. *)
Theorem task_dataset_indexing :
  (forall (dataset : Lab7.TaskDataset.t) (sources : list (nat * pd.cell)),
      range_index (Lab7.TaskDataset.data dataset) ->
      pd.getitem ColumnNames.SOURCE (Lab7.TaskDataset.data dataset) = Ok sources ->
      Lab7.TaskDataset.__len__ dataset = length sources
      /\ (forall i r, sources !! i = Some r ->
                      Lab7.TaskDataset.__getitem__ dataset i = Ok [r.2])
      /\ (forall i, length sources <= i ->
                    Lab7.TaskDataset.__getitem__ dataset i
                    = Raise (KeyError (str (Z.of_nat i)))))
  /\ (forall (dataset : Lab8.TaskDataset.t) (sources : list (nat * pd.cell)),
         range_index (Lab8.TaskDataset.data dataset) ->
         pd.getitem ColumnNames.SOURCE (Lab8.TaskDataset.data dataset) = Ok sources ->
         Lab8.TaskDataset.__len__ dataset = length sources
         /\ (forall i r, sources !! i = Some r ->
                         Lab8.TaskDataset.__getitem__ dataset i = Ok [r.2])
         /\ (forall i, length sources <= i ->
                       Lab8.TaskDataset.__getitem__ dataset i
                       = Raise (KeyError (str (Z.of_nat i))))).
Proof.
  split; intros dataset sources Hrange Hsrc.
  - exact (item_of_range_indexed_frame _ sources Hrange Hsrc).
  - exact (item_of_range_indexed_frame _ sources Hrange Hsrc).
Qed.

Lemma task_dataset_indexing_witness :
  Lab7.TaskDataset.__len__ (Lab7.TaskDataset.__init__ Samples.clean_table) = 3
  /\ Lab7.TaskDataset.__getitem__ (Lab7.TaskDataset.__init__ Samples.clean_table) 1
     = Ok [pd.Str "bad movie"]
  /\ Lab7.TaskDataset.__getitem__ (Lab7.TaskDataset.__init__ Samples.clean_table) 3
     = Raise (KeyError "3").
Proof.
  destruct (proj1 task_dataset_indexing
                  (Lab7.TaskDataset.__init__ Samples.clean_table)
                  [(0, pd.Str "good movie"); (1, pd.Str "bad movie"); (2, pd.Str "ok movie")])
    as (Hlen & Hitem & Hout).
  - reflexivity.
  - reflexivity.
  - split; [exact Hlen |]. split.
    + apply (Hitem 1 (1, pd.Str "bad movie")). reflexivity.
    + apply (Hout 3). simpl. lia.
Defined.

(** ** What [infer_dataset()] returns, whenever it returns *)

Lemma paired_frame_columns (target : list (nat * pd.cell)) (values : list pd.cell) :
  length values = length target ->
  let out := {| pd.columns := [ColumnNames.TARGET; ColumnNames.PREDICTION];
                pd.rows := zip_with (fun (r : nat * pd.cell) v => (r.1, [r.2; v]))
                                    target values |} in
  pd.len out = length target
  /\ pd.getitem ColumnNames.TARGET out = Ok target
  /\ pd.getitem ColumnNames.PREDICTION out
     = Ok (zip_with (fun (r : nat * pd.cell) v => (r.1, v)) target values).
Proof.
  intros Hlen out. subst out. unfold pd.len, pd.getitem. simpl.
  split; [rewrite length_zip_with; lia |].
  split; f_equal; revert values Hlen;
    induction target as [|[l c] target IH]; intros [|v values] Hlen; simpl in *;
      try discriminate; try reflexivity; f_equal; apply IH; lia.
Qed.

Lemma infer_dataset_loop_Ok (infer : list (list string) -> result (list string))
    (df : pd.DataFrame) (fetch : nat -> result (list pd.cell)) (batch_size : nat)
    (out : pd.DataFrame) :
  (dataloader ← torch.DataLoader (pd.len df) fetch batch_size;
   predictions ← @concat string <$> traverse (fun next => batch ← next; infer batch)
                                             dataloader;
   target ← pd.getitem ColumnNames.TARGET df;
   pd.of_series_and_list ColumnNames.TARGET target
                         ColumnNames.PREDICTION (pd.Str <$> predictions)) = Ok out ->
  batch_size ≠ 0
  /\ exists (target : list (nat * pd.cell)) (predictions : list string),
      pd.getitem ColumnNames.TARGET df = Ok target
      /\ length predictions = length target
      /\ out = {| pd.columns := [ColumnNames.TARGET; ColumnNames.PREDICTION];
                  pd.rows := zip_with (fun (r : nat * pd.cell) v => (r.1, [r.2; v]))
                                      target (pd.Str <$> predictions) |}.
Proof.
  unfold torch.DataLoader.
  destruct (decide (batch_size = 0)) as [H0|Hne]; [discriminate |].
  cbn [mbind result_bind].
  destruct (traverse _ _) as [chunks|e]; [| discriminate].
  cbn [fmap result_fmap mbind result_bind].
  destruct (pd.getitem ColumnNames.TARGET df) as [target|e]; [| discriminate].
  cbn [mbind result_bind]. unfold pd.of_series_and_list.
  destruct (decide _) as [Hlen|Hlen]; [| discriminate].
  intros [= <-]. split; [exact Hne |].
  exists target, (concat chunks). rewrite length_fmap in Hlen. auto.
Qed.

Lemma infer_dataset_shape_of_loop (infer : list (list string) -> result (list string))
    (df : pd.DataFrame) (fetch : nat -> result (list pd.cell)) (batch_size : nat)
    (out : pd.DataFrame) :
  (dataloader ← torch.DataLoader (pd.len df) fetch batch_size;
   predictions ← @concat string <$> traverse (fun next => batch ← next; infer batch)
                                             dataloader;
   target ← pd.getitem ColumnNames.TARGET df;
   pd.of_series_and_list ColumnNames.TARGET target
                         ColumnNames.PREDICTION (pd.Str <$> predictions)) = Ok out ->
  batch_size ≠ 0
  /\ pd.columns out = [ColumnNames.TARGET; ColumnNames.PREDICTION]
  /\ pd.len out = pd.len df
  /\ pd.getitem ColumnNames.TARGET out = pd.getitem ColumnNames.TARGET df
  /\ exists predictions : list (nat * pd.cell),
      pd.getitem ColumnNames.PREDICTION out = Ok predictions
      /\ Forall (fun r : nat * pd.cell => exists text, r.2 = pd.Str text) predictions.
Proof.
  intros H. apply infer_dataset_loop_Ok in H as (Hne & target & preds & Ht & Hlen & ->).
  assert (Hlen' : length (pd.Str <$> preds) = length target) by now rewrite length_fmap.
  destruct (paired_frame_columns target (pd.Str <$> preds) Hlen') as (Hl & Htc & Hpc).
  split; [exact Hne |]. split; [reflexivity |].
  split; [rewrite Hl; exact (column_length df _ _ Ht) |].
  split; [now rewrite Htc, Ht |].
  eexists. split; [exact Hpc |].
  apply Forall_forall. intros x Hx.
  apply elem_of_zip_with in Hx as (r & v & -> & _ & Hv).
  apply list_elem_of_fmap in Hv as (text & -> & _). now exists text.
Qed.

(** X2. Whenever [infer_dataset()] returns a table (whatever the dataset),
    the batch size was positive, the table has exactly the columns
    [target] and [prediction], as many rows as the dataset, the dataset's
    own target column, and a prediction column that holds text in every
    row.  Both labs. *)
Theorem infer_dataset_returns_paired_table :
  (forall (self : Lab7.LLMPipeline.t) (out : pd.DataFrame),
      Lab7.LLMPipeline.infer_dataset self = Ok out ->
      Lab7.LLMPipeline._batch_size self ≠ 0
      /\ pd.columns out = [ColumnNames.TARGET; ColumnNames.PREDICTION]
      /\ pd.len out = Lab7.TaskDataset.__len__ (Lab7.LLMPipeline._dataset self)
      /\ pd.getitem ColumnNames.TARGET out
         = pd.getitem ColumnNames.TARGET
                      (Lab7.TaskDataset.data (Lab7.LLMPipeline._dataset self))
      /\ exists predictions : list (nat * pd.cell),
          pd.getitem ColumnNames.PREDICTION out = Ok predictions
          /\ Forall (fun r : nat * pd.cell => exists text, r.2 = pd.Str text) predictions)
  /\ (forall (self : Lab8.LLMPipeline.t) (out : pd.DataFrame),
         Lab8.LLMPipeline.infer_dataset self = Ok out ->
         Lab8.LLMPipeline._batch_size self ≠ 0
         /\ pd.columns out = [ColumnNames.TARGET; ColumnNames.PREDICTION]
         /\ pd.len out = Lab8.TaskDataset.__len__ (Lab8.LLMPipeline._dataset self)
         /\ pd.getitem ColumnNames.TARGET out
            = pd.getitem ColumnNames.TARGET
                         (Lab8.TaskDataset.data (Lab8.LLMPipeline._dataset self))
         /\ exists predictions : list (nat * pd.cell),
             pd.getitem ColumnNames.PREDICTION out = Ok predictions
             /\ Forall (fun r : nat * pd.cell => exists text, r.2 = pd.Str text)
                       predictions).
Proof.
  split; intros self out H.
  - exact (infer_dataset_shape_of_loop _ _ _ _ out H).
  - exact (infer_dataset_shape_of_loop _ _ _ _ out H).
Qed.

Lemma infer_dataset_returns_paired_table_witness :
  let out := {| pd.columns := ["target"; "prediction"];
                pd.rows := [(0, [pd.Int 1; pd.Str "1"]); (1, [pd.Int 2; pd.Str "1"]);
                            (2, [pd.Int 0; pd.Str "1"])] |} in
  2 ≠ 0
  /\ pd.columns out = ["target"; "prediction"]
  /\ pd.len out = 3
  /\ pd.getitem ColumnNames.TARGET out
     = Ok [(0, pd.Int 1); (1, pd.Int 2); (2, pd.Int 0)]
  /\ exists predictions : list (nat * pd.cell),
      pd.getitem ColumnNames.PREDICTION out = Ok predictions
      /\ Forall (fun r : nat * pd.cell => exists text, r.2 = pd.Str text) predictions.
Proof.
  exact (proj1 infer_dataset_returns_paired_table
               (Samples.pipeline7 (Some Samples.always_class_1)) _ eq_refl).
Defined.

(** ** Whole-dataset inference: failures and edge inputs *)

Lemma first_batch (batch_size n : nat) :
  batch_size ≠ 0 -> 0 < n ->
  exists chunk rest,
    torch.batches batch_size (seq 0 n) = chunk :: rest
    /\ chunk ≠ [] /\ forall i, i ∈ chunk -> i < n.
Proof.
  intros Hbs Hn.
  destruct (torch.batches batch_size (seq 0 n)) as [|chunk rest] eqn:Hb.
  - pose proof (batches_concat batch_size (seq 0 n) Hbs) as Hc.
    rewrite Hb in Hc. simpl in Hc. destruct n; [lia | discriminate Hc].
  - exists chunk, rest. split; [reflexivity |].
    destruct (batches_elem batch_size (seq 0 n) chunk) as [Hne Hsub].
    { rewrite Hb. apply list_elem_of_here. }
    split; [exact Hne |]. intros i Hi. apply Hsub, elem_of_seq in Hi. lia.
Qed.

Lemma infer_dataset_loop_fails (infer : list (list string) -> result (list string))
    (e : exn) (df : pd.DataFrame) (texts : list string) (sources : list (nat * pd.cell))
    (batch_size : nat) :
  (forall batch rest, infer (batch :: rest) = Raise e) ->
  batch_size ≠ 0 ->
  range_index df ->
  pd.getitem ColumnNames.SOURCE df = Ok sources ->
  snd <$> sources = pd.Str <$> texts ->
  0 < pd.len df ->
  (dataloader ← torch.DataLoader (pd.len df)
                  (fun index => column ← pd.getitem ColumnNames.SOURCE df;
                                c ← pd.loc index column; Ok [c]) batch_size;
   predictions ← @concat string <$> traverse (fun next => batch ← next; infer batch)
                                             dataloader;
   target ← pd.getitem ColumnNames.TARGET df;
   pd.of_series_and_list ColumnNames.TARGET target
                         ColumnNames.PREDICTION (pd.Str <$> predictions)) = Raise e.
Proof.
  intros Hinfer Hbs Hrange Hsrc Htext Hlen. unfold torch.DataLoader.
  destruct (decide (batch_size = 0)) as [H0|_]; [now destruct Hbs |].
  cbn [mbind result_bind].
  destruct (first_batch batch_size (pd.len df) Hbs Hlen) as (chunk & rest & -> & Hne & Hlt).
  rewrite fmap_cons. cbn [traverse].
  rewrite (traverse_Ok_fmap _ (fun i => [pd.Str (default "" (texts !! i))])).
  - cbn [mbind result_bind].
    rewrite (collate_texts texts chunk Hne). cbn [mbind result_bind].
    rewrite Hinfer. reflexivity.
  - intros i Hi.
    exact (fetch_in_range df texts sources Hrange Hsrc Htext i (Hlt i Hi)).
Qed.

(** X5. Whole-dataset inference without a loaded model, on a non-empty
    clean table and with a positive batch size, fails at the first batch:
    in lab 7 with the "There is no model" value error, in lab 8 with the
    attribute error of calling [eval] on [None] (its batch routine touches
    the model before it tests for it). *)
Theorem infer_dataset_without_model :
  (forall (self : Lab7.LLMPipeline.t) (texts : list string)
          (sources : list (nat * pd.cell)),
      let df := Lab7.TaskDataset.data (Lab7.LLMPipeline._dataset self) in
      Lab7.LLMPipeline._model self = None ->
      Lab7.LLMPipeline._batch_size self ≠ 0 ->
      range_index df ->
      pd.getitem ColumnNames.SOURCE df = Ok sources ->
      snd <$> sources = pd.Str <$> texts ->
      0 < pd.len df ->
      Lab7.LLMPipeline.infer_dataset self = Raise (ValueError "There is no model"))
  /\ (forall (self : Lab8.LLMPipeline.t) (texts : list string)
             (sources : list (nat * pd.cell)),
         let df := Lab8.TaskDataset.data (Lab8.LLMPipeline._dataset self) in
         Lab8.LLMPipeline._model self = None ->
         Lab8.LLMPipeline._batch_size self ≠ 0 ->
         range_index df ->
         pd.getitem ColumnNames.SOURCE df = Ok sources ->
         snd <$> sources = pd.Str <$> texts ->
         0 < pd.len df ->
         Lab8.LLMPipeline.infer_dataset self
         = Raise (AttributeError "'NoneType' object has no attribute 'eval'")).
Proof.
  split; intros self texts sources df Hm Hbs Hrange Hsrc Htext Hlen.
  - refine (infer_dataset_loop_fails (Lab7.LLMPipeline._infer_batch self) _ df texts
              sources _ _ Hbs Hrange Hsrc Htext Hlen).
    intros batch rest. unfold Lab7.LLMPipeline._infer_batch. simpl. now rewrite Hm.
  - refine (infer_dataset_loop_fails (Lab8.LLMPipeline._infer_batch self) _ df texts
              sources _ _ Hbs Hrange Hsrc Htext Hlen).
    intros batch rest. unfold Lab8.LLMPipeline._infer_batch. now rewrite Hm.
Qed.

Lemma infer_dataset_without_model_witness :
  Lab7.LLMPipeline.infer_dataset (Samples.pipeline7 None)
  = Raise (ValueError "There is no model")
  /\ Lab8.LLMPipeline.infer_dataset (Samples.pipeline8 None)
     = Raise (AttributeError "'NoneType' object has no attribute 'eval'").
Proof.
  split.
  - apply (proj1 infer_dataset_without_model (Samples.pipeline7 None)
                 ["good movie"; "bad movie"; "ok movie"]
                 [(0, pd.Str "good movie"); (1, pd.Str "bad movie");
                  (2, pd.Str "ok movie")]).
    + reflexivity.
    + discriminate.
    + reflexivity.
    + reflexivity.
    + reflexivity.
    + vm_compute. lia.
  - apply (proj2 infer_dataset_without_model (Samples.pipeline8 None)
                 ["rain fell all day"; "sun came out"; "wind rose"]
                 [(0, pd.Str "rain fell all day"); (1, pd.Str "sun came out");
                  (2, pd.Str "wind rose")]).
    + reflexivity.
    + discriminate.
    + reflexivity.
    + reflexivity.
    + reflexivity.
    + vm_compute. lia.
Defined.

Lemma getitem_absent (name : string) (df : pd.DataFrame) :
  name ∉ pd.columns df -> pd.getitem name df = Raise (KeyError name).
Proof.
  intros Hno. unfold pd.getitem, pd.column_position.
  assert (Hnone : list_find (fun c => c = name) (pd.columns df) = None).
  { apply list_find_None. apply Forall_forall. intros c Hc ->. now apply Hno. }
  now rewrite Hnone.
Qed.

Lemma getitem_present (name : string) (df : pd.DataFrame) :
  name ∈ pd.columns df -> exists s, pd.getitem name df = Ok s /\ length s = pd.len df.
Proof.
  intros Hin. unfold pd.getitem, pd.column_position.
  destruct (list_find (fun c => c = name) (pd.columns df)) as [[pos c]|] eqn:Hfind.
  - simpl. eexists. split; [reflexivity |]. now rewrite length_fmap.
  - apply list_find_None in Hfind. rewrite Forall_forall in Hfind.
    now destruct (Hfind name Hin).
Qed.

Lemma infer_dataset_loop_empty (infer : list (list string) -> result (list string))
    (df : pd.DataFrame) (fetch : nat -> result (list pd.cell)) (batch_size : nat) :
  batch_size ≠ 0 -> pd.rows df = [] ->
  (dataloader ← torch.DataLoader (pd.len df) fetch batch_size;
   predictions ← @concat string <$> traverse (fun next => batch ← next; infer batch)
                                             dataloader;
   target ← pd.getitem ColumnNames.TARGET df;
   pd.of_series_and_list ColumnNames.TARGET target
                         ColumnNames.PREDICTION (pd.Str <$> predictions))
  = (_ ← pd.getitem ColumnNames.TARGET df;
     Ok {| pd.columns := [ColumnNames.TARGET; ColumnNames.PREDICTION]; pd.rows := [] |}).
Proof.
  intros Hbs Hrows. unfold torch.DataLoader, pd.len. rewrite Hrows.
  destruct (decide (batch_size = 0)) as [H0|_]; [now destruct Hbs |].
  destruct batch_size as [|b]; [now destruct Hbs |].
  simpl seq. simp batches. cbn [fmap list_fmap traverse result_fmap mbind result_bind concat].
  unfold pd.getitem. destruct (pd.column_position _ df); [| reflexivity].
  cbn [mbind result_bind]. rewrite Hrows. reflexivity.
Qed.

(** X6. Edge inputs of [infer_dataset()], in both labs.  A batch size of 0
    is refused before anything else, with the value error of the data
    loader, whose message names the size it got.  On a table
    without rows no batch is formed and the model is never consulted: the
    call returns the empty two-column table if the table has a target
    column, with or without a model, and raises the key error for
    [target] otherwise, as on the empty frame that the services wrap. *)
Theorem infer_dataset_edge_inputs :
  (forall self : Lab7.LLMPipeline.t,
      Lab7.LLMPipeline._batch_size self = 0 ->
      Lab7.LLMPipeline.infer_dataset self
      = Raise (ValueError
                 "batch_size should be a positive integer value, but got batch_size=0"))
  /\ (forall self : Lab7.LLMPipeline.t,
         let df := Lab7.TaskDataset.data (Lab7.LLMPipeline._dataset self) in
         Lab7.LLMPipeline._batch_size self ≠ 0 ->
         pd.rows df = [] ->
         (ColumnNames.TARGET ∈ pd.columns df ->
          Lab7.LLMPipeline.infer_dataset self
          = Ok {| pd.columns := [ColumnNames.TARGET; ColumnNames.PREDICTION];
                  pd.rows := [] |})
         /\ (ColumnNames.TARGET ∉ pd.columns df ->
             Lab7.LLMPipeline.infer_dataset self = Raise (KeyError "target")))
  /\ (forall self : Lab8.LLMPipeline.t,
         Lab8.LLMPipeline._batch_size self = 0 ->
         Lab8.LLMPipeline.infer_dataset self
         = Raise (ValueError
                    "batch_size should be a positive integer value, but got batch_size=0"))
  /\ (forall self : Lab8.LLMPipeline.t,
         let df := Lab8.TaskDataset.data (Lab8.LLMPipeline._dataset self) in
         Lab8.LLMPipeline._batch_size self ≠ 0 ->
         pd.rows df = [] ->
         (ColumnNames.TARGET ∈ pd.columns df ->
          Lab8.LLMPipeline.infer_dataset self
          = Ok {| pd.columns := [ColumnNames.TARGET; ColumnNames.PREDICTION];
                  pd.rows := [] |})
         /\ (ColumnNames.TARGET ∉ pd.columns df ->
             Lab8.LLMPipeline.infer_dataset self = Raise (KeyError "target"))).
Proof.
  split; [| split; [| split]].
  - intros self H0. unfold Lab7.LLMPipeline.infer_dataset, torch.DataLoader.
    rewrite H0. reflexivity.
  - intros self df Hbs Hrows.
    pose proof (infer_dataset_loop_empty (Lab7.LLMPipeline._infer_batch self) df
                  (Lab7.TaskDataset.__getitem__ (Lab7.LLMPipeline._dataset self))
                  _ Hbs Hrows) as Hloop.
    split; intros Hcol.
    + destruct (getitem_present _ _ Hcol) as (s & Hs & _).
      unfold Lab7.LLMPipeline.infer_dataset. fold df.
      unfold Lab7.TaskDataset.__len__. fold df in Hloop |- *.
      etrans; [exact Hloop |]. now rewrite Hs.
    + unfold Lab7.LLMPipeline.infer_dataset.
      etrans; [exact Hloop |]. now rewrite (getitem_absent _ _ Hcol).
  - intros self H0. unfold Lab8.LLMPipeline.infer_dataset, torch.DataLoader.
    rewrite H0. reflexivity.
  - intros self df Hbs Hrows.
    pose proof (infer_dataset_loop_empty (Lab8.LLMPipeline._infer_batch self) df
                  (Lab8.TaskDataset.__getitem__ (Lab8.LLMPipeline._dataset self))
                  _ Hbs Hrows) as Hloop.
    split; intros Hcol.
    + destruct (getitem_present _ _ Hcol) as (s & Hs & _).
      unfold Lab8.LLMPipeline.infer_dataset.
      etrans; [exact Hloop |]. now rewrite Hs.
    + unfold Lab8.LLMPipeline.infer_dataset.
      etrans; [exact Hloop |]. now rewrite (getitem_absent _ _ Hcol).
Qed.

Lemma infer_dataset_edge_inputs_witness :
  Lab7.LLMPipeline.infer_dataset (Samples.pipeline7_over Samples.clean_table 0 None)
  = Raise (ValueError
             "batch_size should be a positive integer value, but got batch_size=0")
  /\ Lab7.LLMPipeline.infer_dataset (Samples.pipeline7_over Samples.no_rows 1 None)
     = Ok {| pd.columns := [ColumnNames.TARGET; ColumnNames.PREDICTION]; pd.rows := [] |}
  /\ Lab7.LLMPipeline.infer_dataset (Samples.pipeline7_over pd.empty 1 None)
     = Raise (KeyError "target")
  /\ Lab8.LLMPipeline.infer_dataset (Samples.pipeline8_over Samples.articles 0 None)
     = Raise (ValueError
                "batch_size should be a positive integer value, but got batch_size=0")
  /\ Lab8.LLMPipeline.infer_dataset (Samples.pipeline8_over Samples.no_rows 1 None)
     = Ok {| pd.columns := [ColumnNames.TARGET; ColumnNames.PREDICTION]; pd.rows := [] |}
  /\ Lab8.LLMPipeline.infer_dataset (Samples.pipeline8_over pd.empty 1 None)
     = Raise (KeyError "target").
Proof.
  destruct infer_dataset_edge_inputs as (Hzero7 & Hrows7 & Hzero8 & Hrows8).
  split; [| split; [| split; [| split; [| split]]]].
  - apply Hzero7. reflexivity.
  - apply (Hrows7 (Samples.pipeline7_over Samples.no_rows 1 None));
      [discriminate | reflexivity | apply list_elem_of_here].
  - apply (Hrows7 (Samples.pipeline7_over pd.empty 1 None));
      [discriminate | reflexivity | apply not_elem_of_nil].
  - apply Hzero8. reflexivity.
  - apply (Hrows8 (Samples.pipeline8_over Samples.no_rows 1 None));
      [discriminate | reflexivity | apply list_elem_of_here].
  - apply (Hrows8 (Samples.pipeline8_over pd.empty 1 None));
      [discriminate | reflexivity | apply not_elem_of_nil].
Defined.

(** ** Dataset analysis *)

Lemma sum_flags_le (flags : list bool) : pd.sum_flags flags <= length flags.
Proof. unfold pd.sum_flags. apply length_filter. Qed.

Lemma duplicated_and_first_occurrences seen (rs : list (nat * list pd.cell)) :
  pd.sum_flags (pd.duplicated_from seen rs) + length (pd.first_occurrences seen rs)
  = length rs.
Proof.
  revert seen. induction rs as [|r rs IH]; intros seen; simpl; [reflexivity |].
  destruct (decide (r.2 ∈ seen)).
  - unfold pd.sum_flags in *. rewrite filter_cons_True by reflexivity. simpl.
    now rewrite IH.
  - unfold pd.sum_flags in *. rewrite filter_cons_False by discriminate. simpl.
    rewrite <- (IH (r.2 :: seen)). lia.
Qed.

Lemma first_occurrences_nonempty (r : nat * list pd.cell) rs :
  0 < length (pd.first_occurrences [] (r :: rs)).
Proof.
  simpl. destruct (decide (r.2 ∈ [])) as [Hin|_]; [now apply elem_of_nil in Hin |].
  simpl. lia.
Qed.

Lemma foldl_min_spec (l : list (nat * nat)) (a : nat) :
  let m := foldl (fun m r' => Nat.min m r'.2) a l in
  m <= a /\ (forall r, r ∈ l -> m <= r.2) /\ (m = a \/ exists r, r ∈ l /\ r.2 = m).
Proof.
  revert a. induction l as [|x l IH]; intros a; simpl.
  - split; [lia |]. split; [| now left]. intros r Hr. now apply elem_of_nil in Hr.
  - destruct (IH (Nat.min a x.2)) as (H1 & H2 & H3). split; [lia |]. split.
    + intros r Hr. apply elem_of_cons in Hr as [-> | Hr]; [lia | now apply H2].
    + destruct H3 as [H3 | (r & Hr & H3)].
      * destruct (Nat.min_spec a x.2) as [[_ Hm] | [_ Hm]].
        -- left. lia.
        -- right. exists x. split; [apply list_elem_of_here | lia].
      * right. exists r. split; [now apply list_elem_of_further | exact H3].
Qed.

Lemma foldl_max_spec (l : list (nat * nat)) (a : nat) :
  let m := foldl (fun m r' => Nat.max m r'.2) a l in
  a <= m /\ (forall r, r ∈ l -> r.2 <= m) /\ (m = a \/ exists r, r ∈ l /\ r.2 = m).
Proof.
  revert a. induction l as [|x l IH]; intros a; simpl.
  - split; [lia |]. split; [| now left]. intros r Hr. now apply elem_of_nil in Hr.
  - destruct (IH (Nat.max a x.2)) as (H1 & H2 & H3). split; [lia |]. split.
    + intros r Hr. apply elem_of_cons in Hr as [-> | Hr]; [lia | now apply H2].
    + destruct H3 as [H3 | (r & Hr & H3)].
      * destruct (Nat.max_spec a x.2) as [[_ Hm] | [_ Hm]].
        -- right. exists x. split; [apply list_elem_of_here | lia].
        -- left. lia.
      * right. exists r. split; [now apply list_elem_of_further | exact H3].
Qed.

Lemma series_min_spec (s : list (nat * nat)) :
  match pd.series_min s with
  | Some lo => (forall r, r ∈ s -> lo <= r.2) /\ exists r, r ∈ s /\ r.2 = lo
  | None => s = []
  end.
Proof.
  destruct s as [|x s]; simpl; [reflexivity |].
  destruct (foldl_min_spec s x.2) as (H1 & H2 & H3). split.
  - intros r Hr. apply elem_of_cons in Hr as [-> | Hr]; [exact H1 | now apply H2].
  - destruct H3 as [H3 | (r & Hr & H3)].
    + exists x. split; [apply list_elem_of_here | now rewrite H3].
    + exists r. split; [now apply list_elem_of_further | exact H3].
Qed.

Lemma series_max_spec (s : list (nat * nat)) :
  match pd.series_max s with
  | Some hi => (forall r, r ∈ s -> r.2 <= hi) /\ exists r, r ∈ s /\ r.2 = hi
  | None => s = []
  end.
Proof.
  destruct s as [|x s]; simpl; [reflexivity |].
  destruct (foldl_max_spec s x.2) as (H1 & H2 & H3). split.
  - intros r Hr. apply elem_of_cons in Hr as [-> | Hr]; [exact H1 | now apply H2].
  - destruct H3 as [H3 | (r & Hr & H3)].
    + exists x. split; [apply list_elem_of_here | now rewrite H3].
    + exists r. split; [now apply list_elem_of_further | exact H3].
Qed.

Lemma map_len_Ok (s : list (nat * pd.cell)) (lengths : list (nat * nat)) :
  pd.map_len s = Ok lengths ->
  (forall r, r ∈ s -> exists t, r.2 = pd.Str t /\ (r.1, text_len t) ∈ lengths)
  /\ (forall x, x ∈ lengths -> exists r t, r ∈ s /\ r.2 = pd.Str t
                                           /\ x.2 = text_len t).
Proof.
  unfold pd.map_len. revert lengths. induction s as [|[i c] s IH]; intros lengths; simpl.
  - intros [= <-]. split; intros x Hx; now apply elem_of_nil in Hx.
  - destruct c as [|z|t]; simpl; [discriminate | discriminate |].
    destruct (traverse _ s) as [ys|e]; simpl; [| discriminate].
    intros [= <-]. destruct (IH ys eq_refl) as [H1 H2]. split.
    + intros r Hr. apply elem_of_cons in Hr as [-> | Hr].
      * exists t. split; [reflexivity | apply list_elem_of_here].
      * destruct (H1 r Hr) as (t' & Ht' & Hin). exists t'.
        split; [exact Ht' | now apply list_elem_of_further].
    + intros x Hx. apply elem_of_cons in Hx as [-> | Hx].
      * exists (i, pd.Str t), t. split; [apply list_elem_of_here | auto].
      * destruct (H2 x Hx) as (r & t' & Hr & Ht' & Hl). exists r, t'.
        split; [now apply list_elem_of_further | auto].
Qed.

Lemma duplicated_below_len (df : pd.DataFrame) :
  pd.len df = 0 \/ pd.sum_flags (pd.duplicated df) < pd.len df.
Proof.
  unfold pd.duplicated, pd.len. destruct (pd.rows df) as [|r rs] eqn:Hrows; [now left |].
  right. destruct (pd.columns df); [unfold pd.sum_flags; rewrite filter_nil; simpl; lia |].
  pose proof (duplicated_and_first_occurrences [] (r :: rs)) as Hsum.
  pose proof (first_occurrences_nonempty r rs) as Hpos.
  lia.
Qed.

Lemma report_of_column (name : string) (raw : pd.DataFrame) (a : analysis) :
  (min_len ← (content ← pd.getitem name raw;
              pd.series_min <$> pd.map_len (pd.series_dropna content));
   max_len ← (content ← pd.getitem name raw;
              pd.series_max <$> pd.map_len (pd.series_dropna content));
   Ok {| dataset_number_of_samples := pd.len raw;
         dataset_columns := length (pd.columns raw);
         dataset_duplicates := pd.sum_flags (pd.duplicated raw);
         dataset_empty_rows := pd.sum_flags (pd.isnull_any raw);
         dataset_sample_min_len := min_len;
         dataset_sample_max_len := max_len |}) = Ok a ->
  exists texts, pd.getitem name raw = Ok texts /\ report_describes a raw texts.
Proof.
  destruct (pd.getitem name raw) as [texts|e]; [| discriminate].
  cbn [mbind result_bind].
  destruct (pd.map_len (pd.series_dropna texts)) as [lengths|e] eqn:Hlen; [| discriminate].
  cbn [fmap result_fmap mbind result_bind]. intros [= <-].
  exists texts. split; [reflexivity |].
  split; [reflexivity |]. split; [reflexivity |]. split; [apply duplicated_below_len |].
  split.
  { cbn [dataset_empty_rows]. etrans; [apply sum_flags_le |].
    unfold pd.isnull_any, pd.len. now rewrite length_fmap. }
  cbn [dataset_sample_min_len dataset_sample_max_len].
  destruct (map_len_Ok _ _ Hlen) as [Hfwd Hback].
  assert (Hpresent : forall r, r ∈ texts -> r.2 ≠ pd.NA ->
                               exists t, r.2 = pd.Str t /\ (r.1, text_len t) ∈ lengths).
  { intros r Hr Hna. apply Hfwd. apply list_elem_of_filter. auto. }
  assert (Hfrom : forall x, x ∈ lengths ->
                            exists r t, r ∈ texts /\ r.2 = pd.Str t /\ x.2 = text_len t).
  { intros x Hx. destruct (Hback x Hx) as (r & t & Hr & Ht & Hl).
    apply list_elem_of_filter in Hr as [_ Hr]. eauto. }
  pose proof (series_min_spec lengths) as Hmin.
  pose proof (series_max_spec lengths) as Hmax.
  destruct (pd.series_min lengths) as [lo|]; destruct (pd.series_max lengths) as [hi|].
  - right. exists lo, hi. destruct Hmin as [Hlo (xlo & Hxlo & Hlo')].
    destruct Hmax as [Hhi (xhi & Hxhi & Hhi')].
    split; [reflexivity |]. split; [reflexivity |]. split; [| split].
    + intros r Hr. destruct (decide (r.2 = pd.NA)) as [Hna|Hna]; [now left | right].
      destruct (Hpresent r Hr Hna) as (t & Ht & Hin). exists t. split; [exact Ht |].
      specialize (Hlo _ Hin). specialize (Hhi _ Hin). simpl in *. lia.
    + destruct (Hfrom _ Hxlo) as (r & t & Hr & Ht & Hl). exists r, t. 
      split; [exact Hr |]. split; [exact Ht | congruence].
    + destruct (Hfrom _ Hxhi) as (r & t & Hr & Ht & Hl). exists r, t.
      split; [exact Hr |]. split; [exact Ht | congruence].
  - subst lengths. destruct Hmin as [_ (x & Hx & _)]. now apply elem_of_nil in Hx.
  - subst lengths. destruct Hmax as [_ (x & Hx & _)]. now apply elem_of_nil in Hx.
  - left. split; [reflexivity |]. split; [reflexivity |]. subst lengths.
    intros r Hr. destruct (decide (r.2 = pd.NA)) as [Hna|Hna]; [exact Hna |].
    destruct (Hpresent r Hr Hna) as (t & _ & Hin). now apply elem_of_nil in Hin.
Qed.

Lemma map_len_of_texts (s : list (nat * pd.cell)) :
  (forall r, r ∈ s -> exists t, r.2 = pd.Str t) -> exists lengths, pd.map_len s = Ok lengths.
Proof.
  unfold pd.map_len. induction s as [|[i c] s IH]; intros Htext; simpl; [eauto |].
  destruct (Htext (i, c)) as (t & Ht); [apply list_elem_of_here |]. simpl in Ht. subst c.
  destruct IH as (ys & Hys).
  { intros r Hr. apply Htext. now apply list_elem_of_further. }
  rewrite Hys. simpl. eauto.
Qed.

Lemma report_exists (name : string) (raw : pd.DataFrame) (texts : list (nat * pd.cell)) :
  pd.getitem name raw = Ok texts ->
  (forall r z, r ∈ texts -> r.2 ≠ pd.Int z) ->
  exists a,
    (min_len ← (content ← pd.getitem name raw;
                pd.series_min <$> pd.map_len (pd.series_dropna content));
     max_len ← (content ← pd.getitem name raw;
                pd.series_max <$> pd.map_len (pd.series_dropna content));
     Ok {| dataset_number_of_samples := pd.len raw;
           dataset_columns := length (pd.columns raw);
           dataset_duplicates := pd.sum_flags (pd.duplicated raw);
           dataset_empty_rows := pd.sum_flags (pd.isnull_any raw);
           dataset_sample_min_len := min_len;
           dataset_sample_max_len := max_len |}) = Ok a.
Proof.
  intros Hget Hno. rewrite Hget. cbn [mbind result_bind].
  destruct (map_len_of_texts (pd.series_dropna texts)) as (lengths & Hl).
  { intros r Hr. apply list_elem_of_filter in Hr as [Hna Hr].
    destruct r as [i [|z|t]]; simpl in *; [now destruct Hna | | eauto].
    now destruct (Hno _ z Hr). }
  rewrite Hl. cbn [fmap result_fmap mbind result_bind]. eauto.
Qed.

(** X7. What [analyze()] reports, whenever it returns, in both labs:
    the number of rows and of columns of the raw table; a number of
    duplicates below the number of rows (the first row is never one); a
    number of rows with a gap that is at most the number of rows; and for
    the text column ([content], [article]) either both lengths missing,
    when no row has text, or the least and the greatest length among the
    texts present, counted in characters and each attained by a row. *)
Theorem analyze_report_is_consistent :
  (forall (self : Lab7.RawDataPreprocessor.t) (a : analysis),
      Lab7.RawDataPreprocessor.analyze self = Ok a ->
      exists texts,
        pd.getitem "content" (Lab7.RawDataPreprocessor._raw_data self) = Ok texts
        /\ report_describes a (Lab7.RawDataPreprocessor._raw_data self) texts)
  /\ (forall (self : Lab8.RawDataPreprocessor.t) (a : analysis),
         Lab8.RawDataPreprocessor.analyze self = Ok a ->
         exists texts,
           pd.getitem "article" (Lab8.RawDataPreprocessor._raw_data self) = Ok texts
           /\ report_describes a (Lab8.RawDataPreprocessor._raw_data self) texts).
Proof.
  split; intros self a H.
  - exact (report_of_column "content" _ a H).
  - exact (report_of_column "article" _ a H).
Qed.

(** X8. When [analyze()] fails, in both labs: without the text column
    ([content], [article]) it raises the key error for that name; with it,
    it returns a report exactly when the column holds no number (a number
    has no [len]); missing values are skipped. *)
Theorem analyze_needs_a_text_column :
  (forall self : Lab7.RawDataPreprocessor.t,
      let raw := Lab7.RawDataPreprocessor._raw_data self in
      ("content" ∉ pd.columns raw ->
       Lab7.RawDataPreprocessor.analyze self = Raise (KeyError "content"))
      /\ (forall texts, pd.getitem "content" raw = Ok texts ->
                        ((forall r z, r ∈ texts -> r.2 ≠ pd.Int z)
                         <-> exists a, Lab7.RawDataPreprocessor.analyze self = Ok a)))
  /\ (forall self : Lab8.RawDataPreprocessor.t,
         let raw := Lab8.RawDataPreprocessor._raw_data self in
         ("article" ∉ pd.columns raw ->
          Lab8.RawDataPreprocessor.analyze self = Raise (KeyError "article"))
         /\ (forall texts, pd.getitem "article" raw = Ok texts ->
                           ((forall r z, r ∈ texts -> r.2 ≠ pd.Int z)
                            <-> exists a, Lab8.RawDataPreprocessor.analyze self = Ok a))).
Proof.
  split; intros self raw; (split; [intros Hno | intros texts Hget; split]).
  - unfold Lab7.RawDataPreprocessor.analyze. fold raw.
    now rewrite (getitem_absent _ _ Hno).
  - intros Htext. exact (report_exists "content" raw texts Hget Htext).
  - intros (a & Ha) r z Hr Hz.
    destruct (report_of_column "content" raw a Ha) as (texts' & Hget' & Hd).
    rewrite Hget in Hget'. injection Hget' as <-.
    destruct Hd as (_ & _ & _ & _ & [(_ & _ & Hna) | (lo & hi & _ & _ & Hall & _)]).
    + rewrite (Hna r Hr) in Hz. discriminate.
    + destruct (Hall r Hr) as [Hna | (t & Ht & _)]; congruence.
  - unfold Lab8.RawDataPreprocessor.analyze. fold raw.
    now rewrite (getitem_absent _ _ Hno).
  - intros Htext. exact (report_exists "article" raw texts Hget Htext).
  - intros (a & Ha) r z Hr Hz.
    destruct (report_of_column "article" raw a Ha) as (texts' & Hget' & Hd).
    rewrite Hget in Hget'. injection Hget' as <-.
    destruct Hd as (_ & _ & _ & _ & [(_ & _ & Hna) | (lo & hi & _ & _ & Hall & _)]).
    + rewrite (Hna r Hr) in Hz. discriminate.
    + destruct (Hall r Hr) as [Hna | (t & Ht & _)]; congruence.
Qed.

Lemma isnull_any_and_dropna (rs : list (nat * list pd.cell)) :
  pd.sum_flags ((fun r : nat * list pd.cell => bool_decide (pd.NA ∈ r.2)) <$> rs)
  + length (filter (fun r : nat * list pd.cell => pd.NA ∉ r.2) rs) = length rs.
Proof.
  unfold pd.sum_flags. induction rs as [|r rs IH]; [reflexivity |].
  rewrite fmap_cons. destruct (decide (pd.NA ∈ r.2)) as [Hin|Hin].
  - rewrite (bool_decide_eq_true_2 _ Hin).
    rewrite filter_cons_True by reflexivity.
    rewrite (filter_cons_False (fun r : nat * list pd.cell => pd.NA ∉ r.2)) by (intros H; now apply H).
    simpl. lia.
  - rewrite (bool_decide_eq_false_2 _ Hin).
    rewrite filter_cons_False by discriminate.
    rewrite (filter_cons_True (fun r : nat * list pd.cell => pd.NA ∉ r.2)) by exact Hin.
    simpl. lia.
Qed.

Lemma dropna_after_select (keep : list bool) (rs : list (nat * list pd.cell)) :
  length (filter (fun r : nat * list pd.cell => pd.NA ∉ r.2) rs)
  <= length (filter (fun r : nat * list pd.cell => pd.NA ∉ r.2)
                    ((fun r : nat * list pd.cell => (r.1, pd.select keep r.2)) <$> rs)).
Proof.
  induction rs as [|r rs IH]; [reflexivity |].
  rewrite fmap_cons. destruct (decide (pd.NA ∈ r.2)) as [Hin|Hin].
  - rewrite (filter_cons_False _ r) by (intros H; now apply H).
    etrans; [exact IH |]. rewrite filter_cons. destruct (decide _); simpl; lia.
  - rewrite (filter_cons_True _ r) by exact Hin.
    rewrite filter_cons_True.
    + simpl. lia.
    + simpl. intros H. apply Hin. eapply select_elem. exact H.
Qed.

Lemma first_occurrences_after (g : list pd.cell -> list pd.cell)
    (rs : list (nat * list pd.cell)) (seen seen' : list (list pd.cell)) :
  (forall x, x ∈ seen -> g x ∈ seen') ->
  length (pd.first_occurrences seen' ((fun r : nat * list pd.cell => (r.1, g r.2)) <$> rs))
  <= length (pd.first_occurrences seen rs).
Proof.
  revert seen seen'. induction rs as [|r rs IH]; intros seen seen' Hsub; [reflexivity |].
  rewrite fmap_cons. cbn [pd.first_occurrences]. simpl.
  destruct (decide (r.2 ∈ seen)) as [Hin|Hin].
  - destruct (decide (g r.2 ∈ seen')) as [_|Hno]; [| now destruct Hno; apply Hsub].
    now apply IH.
  - destruct (decide (g r.2 ∈ seen')) as [Hin'|Hin'].
    + simpl. etrans; [apply (IH (r.2 :: seen) seen') |]; [| lia].
      intros x Hx. apply elem_of_cons in Hx as [-> | Hx]; [exact Hin' | now apply Hsub].
    + simpl. apply le_n_S. apply IH.
      intros x Hx. apply elem_of_cons in Hx as [-> | Hx];
        [apply list_elem_of_here | apply list_elem_of_further; now apply Hsub].
Qed.

Lemma first_occurrences_some (rs : list (nat * list pd.cell)) :
  rs ≠ [] -> 0 < length (pd.first_occurrences [] rs).
Proof.
  destruct rs as [|r rs]; [congruence |]. intros _. apply first_occurrences_nonempty.
Qed.

Lemma report_counts (name : string) (raw : pd.DataFrame) (a : analysis) :
  (min_len ← (content ← pd.getitem name raw;
              pd.series_min <$> pd.map_len (pd.series_dropna content));
   max_len ← (content ← pd.getitem name raw;
              pd.series_max <$> pd.map_len (pd.series_dropna content));
   Ok {| dataset_number_of_samples := pd.len raw;
         dataset_columns := length (pd.columns raw);
         dataset_duplicates := pd.sum_flags (pd.duplicated raw);
         dataset_empty_rows := pd.sum_flags (pd.isnull_any raw);
         dataset_sample_min_len := min_len;
         dataset_sample_max_len := max_len |}) = Ok a ->
  dataset_number_of_samples a = pd.len raw
  /\ dataset_duplicates a = pd.sum_flags (pd.duplicated raw)
  /\ dataset_empty_rows a = pd.sum_flags (pd.isnull_any raw).
Proof.
  destruct (pd.getitem name raw) as [texts|e]; [| discriminate].
  cbn [mbind result_bind].
  destruct (pd.map_len (pd.series_dropna texts)) as [lengths|e]; [| discriminate].
  cbn [fmap result_fmap mbind result_bind]. intros [= <-]. auto.
Qed.

(** X9. The report of [analyze()] bounds what [transform()] keeps.  In
    lab 7 the clean table has at most as many rows as the raw one and at
    least the rows without a gap (a gap in a dropped column does not cost
    the row).  In lab 8 it has at most the rows that are no duplicates
    (rows that differ in [id] only are merged too) and, for a raw table
    with rows, at least one row. *)
Theorem analyze_bounds_the_clean_table :
  (forall (self self' : Lab7.RawDataPreprocessor.t) (a : analysis) (clean : pd.DataFrame),
      Lab7.RawDataPreprocessor.analyze self = Ok a ->
      Lab7.RawDataPreprocessor.transform self = (Ok (), self') ->
      Lab7.RawDataPreprocessor._data self' = Some clean ->
      dataset_number_of_samples a - dataset_empty_rows a <= pd.len clean
      /\ pd.len clean <= dataset_number_of_samples a)
  /\ (forall (self self' : Lab8.RawDataPreprocessor.t) (a : analysis) (clean : pd.DataFrame),
         Lab8.RawDataPreprocessor.analyze self = Ok a ->
         Lab8.RawDataPreprocessor.transform self = (Ok (), self') ->
         Lab8.RawDataPreprocessor._data self' = Some clean ->
         pd.len clean <= dataset_number_of_samples a - dataset_duplicates a
         /\ (0 < dataset_number_of_samples a -> 0 < pd.len clean)).
Proof.
  split; intros self self' a clean Ha Ht Hclean.
  - destruct (report_counts "content" _ a Ha) as (-> & Hdup & Hempty).
    rewrite Hempty. clear Hdup Hempty.
    apply lab7_transform_Ok in Ht as (dropped & pos & Hdrop & _ & Hdata).
    rewrite Hdata in Hclean. injection Hclean as <-.
    pose proof (drop_Ok _ _ _ Hdrop) as Hd. cbn zeta in Hd. subst dropped.
    unfold pd.len, pd.reset_index, pd.isnull_any. cbn [pd.rows].
    rewrite length_imap, length_fmap.
    pose proof (isnull_any_and_dropna (pd.rows (Lab7.RawDataPreprocessor._raw_data self)))
      as Hsum.
    split.
    + etrans; [| apply dropna_after_select]. lia.
    + etrans; [apply length_filter |]. now rewrite length_fmap.
  - destruct (report_counts "article" _ a Ha) as (-> & Hdup & Hempty).
    rewrite Hdup. clear Hdup Hempty.
    apply lab8_transform_Ok in Ht as (dropped & pos & Hdrop & _ & Hdata).
    rewrite Hdata in Hclean. injection Hclean as <-.
    assert (Hid : "id" ∈ pd.columns (Lab8.RawDataPreprocessor._raw_data self)).
    { unfold pd.drop in Hdrop.
      destruct (decide ("id" ∈ pd.columns (Lab8.RawDataPreprocessor._raw_data self)))
        as [Hin|Hno]; [exact Hin |].
      simpl in Hdrop. rewrite decide_True in Hdrop by exact Hno. discriminate Hdrop. }
    pose proof (drop_Ok _ _ _ Hdrop) as Hd. cbn zeta in Hd. subst dropped.
    unfold pd.len, pd.reset_index, pd.duplicated. cbn [pd.rows].
    rewrite length_imap, length_fmap.
    destruct (pd.columns (Lab8.RawDataPreprocessor._raw_data self)) as [|c cs] eqn:Hcols;
      [now apply elem_of_nil in Hid |].
    pose proof (duplicated_and_first_occurrences []
                  (pd.rows (Lab8.RawDataPreprocessor._raw_data self))) as Hsum.
    split.
    + etrans; [apply (first_occurrences_after _ _ [] []) |]; [| lia].
      intros x Hx. now apply elem_of_nil in Hx.
    + intros Hpos. apply first_occurrences_some.
      destruct (pd.rows (Lab8.RawDataPreprocessor._raw_data self)); [simpl in Hpos; lia |].
      discriminate.
Qed.

Lemma analyze_report_is_consistent_witness :
  exists texts,
    pd.getitem "content" Samples.raw_russian_reviews = Ok texts
    /\ report_describes {| dataset_number_of_samples := 2;
                           dataset_columns := 2;
                           dataset_duplicates := 0;
                           dataset_empty_rows := 0;
                           dataset_sample_min_len := Some 2;
                           dataset_sample_max_len := Some 6 |}
                        Samples.raw_russian_reviews texts.
Proof.
  apply (proj1 analyze_report_is_consistent
               (Samples.preprocessor7 Samples.raw_russian_reviews)).
  reflexivity.
Defined.

Lemma analyze_needs_a_text_column_witness :
  Lab7.RawDataPreprocessor.analyze (Samples.preprocessor7 Samples.raw_articles)
  = Raise (KeyError "content")
  /\ exists a, Lab8.RawDataPreprocessor.analyze (Samples.preprocessor8 Samples.raw_articles)
               = Ok a.
Proof.
  split.
  - apply (proj1 (proj1 analyze_needs_a_text_column
                        (Samples.preprocessor7 Samples.raw_articles))).
    simpl. intros Hin.
    repeat (apply elem_of_cons in Hin as [Hin | Hin]; [discriminate Hin |]).
    now apply elem_of_nil in Hin.
  - apply (proj2 (proj2 analyze_needs_a_text_column
                        (Samples.preprocessor8 Samples.raw_articles))
                 [(0, pd.Str "(CNN)Rain fell all day.");
                  (1, pd.Str "(CNN)Rain fell all day.");
                  (2, pd.Str "The sun came out.")]); [reflexivity |].
    intros r z Hr.
    repeat (apply elem_of_cons in Hr as [-> | Hr]; [discriminate |]).
    now apply elem_of_nil in Hr.
Defined.

Lemma analyze_bounds_the_clean_table_witness :
  (exists a clean,
      Lab7.RawDataPreprocessor.analyze (Samples.preprocessor7 Samples.raw_reviews) = Ok a
      /\ Lab7.RawDataPreprocessor._data
           (Lab7.RawDataPreprocessor.transform
              (Samples.preprocessor7 Samples.raw_reviews)).2 = Some clean
      /\ dataset_number_of_samples a = 3 /\ dataset_empty_rows a = 2 /\ pd.len clean = 2
      /\ dataset_number_of_samples a - dataset_empty_rows a <= pd.len clean
      /\ pd.len clean <= dataset_number_of_samples a)
  /\ (exists a clean,
         Lab8.RawDataPreprocessor.analyze (Samples.preprocessor8 Samples.raw_articles) = Ok a
         /\ Lab8.RawDataPreprocessor._data
              (Lab8.RawDataPreprocessor.transform
                 (Samples.preprocessor8 Samples.raw_articles)).2 = Some clean
         /\ dataset_number_of_samples a = 3 /\ dataset_duplicates a = 1
         /\ pd.len clean = 2
         /\ pd.len clean <= dataset_number_of_samples a - dataset_duplicates a
         /\ (0 < dataset_number_of_samples a -> 0 < pd.len clean)).
Proof.
  split.
  - eexists _, _. split; [reflexivity |]. split; [reflexivity |].
    split; [reflexivity |]. split; [reflexivity |]. split; [reflexivity |].
    eapply (proj1 analyze_bounds_the_clean_table
                  (Samples.preprocessor7 Samples.raw_reviews)); reflexivity.
  - eexists _, _. split; [reflexivity |]. split; [reflexivity |].
    split; [reflexivity |]. split; [reflexivity |]. split; [reflexivity |].
    eapply (proj2 analyze_bounds_the_clean_table
                  (Samples.preprocessor8 Samples.raw_articles)); reflexivity.
Defined.

(** ** Preprocessing: failures *)

Lemma drop_missing_label (labels : list string) (df : pd.DataFrame) (l : string) :
  l ∈ labels -> l ∉ pd.columns df -> exists k, pd.drop labels df = Raise (KeyError k).
Proof.
  intros Hl Hno. unfold pd.drop.
  destruct (list_find_elem_of (fun l => l ∉ pd.columns df) labels l Hl Hno) as [[i k] Hfind].
  rewrite Hfind. eauto.
Qed.

Lemma drop_present_labels (labels : list string) (df : pd.DataFrame) :
  (forall l, l ∈ labels -> l ∈ pd.columns df) ->
  pd.drop labels df
  = Ok {| pd.columns := pd.select ((fun c => bool_decide (c ∉ labels)) <$> pd.columns df)
                                  (pd.columns df);
          pd.rows := (fun r : nat * list pd.cell =>
                        (r.1, pd.select ((fun c => bool_decide (c ∉ labels)) <$> pd.columns df)
                                        r.2)) <$> pd.rows df |}.
Proof.
  intros Hall. unfold pd.drop.
  assert (Hnone : list_find (fun l => l ∉ pd.columns df) labels = None).
  { apply list_find_None. apply Forall_forall. intros l Hl Hno. now apply Hno, Hall. }
  now rewrite Hnone.
Qed.

(** X10. How [transform()] fails, in both labs.  When a column it is to
    drop is absent, it raises a key error and leaves the object as it was.
    When those columns are there but no column ends up named [target] (lab
    7) or [source] (lab 8), it raises the key error for that name after
    [_data] has been assigned: the object then holds a table without that
    column. *)
Theorem transform_failures :
  (forall self : Lab7.RawDataPreprocessor.t,
      let raw := Lab7.RawDataPreprocessor._raw_data self in
      ((exists l, l ∈ Lab7.RawDataPreprocessor.dropped_columns /\ l ∉ pd.columns raw) ->
       exists k, Lab7.RawDataPreprocessor.transform self = (Raise (KeyError k), self))
      /\ ((forall l, l ∈ Lab7.RawDataPreprocessor.dropped_columns -> l ∈ pd.columns raw) ->
          "grade3" ∉ pd.columns raw ->
          ColumnNames.TARGET ∉ pd.columns raw ->
          exists data,
            Lab7.RawDataPreprocessor.transform self
            = (Raise (KeyError "target"),
               {| Lab7.RawDataPreprocessor._raw_data := raw;
                  Lab7.RawDataPreprocessor._data := Some data |})
            /\ ColumnNames.TARGET ∉ pd.columns data))
  /\ (forall self : Lab8.RawDataPreprocessor.t,
         let raw := Lab8.RawDataPreprocessor._raw_data self in
         ("id" ∉ pd.columns raw ->
          exists k, Lab8.RawDataPreprocessor.transform self = (Raise (KeyError k), self))
         /\ ("id" ∈ pd.columns raw ->
             "article" ∉ pd.columns raw ->
             ColumnNames.SOURCE ∉ pd.columns raw ->
             exists data,
               Lab8.RawDataPreprocessor.transform self
               = (Raise (KeyError "source"),
                  {| Lab8.RawDataPreprocessor._raw_data := raw;
                     Lab8.RawDataPreprocessor._data := Some data |})
               /\ ColumnNames.SOURCE ∉ pd.columns data)).
Proof.
  split; intros self raw; split.
  - intros (l & Hl & Hno). unfold Lab7.RawDataPreprocessor.transform. fold raw.
    destruct (drop_missing_label _ raw l Hl Hno) as (k & ->). eauto.
  - intros Hall Hg Ht. unfold Lab7.RawDataPreprocessor.transform. fold raw.
    rewrite (drop_present_labels _ raw Hall). cbn zeta.
    match goal with
    | |- context [pd.getitem ColumnNames.TARGET ?d] =>
        assert (Hno : ColumnNames.TARGET ∉ pd.columns d)
    end.
    { simpl. intros Hin. apply list_elem_of_fmap in Hin as (c & Hc & Hin).
      apply select_elem in Hin. symmetry in Hc.
      apply renamed_to_target in Hc as [-> | ->]; [now apply Hg | now apply Ht]. }
    rewrite (getitem_absent _ _ Hno). eexists. split; [reflexivity | exact Hno].
  - intros Hno. unfold Lab8.RawDataPreprocessor.transform. fold raw.
    destruct (drop_missing_label ["id"] raw "id") as (k & ->);
      [apply list_elem_of_here | exact Hno |]. eauto.
  - intros Hid Ha Hs. unfold Lab8.RawDataPreprocessor.transform. fold raw.
    rewrite (drop_present_labels ["id"] raw).
    2:{ intros l Hl. apply list_elem_of_singleton in Hl as ->. exact Hid. }
    cbn zeta.
    match goal with
    | |- context [pd.getitem "source" ?d] =>
        assert (Hno : ColumnNames.SOURCE ∉ pd.columns d)
    end.
    { simpl. intros Hin. apply list_elem_of_fmap in Hin as (c & Hc & Hin).
      apply select_elem in Hin. symmetry in Hc.
      apply renamed_to_source in Hc as [-> | ->]; [now apply Ha | now apply Hs]. }
    change "source" with ColumnNames.SOURCE.
    rewrite (getitem_absent _ _ Hno). eexists. split; [reflexivity | exact Hno].
Qed.

(** X11. In the clean table of lab 7 the target column holds nothing
    but the class codes 0, 1 and 2 and missing values: no label text
    survives [transform()], whatever the raw labels are. *)
Theorem lab7_target_is_a_class_code (self self' : Lab7.RawDataPreprocessor.t)
    (clean : pd.DataFrame) (targets : list (nat * pd.cell)) :
  Lab7.RawDataPreprocessor.transform self = (Ok (), self') ->
  Lab7.RawDataPreprocessor._data self' = Some clean ->
  pd.getitem ColumnNames.TARGET clean = Ok targets ->
  Forall (fun r : nat * pd.cell => r.2 ∈ [pd.Int 0; pd.Int 1; pd.Int 2; pd.NA]) targets.
Proof.
  intros Ht Hclean Hs.
  apply lab7_transform_Ok in Ht as (dropped & pos & Hdrop & Hfind & Hdata).
  rewrite Hdata in Hclean. injection Hclean as <-.
  apply Forall_forall. intros x Hx.
  destruct (updated_column_cells _ _ _ _ _ _ _ Hs Hx) as (p & r & Hp & Hr & ->).
  rewrite Hfind in Hp. injection Hp as <-.
  destruct (decide (pos < length r.2)) as [Hlt|Hge].
  - rewrite list_lookup_insert_eq by exact Hlt. simpl.
    destruct (default pd.NA (r.2 !! pos)) as [|z|l]; simpl; [set_solver | set_solver |].
    unfold Lab7.RawDataPreprocessor.label_codes.
    destruct (decide (l = "Good")) as [->|HG]; [rewrite lookup_insert_eq; set_solver |].
    rewrite lookup_insert_ne by congruence.
    destruct (decide (l = "Bad")) as [->|HB]; [rewrite lookup_insert_eq; set_solver |].
    rewrite lookup_insert_ne by congruence.
    destruct (decide (l = "Neutral")) as [->|HN]; [rewrite lookup_singleton_eq; set_solver |].
    rewrite lookup_singleton_ne by congruence. set_solver.
  - rewrite lookup_ge_None_2 by (rewrite length_insert; lia). set_solver.
Qed.

(** X12. [analyze()] reports on the raw table only: after
    [transform()], successful or not, it returns what it returned before,
    in both labs. *)
Theorem analyze_reports_on_the_raw_table :
  (forall self : Lab7.RawDataPreprocessor.t,
      Lab7.RawDataPreprocessor.analyze (Lab7.RawDataPreprocessor.transform self).2
      = Lab7.RawDataPreprocessor.analyze self)
  /\ (forall self : Lab8.RawDataPreprocessor.t,
         Lab8.RawDataPreprocessor.analyze (Lab8.RawDataPreprocessor.transform self).2
         = Lab8.RawDataPreprocessor.analyze self).
Proof.
  split; intros self.
  - unfold Lab7.RawDataPreprocessor.analyze. now rewrite lab7_transform_keeps_raw.
  - unfold Lab8.RawDataPreprocessor.analyze. now rewrite lab8_transform_keeps_raw.
Qed.

(** ** Preprocessing the datasets' own tables *)

Lemma select_by_test {A : Type} (f : A -> bool) (xs : list A) :
  pd.select (f <$> xs) xs = filter (fun x => f x = true) xs.
Proof.
  induction xs as [|x xs IH]; [reflexivity |].
  rewrite fmap_cons. simpl. rewrite filter_cons. destruct (f x) eqn:Hf.
  - rewrite decide_True by reflexivity. now rewrite IH.
  - rewrite decide_False by discriminate. exact IH.
Qed.

Lemma kept_columns_Permutation (labels : list string) (rename : string -> string)
    (cols schema : list string) :
  cols ≡ₚ schema ->
  rename <$> pd.select ((fun c => bool_decide (c ∉ labels)) <$> cols) cols
  ≡ₚ rename <$> filter (fun c => bool_decide (c ∉ labels) = true) schema.
Proof.
  intros Hperm. rewrite select_by_test. now rewrite Hperm.
Qed.

Lemma lab7_kept_columns (cols : list string) :
  cols ≡ₚ ["part"; "movie_name"; "review_id"; "author"; "date"; "title";
           "grade3"; "grade10"; "content"] ->
  (fun c => default c (Lab7.RawDataPreprocessor.renamed_columns !! c))
    <$> pd.select ((fun c => bool_decide (c ∉ Lab7.RawDataPreprocessor.dropped_columns))
                     <$> cols) cols
  ≡ₚ [ColumnNames.TARGET; ColumnNames.SOURCE].
Proof.
  intros Hperm.
  rewrite (kept_columns_Permutation _ _ _ _ Hperm). reflexivity.
Qed.

Lemma lab8_kept_columns (cols : list string) :
  cols ≡ₚ ["article"; "highlights"; "id"] ->
  (fun c => default c (Lab8.RawDataPreprocessor.renamed_columns !! c))
    <$> pd.select ((fun c => bool_decide (c ∉ ["id"])) <$> cols) cols
  ≡ₚ [ColumnNames.SOURCE; ColumnNames.TARGET].
Proof.
  intros Hperm.
  rewrite (kept_columns_Permutation _ _ _ _ Hperm). reflexivity.
Qed.

Lemma str_replace_of_texts (old new : string) (s : list (nat * pd.cell)) :
  (forall r z, r ∈ s -> r.2 ≠ pd.Int z) -> exists s', pd.str_replace old new s = Ok s'.
Proof.
  intros Hno. unfold pd.str_replace.
  assert (H : existsb (fun r : nat * pd.cell => pd.is_number r.2) s = false).
  { apply not_true_is_false. intros H. apply existsb_exists in H as (r & Hr & Hn).
    apply list_elem_of_In in Hr. destruct r as [i [|z|t]]; try discriminate Hn.
    now apply (Hno _ z Hr). }
  rewrite H. simpl. eauto.
Qed.

(** X13. On a raw table with the dataset's own columns, in any order,
    [transform()] succeeds and leaves a clean table with exactly the
    columns [target] and [source] and with the row range as index: for lab
    7 with the nine columns of the reviews, whatever the cells; for lab 8
    with [article], [highlights] and [id], when the rows are as wide as the
    header and every article is text. *)
Theorem transform_of_the_dataset_table :
  (forall self : Lab7.RawDataPreprocessor.t,
      let raw := Lab7.RawDataPreprocessor._raw_data self in
      pd.columns raw ≡ₚ ["part"; "movie_name"; "review_id"; "author"; "date"; "title";
                          "grade3"; "grade10"; "content"] ->
      exists clean,
        Lab7.RawDataPreprocessor.transform self
        = (Ok (), {| Lab7.RawDataPreprocessor._raw_data := raw;
                     Lab7.RawDataPreprocessor._data := Some clean |})
        /\ pd.columns clean ≡ₚ [ColumnNames.TARGET; ColumnNames.SOURCE]
        /\ range_index clean)
  /\ (forall (self : Lab8.RawDataPreprocessor.t) (articles : list (nat * pd.cell)),
         let raw := Lab8.RawDataPreprocessor._raw_data self in
         pd.columns raw ≡ₚ ["article"; "highlights"; "id"] ->
         rectangular raw ->
         pd.getitem "article" raw = Ok articles ->
         (forall r, r ∈ articles -> exists t, r.2 = pd.Str t) ->
         exists clean,
           Lab8.RawDataPreprocessor.transform self
           = (Ok (), {| Lab8.RawDataPreprocessor._raw_data := raw;
                        Lab8.RawDataPreprocessor._data := Some clean |})
           /\ pd.columns clean ≡ₚ [ColumnNames.SOURCE; ColumnNames.TARGET]
           /\ range_index clean).
Proof.
  split.
  - intros self raw Hperm. subst raw.
    assert (Hall : forall l, l ∈ Lab7.RawDataPreprocessor.dropped_columns ->
                             l ∈ pd.columns (Lab7.RawDataPreprocessor._raw_data self)).
    { intros l Hl. rewrite Hperm.
      unfold Lab7.RawDataPreprocessor.dropped_columns in Hl.
      repeat (apply elem_of_cons in Hl as [-> | Hl]; [elem_of_listed |]).
      now apply elem_of_nil in Hl. }
    pose proof (lab7_kept_columns _ Hperm) as Hkept.
    destruct (Lab7.RawDataPreprocessor.transform self) as [outcome self'] eqn:Ht.
    pose proof (lab7_transform_keeps_raw self) as Hraw. rewrite Ht in Hraw. simpl in Hraw.
    assert (Hok : outcome = Ok ()).
    { revert Ht. unfold Lab7.RawDataPreprocessor.transform.
      rewrite (drop_present_labels _ _ Hall). cbn zeta.
      match goal with
      | |- context [pd.getitem ColumnNames.TARGET ?d] =>
          destruct (getitem_present ColumnNames.TARGET d) as (s & -> & _)
      end.
      - simpl. rewrite Hkept. apply list_elem_of_here.
      - now intros [= <- _]. }
    subst outcome.
    destruct (lab7_transform_Ok _ _ Ht) as (dropped & pos & Hdrop & _ & Hdata).
    rewrite (drop_present_labels _ _ Hall) in Hdrop. injection Hdrop as <-.
    destruct self' as [raw' data']. simpl in Hraw, Hdata. subst raw' data'.
    eexists. split; [reflexivity |]. split; [exact Hkept | apply reset_index_range].
  - intros self articles raw Hperm Hrect Harticles Htexts. subst raw.
    assert (Hall : forall l, l ∈ ["id"] -> l ∈ pd.columns (Lab8.RawDataPreprocessor._raw_data self)).
    { intros l Hl. rewrite Hperm.
      apply list_elem_of_singleton in Hl as ->. elem_of_listed. }
    pose proof (lab8_kept_columns _ Hperm) as Hkept.
    assert (Hfresh : ColumnNames.SOURCE ∉ pd.columns (Lab8.RawDataPreprocessor._raw_data self)).
    { rewrite Hperm. unfold ColumnNames.SOURCE. intros Hin. not_elem_of_listed Hin. }
    destruct (Lab8.RawDataPreprocessor.transform self) as [outcome self'] eqn:Ht.
    pose proof (lab8_transform_keeps_raw self) as Hraw. rewrite Ht in Hraw. simpl in Hraw.
    assert (Hok : outcome = Ok ()).
    { revert Ht. unfold Lab8.RawDataPreprocessor.transform.
      rewrite (drop_present_labels _ _ Hall). cbn zeta.
      match goal with
      | |- context [pd.getitem "source" ?d] =>
          destruct (getitem_present "source" d) as (s & Hs & _)
      end.
      { simpl. rewrite Hkept. apply list_elem_of_here. }
      rewrite Hs.
      destruct (str_replace_of_texts "(CNN)" "" s) as (s' & ->); [| now intros [= <- _]].
      intros x z Hx Hz.
      apply getitem_Ok in Hs as (pos & Hfind & ->). simpl in Hfind, Hx.
      apply list_elem_of_fmap in Hx as (r & -> & Hr). simpl in Hz.
      apply first_occurrences_elem, list_elem_of_fmap in Hr as (r0 & -> & Hr0).
      simpl in Hz.
      assert (Hw0 : length r0.2 = length (pd.columns (Lab8.RawDataPreprocessor._raw_data self))).
      { unfold rectangular in Hrect. rewrite Forall_forall in Hrect. now apply Hrect. }
      apply getitem_Ok in Harticles as (pa & Hpa & ->).
      set (keep := (fun c => bool_decide (c ∉ ["id"])) <$> pd.columns (Lab8.RawDataPreprocessor._raw_data self)) in *.
      assert (Hcell : pd.select keep r0.2 !! pos = r0.2 !! pa).
      { rewrite <- (first_cell_find _ _ _ _ Hpa).
        rewrite <- (first_cell_find _ _ _ _ Hfind).
        rewrite first_cell_fmap. unfold keep.
        rewrite first_cell_select; [| | exact Hw0].
        - apply first_cell_ext. intros c' Hc'.
          destruct (decide (c' = "article")) as [->|Ha]; [reflexivity |].
          rewrite (bool_decide_eq_false_2 (c' = "article")) by exact Ha.
          apply bool_decide_eq_false_2. intros Hren.
          apply renamed_to_source in Hren as [-> | ->]; [now apply Ha | now apply Hfresh].
        - intros c' Htest. apply bool_decide_eq_true in Htest.
          apply bool_decide_eq_true_2. intros Hin.
          apply list_elem_of_singleton in Hin as ->. discriminate Htest. }
      rewrite Hcell in Hz.
      destruct (Htexts (r0.1, default pd.NA (r0.2 !! pa))) as (t & Ht').
      { apply list_elem_of_fmap. exists r0. auto. }
      simpl in Ht'. congruence. }
    subst outcome.
    destruct (lab8_transform_Ok _ _ Ht) as (dropped & pos & Hdrop & _ & Hdata).
    rewrite (drop_present_labels _ _ Hall) in Hdrop. injection Hdrop as <-.
    destruct self' as [raw' data']. simpl in Hraw, Hdata. subst raw' data'.
    eexists. split; [reflexivity |]. split; [exact Hkept | apply reset_index_range].
Qed.

Lemma transform_failures_witness :
  (exists k, Lab7.RawDataPreprocessor.transform (Samples.preprocessor7 Samples.raw_articles)
             = (Raise (KeyError k), Samples.preprocessor7 Samples.raw_articles))
  /\ (exists data,
         Lab7.RawDataPreprocessor.transform
           (Samples.preprocessor7 Samples.raw_reviews_without_labels)
         = (Raise (KeyError "target"),
            {| Lab7.RawDataPreprocessor._raw_data := Samples.raw_reviews_without_labels;
               Lab7.RawDataPreprocessor._data := Some data |})
         /\ ColumnNames.TARGET ∉ pd.columns data)
  /\ (exists k, Lab8.RawDataPreprocessor.transform (Samples.preprocessor8 Samples.raw_reviews)
                = (Raise (KeyError k), Samples.preprocessor8 Samples.raw_reviews))
  /\ (exists data,
         Lab8.RawDataPreprocessor.transform (Samples.preprocessor8 Samples.raw_highlights)
         = (Raise (KeyError "source"),
            {| Lab8.RawDataPreprocessor._raw_data := Samples.raw_highlights;
               Lab8.RawDataPreprocessor._data := Some data |})
         /\ ColumnNames.SOURCE ∉ pd.columns data).
Proof.
  split; [| split; [| split]].
  - apply (proj1 (proj1 transform_failures (Samples.preprocessor7 Samples.raw_articles))).
    exists "part". split; [apply list_elem_of_here |].
    simpl. intros Hin. not_elem_of_listed Hin.
  - apply (proj2 (proj1 transform_failures
                        (Samples.preprocessor7 Samples.raw_reviews_without_labels))).
    + intros l Hl. unfold Lab7.RawDataPreprocessor.dropped_columns in Hl. simpl.
      repeat (apply elem_of_cons in Hl as [-> | Hl]; [elem_of_listed |]).
      now apply elem_of_nil in Hl.
    + simpl. intros Hin. not_elem_of_listed Hin.
    + simpl. intros Hin. not_elem_of_listed Hin.
  - apply (proj1 (proj2 transform_failures (Samples.preprocessor8 Samples.raw_reviews))).
    simpl. intros Hin. not_elem_of_listed Hin.
  - apply (proj2 (proj2 transform_failures (Samples.preprocessor8 Samples.raw_highlights))).
    + simpl. elem_of_listed.
    + simpl. intros Hin. not_elem_of_listed Hin.
    + simpl. intros Hin. not_elem_of_listed Hin.
Defined.

Lemma lab7_target_is_a_class_code_witness :
  Forall (fun r : nat * pd.cell => r.2 ∈ [pd.Int 0; pd.Int 1; pd.Int 2; pd.NA])
         [(0, pd.Int 1); (1, pd.NA)].
Proof.
  apply (lab7_target_is_a_class_code
           (Samples.preprocessor7 Samples.raw_reviews_with_other_label)
           (Lab7.RawDataPreprocessor.transform
              (Samples.preprocessor7 Samples.raw_reviews_with_other_label)).2
           {| pd.columns := ["target"; "source"];
              pd.rows := [(0, [pd.Int 1; pd.Str "good movie"]);
                          (1, [pd.NA; pd.Str "great movie"])] |});
    reflexivity.
Defined.

Lemma transform_of_the_dataset_table_witness :
  (exists clean,
      Lab7.RawDataPreprocessor.transform (Samples.preprocessor7 Samples.raw_reviews)
      = (Ok (), {| Lab7.RawDataPreprocessor._raw_data := Samples.raw_reviews;
                   Lab7.RawDataPreprocessor._data := Some clean |})
      /\ pd.columns clean ≡ₚ [ColumnNames.TARGET; ColumnNames.SOURCE]
      /\ range_index clean)
  /\ (exists clean,
         Lab8.RawDataPreprocessor.transform (Samples.preprocessor8 Samples.raw_articles)
         = (Ok (), {| Lab8.RawDataPreprocessor._raw_data := Samples.raw_articles;
                      Lab8.RawDataPreprocessor._data := Some clean |})
         /\ pd.columns clean ≡ₚ [ColumnNames.SOURCE; ColumnNames.TARGET]
         /\ range_index clean).
Proof.
  split.
  - apply (proj1 transform_of_the_dataset_table (Samples.preprocessor7 Samples.raw_reviews)).
    reflexivity.
  - apply (proj2 transform_of_the_dataset_table (Samples.preprocessor8 Samples.raw_articles)
                 [(0, pd.Str "(CNN)Rain fell all day.");
                  (1, pd.Str "(CNN)Rain fell all day.");
                  (2, pd.Str "The sun came out.")]).
    + reflexivity.
    + repeat constructor.
    + reflexivity.
    + intros r Hr.
      repeat (apply elem_of_cons in Hr as [-> | Hr]; [eexists; reflexivity |]).
      now apply elem_of_nil in Hr.
Defined.

(** ** Preprocessing keeps rows together and in order *)

Lemma column_cells (name : string) (df : pd.DataFrame) (s : list (nat * pd.cell)) :
  pd.getitem name df = Ok s ->
  exists pos,
    list_find (fun c => c = name) (pd.columns df) = Some (pos, name)
    /\ snd <$> s = (fun r : nat * list pd.cell => default pd.NA (r.2 !! pos)) <$> pd.rows df.
Proof.
  intros H. apply getitem_Ok in H as (pos & Hfind & ->).
  exists pos. split; [exact Hfind |]. now rewrite <- list_fmap_compose.
Qed.

Lemma reset_index_cells {B : Type} (h : list pd.cell -> B) (df : pd.DataFrame) :
  (fun r : nat * list pd.cell => h r.2) <$> pd.rows (pd.reset_index df)
  = (fun r : nat * list pd.cell => h r.2) <$> pd.rows df.
Proof.
  unfold pd.reset_index. cbn [pd.rows]. apply list_eq. intros i.
  rewrite !list_lookup_fmap, list_lookup_imap.
  now destruct (pd.rows df !! i).
Qed.

Lemma first_occurrences_sublist seen (rs : list (nat * list pd.cell)) :
  pd.first_occurrences seen rs `sublist_of` rs.
Proof.
  revert seen. induction rs as [|r rs IH]; intros seen; simpl; [constructor |].
  destruct (decide (r.2 ∈ seen)); [apply sublist_cons | apply sublist_skip]; apply IH.
Qed.

Lemma zip_of_columns {A B C : Type} (f : A -> B) (g : A -> C) (l : list A) :
  zip (f <$> l) (g <$> l) = (fun x => (f x, g x)) <$> l.
Proof. now rewrite zip_with_fmap_l, zip_with_fmap_r, zip_with_diag. Qed.

Lemma renamed_to_lab7_source (c : string) :
  default c (Lab7.RawDataPreprocessor.renamed_columns !! c) = ColumnNames.SOURCE ->
  c = "content" \/ c = ColumnNames.SOURCE.
Proof.
  unfold Lab7.RawDataPreprocessor.renamed_columns.
  destruct (decide (c = "content")) as [->|Hc]; [now left |].
  destruct (decide (c = "grade3")) as [->|Hg].
  - rewrite lookup_insert_eq. discriminate.
  - rewrite lookup_insert_ne by congruence.
    rewrite lookup_singleton_ne by congruence. simpl. now right.
Qed.

Lemma renamed_to_lab8_target (c : string) :
  default c (Lab8.RawDataPreprocessor.renamed_columns !! c) = ColumnNames.TARGET ->
  c = "highlights" \/ c = ColumnNames.TARGET.
Proof.
  unfold Lab8.RawDataPreprocessor.renamed_columns.
  destruct (decide (c = "highlights")) as [->|Hh]; [now left |].
  rewrite lookup_insert_ne by congruence.
  destruct (decide (c = "article")) as [->|Ha].
  - rewrite lookup_singleton_eq. discriminate.
  - rewrite lookup_singleton_ne by congruence. simpl. now right.
Qed.

Lemma lab7_rows_in_order (self self' : Lab7.RawDataPreprocessor.t) (clean : pd.DataFrame)
    (contents labels sources targets : list (nat * pd.cell)) :
  let raw := Lab7.RawDataPreprocessor._raw_data self in
  rectangular raw ->
  ColumnNames.SOURCE ∉ pd.columns raw ->
  ColumnNames.TARGET ∉ pd.columns raw ->
  pd.getitem "content" raw = Ok contents ->
  pd.getitem "grade3" raw = Ok labels ->
  Lab7.RawDataPreprocessor.transform self = (Ok (), self') ->
  Lab7.RawDataPreprocessor._data self' = Some clean ->
  pd.getitem ColumnNames.SOURCE clean = Ok sources ->
  pd.getitem ColumnNames.TARGET clean = Ok targets ->
  zip (snd <$> sources) (snd <$> targets)
  `sublist_of` zip (snd <$> contents) (code_of_label <$> (snd <$> labels)).
Proof.
  intros raw Hrect Hfresh_s Hfresh_t Hcontents Hlabels Ht Hclean Hsources Htargets.
  subst raw. set (raw := Lab7.RawDataPreprocessor._raw_data self) in *.
  apply lab7_transform_Ok in Ht as (dropped & pos & Hdrop & Hfind & Hdata).
  rewrite Hdata in Hclean. injection Hclean as <-.
  apply column_cells in Hsources as (ps & Hps & ->).
  apply column_cells in Htargets as (pt & Hpt & ->).
  apply column_cells in Hcontents as (pc & Hpc & ->).
  apply column_cells in Hlabels as (pg & Hpg & ->).
  cbn [pd.columns pd.reset_index] in Hps, Hpt.
  rewrite Hfind in Hpt. injection Hpt as <-.
  assert (Hne : pos ≠ ps).
  { apply list_find_Some in Hfind as (H1 & _). apply list_find_Some in Hps as (H2 & _).
    intros ->. rewrite H1 in H2. discriminate H2. }
  rewrite <- list_fmap_compose, !zip_of_columns.
  rewrite (reset_index_cells (fun cells => (default pd.NA (cells !! ps),
                                             default pd.NA (cells !! pos)))).
  cbn [pd.rows]. rewrite <- list_fmap_compose.
  pose proof (drop_Ok _ _ _ Hdrop) as Hd. cbn zeta in Hd. subst dropped.
  cbn [pd.rows pd.columns] in *.
  set (keep := (fun c => bool_decide (c ∉ Lab7.RawDataPreprocessor.dropped_columns))
                 <$> pd.columns raw) in *.
  etrans; [apply fmap_sublist, sublist_filter |].
  rewrite <- list_fmap_compose.
  match goal with
  | |- ?f <$> ?l `sublist_of` ?g <$> _ =>
      assert (Heq : f <$> l = g <$> l); [| now rewrite Heq]
  end.
  apply list_fmap_ext. intros i r0 Hr0. cbn [compose fst snd]. fold raw. fold keep.
  assert (Hw0 : length r0.2 = length (pd.columns raw)).
  { unfold rectangular in Hrect. rewrite Forall_forall in Hrect.
    apply Hrect. eapply list_elem_of_lookup_2. exact Hr0. }
  rewrite list_lookup_insert_ne by exact Hne.
  assert (Hs : pd.select keep r0.2 !! ps = r0.2 !! pc).
  { refine (kept_cell _ _ "content" ColumnNames.SOURCE _ _ _ _ eq_refl
              renamed_to_lab7_source _ _ Hfresh_s Hw0 Hps Hpc);
      intros Hin; not_elem_of_listed Hin. }
  assert (Hg : pd.select keep r0.2 !! pos = r0.2 !! pg).
  { refine (kept_cell _ _ "grade3" ColumnNames.TARGET _ _ _ _ eq_refl
              renamed_to_target _ _ Hfresh_t Hw0 Hfind Hpg);
      intros Hin; not_elem_of_listed Hin. }
  rewrite Hs. f_equal.
  destruct (decide (pos < length (pd.select keep r0.2))) as [Hlt|Hge].
  - rewrite list_lookup_insert_eq by exact Hlt. simpl. now rewrite Hg.
  - rewrite (lookup_ge_None_2 (<[pos := _]> _)) by (rewrite length_insert; lia).
    rewrite <- Hg. rewrite lookup_ge_None_2 by lia. reflexivity.
Qed.

Lemma lab8_rows_in_order (self self' : Lab8.RawDataPreprocessor.t) (clean : pd.DataFrame)
    (articles highlights sources targets : list (nat * pd.cell)) :
  let raw := Lab8.RawDataPreprocessor._raw_data self in
  rectangular raw ->
  ColumnNames.SOURCE ∉ pd.columns raw ->
  ColumnNames.TARGET ∉ pd.columns raw ->
  pd.getitem "article" raw = Ok articles ->
  pd.getitem "highlights" raw = Ok highlights ->
  Lab8.RawDataPreprocessor.transform self = (Ok (), self') ->
  Lab8.RawDataPreprocessor._data self' = Some clean ->
  pd.getitem ColumnNames.SOURCE clean = Ok sources ->
  pd.getitem ColumnNames.TARGET clean = Ok targets ->
  zip (snd <$> sources) (snd <$> targets)
  `sublist_of` zip (without_cnn <$> (snd <$> articles)) (snd <$> highlights).
Proof.
  intros raw Hrect Hfresh_s Hfresh_t Harticles Hhighlights Ht Hclean Hsources Htargets.
  subst raw. set (raw := Lab8.RawDataPreprocessor._raw_data self) in *.
  apply lab8_transform_Ok in Ht as (dropped & pos & Hdrop & Hfind & Hdata).
  rewrite Hdata in Hclean. injection Hclean as <-.
  apply column_cells in Hsources as (ps & Hps & ->).
  apply column_cells in Htargets as (pt & Hpt & ->).
  apply column_cells in Harticles as (pa & Hpa & ->).
  apply column_cells in Hhighlights as (ph & Hph & ->).
  cbn [pd.columns pd.reset_index] in Hps, Hpt.
  change ColumnNames.SOURCE with "source" in Hps.
  rewrite Hfind in Hps. injection Hps as <-.
  assert (Hne : pos ≠ pt).
  { apply list_find_Some in Hfind as (H1 & _). apply list_find_Some in Hpt as (H2 & _).
    intros ->. rewrite H1 in H2. discriminate H2. }
  rewrite <- list_fmap_compose, !zip_of_columns.
  rewrite (reset_index_cells (fun cells => (default pd.NA (cells !! pos),
                                             default pd.NA (cells !! pt)))).
  cbn [pd.rows]. rewrite <- list_fmap_compose.
  pose proof (drop_Ok _ _ _ Hdrop) as Hd. cbn zeta in Hd. subst dropped.
  cbn [pd.rows pd.columns] in *.
  set (keep := (fun c => bool_decide (c ∉ ["id"])) <$> pd.columns raw) in *.
  etrans; [apply fmap_sublist, first_occurrences_sublist |].
  rewrite <- list_fmap_compose.
  match goal with
  | |- ?f <$> ?l `sublist_of` ?g <$> _ =>
      assert (Heq : f <$> l = g <$> l); [| now rewrite Heq]
  end.
  apply list_fmap_ext. intros i r0 Hr0. cbn [compose fst snd]. fold raw. fold keep.
  assert (Hw0 : length r0.2 = length (pd.columns raw)).
  { unfold rectangular in Hrect. rewrite Forall_forall in Hrect.
    apply Hrect. eapply list_elem_of_lookup_2. exact Hr0. }
  rewrite (list_lookup_insert_ne _ pos pt) by exact Hne.
  assert (Ha : pd.select keep r0.2 !! pos = r0.2 !! pa).
  { refine (kept_cell _ _ "article" ColumnNames.SOURCE _ _ _ _ eq_refl
              renamed_to_source _ _ Hfresh_s Hw0 Hfind Hpa);
      intros Hin; not_elem_of_listed Hin. }
  assert (Hh : pd.select keep r0.2 !! pt = r0.2 !! ph).
  { refine (kept_cell _ _ "highlights" ColumnNames.TARGET _ _ _ _ eq_refl
              renamed_to_lab8_target _ _ Hfresh_t Hw0 Hpt Hph);
      intros Hin; not_elem_of_listed Hin. }
  rewrite Hh. f_equal.
  destruct (decide (pos < length (pd.select keep r0.2))) as [Hlt|Hge].
  - rewrite list_lookup_insert_eq by exact Hlt. simpl. now rewrite Ha.
  - rewrite (lookup_ge_None_2 (<[pos := _]> _)) by (rewrite length_insert; lia).
    rewrite <- Ha. rewrite lookup_ge_None_2 by lia. reflexivity.
Qed.

(** X22. [transform()] keeps the rows it keeps together and in order.
    For a rectangular raw table whose column labels do not repeat and are
    not [source] or [target] already, the pairs of source and target of the
    clean table are, in order, pairs of the raw table: in lab 7 the review
    texts with the codes of their [grade3] labels, in lab 8 the articles
    with "(CNN)" taken out and their highlights. *)
Theorem transform_keeps_rows_in_order :
  (forall (self self' : Lab7.RawDataPreprocessor.t) (clean : pd.DataFrame)
          (contents labels sources targets : list (nat * pd.cell)),
      let raw := Lab7.RawDataPreprocessor._raw_data self in
      rectangular raw ->
      NoDup (pd.columns raw) ->
      ColumnNames.SOURCE ∉ pd.columns raw ->
      ColumnNames.TARGET ∉ pd.columns raw ->
      pd.getitem "content" raw = Ok contents ->
      pd.getitem "grade3" raw = Ok labels ->
      Lab7.RawDataPreprocessor.transform self = (Ok (), self') ->
      Lab7.RawDataPreprocessor._data self' = Some clean ->
      pd.getitem ColumnNames.SOURCE clean = Ok sources ->
      pd.getitem ColumnNames.TARGET clean = Ok targets ->
      zip (snd <$> sources) (snd <$> targets)
      `sublist_of` zip (snd <$> contents) (code_of_label <$> (snd <$> labels)))
  /\ (forall (self self' : Lab8.RawDataPreprocessor.t) (clean : pd.DataFrame)
             (articles highlights sources targets : list (nat * pd.cell)),
         let raw := Lab8.RawDataPreprocessor._raw_data self in
         rectangular raw ->
         NoDup (pd.columns raw) ->
         ColumnNames.SOURCE ∉ pd.columns raw ->
         ColumnNames.TARGET ∉ pd.columns raw ->
         pd.getitem "article" raw = Ok articles ->
         pd.getitem "highlights" raw = Ok highlights ->
         Lab8.RawDataPreprocessor.transform self = (Ok (), self') ->
         Lab8.RawDataPreprocessor._data self' = Some clean ->
         pd.getitem ColumnNames.SOURCE clean = Ok sources ->
         pd.getitem ColumnNames.TARGET clean = Ok targets ->
         zip (snd <$> sources) (snd <$> targets)
         `sublist_of` zip (without_cnn <$> (snd <$> articles)) (snd <$> highlights)).
Proof.
  split.
  - intros self self' clean contents labels sources targets raw Hrect _.
    exact (lab7_rows_in_order self self' clean contents labels sources targets Hrect).
  - intros self self' clean articles highlights sources targets raw Hrect _.
    exact (lab8_rows_in_order self self' clean articles highlights sources targets Hrect).
Qed.

Lemma transform_keeps_rows_in_order_witness :
  [(pd.Str "good movie", pd.Int 1); (pd.Str "bad movie", pd.Int 2)]
  `sublist_of` [(pd.Str "good movie", pd.Int 1); (pd.NA, pd.Int 0);
                (pd.Str "bad movie", pd.Int 2)]
  /\ [(pd.Str "Rain fell all day.", pd.Str "rain"); (pd.Str "The sun came out.", pd.Str "sun")]
     `sublist_of` [(pd.Str "Rain fell all day.", pd.Str "rain");
                   (pd.Str "Rain fell all day.", pd.Str "rain");
                   (pd.Str "The sun came out.", pd.Str "sun")].
Proof.
  split.
  - apply (proj1 transform_keeps_rows_in_order
                 (Samples.preprocessor7 Samples.raw_reviews)
                 (Lab7.RawDataPreprocessor.transform
                    (Samples.preprocessor7 Samples.raw_reviews)).2
                 {| pd.columns := ["target"; "source"];
                    pd.rows := [(0, [pd.Int 1; pd.Str "good movie"]);
                                (1, [pd.Int 2; pd.Str "bad movie"])] |}
                 [(0, pd.Str "good movie"); (1, pd.NA); (2, pd.Str "bad movie")]
                 [(0, pd.Str "Good"); (1, pd.Str "Neutral"); (2, pd.Str "Bad")]
                 [(0, pd.Str "good movie"); (1, pd.Str "bad movie")]
                 [(0, pd.Int 1); (1, pd.Int 2)]).
    + repeat constructor.
    + simpl. repeat (constructor; [intros Hin; not_elem_of_listed Hin |]). constructor.
    + intros Hin. not_elem_of_listed Hin.
    + intros Hin. not_elem_of_listed Hin.
    + reflexivity.
    + reflexivity.
    + reflexivity.
    + reflexivity.
    + reflexivity.
    + reflexivity.
  - apply (proj2 transform_keeps_rows_in_order
                 (Samples.preprocessor8 Samples.raw_articles)
                 (Lab8.RawDataPreprocessor.transform
                    (Samples.preprocessor8 Samples.raw_articles)).2
                 {| pd.columns := ["source"; "target"];
                    pd.rows := [(0, [pd.Str "Rain fell all day."; pd.Str "rain"]);
                                (1, [pd.Str "The sun came out."; pd.Str "sun"])] |}
                 [(0, pd.Str "(CNN)Rain fell all day.");
                  (1, pd.Str "(CNN)Rain fell all day.");
                  (2, pd.Str "The sun came out.")]
                 [(0, pd.Str "rain"); (1, pd.Str "rain"); (2, pd.Str "sun")]
                 [(0, pd.Str "Rain fell all day."); (1, pd.Str "The sun came out.")]
                 [(0, pd.Str "rain"); (1, pd.Str "sun")]).
    + repeat constructor.
    + simpl. repeat (constructor; [intros Hin; not_elem_of_listed Hin |]). constructor.
    + intros Hin. not_elem_of_listed Hin.
    + intros Hin. not_elem_of_listed Hin.
    + reflexivity.
    + reflexivity.
    + reflexivity.
    + reflexivity.
    + reflexivity.
    + reflexivity.
Defined.

(** ** The classes that lab 7 predicts *)

Lemma argmax_from_bound (xs : list Z) (best_i : nat) (best : Z) (i : nat) :
  torch.argmax_from best_i best i xs = best_i
  \/ i <= torch.argmax_from best_i best i xs < i + length xs.
Proof.
  revert best_i best i. induction xs as [|x xs IH]; intros best_i best i; simpl.
  - now left.
  - destruct (best <? x)%Z.
    + right. destruct (IH i x (S i)) as [-> | H]; lia.
    + destruct (IH best_i best (S i)) as [-> | H]; [now left | right; lia].
Qed.

Lemma argmax_bound (row : Z * list Z) : torch.argmax row <= length row.2.
Proof.
  unfold torch.argmax. destruct (argmax_from_bound row.2 0 row.1 1) as [-> | H]; lia.
Qed.

Lemma traverse_Ok_Forall {A B : Type} (f : A -> result B) (Q : B -> Prop) (l : list A)
    (ys : list B) :
  (forall x y, x ∈ l -> f x = Ok y -> Q y) -> traverse f l = Ok ys -> Forall Q ys.
Proof.
  revert ys. induction l as [|x l IH]; intros ys Hf; simpl.
  - intros [= <-]. constructor.
  - destruct (f x) as [y|e] eqn:Hy; simpl; [| discriminate].
    destruct (traverse f l) as [ys'|e]; simpl; [| discriminate].
    intros [= <-]. constructor.
    + apply (Hf x); [apply list_elem_of_here | exact Hy].
    + apply IH; [| reflexivity]. intros x' y' Hx'. apply Hf. now apply list_elem_of_further.
Qed.

Lemma infer_dataset_loop_predictions (P : string -> Prop)
    (infer : list (list string) -> result (list string))
    (df : pd.DataFrame) (fetch : nat -> result (list pd.cell)) (batch_size : nat)
    (out : pd.DataFrame) :
  (forall batch predictions, infer batch = Ok predictions -> Forall P predictions) ->
  (dataloader ← torch.DataLoader (pd.len df) fetch batch_size;
   predictions ← @concat string <$> traverse (fun next => batch ← next; infer batch)
                                             dataloader;
   target ← pd.getitem ColumnNames.TARGET df;
   pd.of_series_and_list ColumnNames.TARGET target
                         ColumnNames.PREDICTION (pd.Str <$> predictions)) = Ok out ->
  exists predictions : list (nat * pd.cell),
    pd.getitem ColumnNames.PREDICTION out = Ok predictions
    /\ Forall (fun r : nat * pd.cell => exists p, r.2 = pd.Str p /\ P p) predictions.
Proof.
  intros Hinfer. unfold torch.DataLoader.
  destruct (decide (batch_size = 0)) as [H0|Hne]; [discriminate |].
  cbn [mbind result_bind].
  destruct (traverse _ _) as [chunks|e] eqn:Hchunks; [| discriminate].
  cbn [fmap result_fmap mbind result_bind].
  destruct (pd.getitem ColumnNames.TARGET df) as [target|e]; [| discriminate].
  cbn [mbind result_bind]. unfold pd.of_series_and_list.
  destruct (decide _) as [Hlen|Hlen]; [| discriminate].
  intros [= <-].
  destruct (paired_frame_columns target (pd.Str <$> concat chunks) Hlen) as (_ & _ & Hpc).
  eexists. split; [exact Hpc |].
  assert (Hall : Forall (Forall P) chunks).
  { refine (traverse_Ok_Forall _ _ _ _ _ Hchunks).
    intros next ys _. destruct next as [batch|e]; [| discriminate]. apply Hinfer. }
  apply Forall_forall. intros x Hx.
  apply elem_of_zip_with in Hx as (r & v & -> & _ & Hv).
  apply list_elem_of_fmap in Hv as (p & -> & Hp). exists p. split; [reflexivity |].
  apply list_elem_of_In, in_concat in Hp as (chunk & Hchunk & Hp).
  apply list_elem_of_In in Hchunk, Hp.
  rewrite Forall_forall in Hall. specialize (Hall chunk Hchunk).
  rewrite Forall_forall in Hall. now apply Hall.
Qed.

(** X14. The predictions of lab 7 name a class of the model, and never
    class 0: in the table that [infer_dataset()] returns every prediction is
    the decimal string of 2 or of an index from 1 up to the number of
    classes less one.  With the three classes of the sentiment labels the
    predictions are "1" and "2" only; rows with target 0 are never matched. *)
Theorem lab7_predicted_classes (self : Lab7.LLMPipeline.t) (out : pd.DataFrame)
    (classes : nat) :
  (forall model ids, Lab7.LLMPipeline._model self = Some model ->
                     S (length (model ids).2) = classes) ->
  Lab7.LLMPipeline.infer_dataset self = Ok out ->
  exists predictions : list (nat * pd.cell),
    pd.getitem ColumnNames.PREDICTION out = Ok predictions
    /\ Forall (fun r : nat * pd.cell =>
                 exists i, (i = 2 \/ 1 <= i < classes) /\ r.2 = pd.Str (str (Z.of_nat i)))
              predictions
    /\ (classes = 3 ->
        Forall (fun r : nat * pd.cell => r.2 = pd.Str "1" \/ r.2 = pd.Str "2") predictions).
Proof.
  intros Hclasses H.
  assert (Hinfer : forall batch preds,
             Lab7.LLMPipeline._infer_batch self batch = Ok preds ->
             Forall (fun p => exists i, (i = 2 \/ 1 <= i < classes) /\ p = str (Z.of_nat i))
                    preds).
  { intros batch preds Hb.
    apply infer_batch_Ok in Hb as (model & texts & rest & Hm & _ & ->).
    apply Forall_forall. intros p Hp.
    apply list_elem_of_fmap in Hp as (text & -> & _).
    unfold Lab7.LLMPipeline.prediction_of_index, predicted_index.
    set (row := model (take (Lab7.LLMPipeline._max_length self)
                            (transformers.encode (Lab7.LLMPipeline._tokenizer self) text))).
    pose proof (argmax_bound row) as Hb.
    pose proof (Hclasses model _ Hm : S (length row.2) = classes) as Hc.
    destruct (torch.argmax row) as [|i] eqn:Harg.
    + exists 2. split; [now left | reflexivity].
    + exists (S i). split; [right; lia | reflexivity]. }
  destruct (infer_dataset_loop_predictions _ _
              (Lab7.TaskDataset.data (Lab7.LLMPipeline._dataset self))
              (Lab7.TaskDataset.__getitem__ (Lab7.LLMPipeline._dataset self))
              (Lab7.LLMPipeline._batch_size self) out Hinfer H)
    as (predictions & Hp & Hall).
  exists predictions. split; [exact Hp |].
  assert (Hcells : Forall (fun r : nat * pd.cell =>
                             exists i, (i = 2 \/ 1 <= i < classes)
                                       /\ r.2 = pd.Str (str (Z.of_nat i))) predictions).
  { eapply Forall_impl; [exact Hall |]. intros r (p & -> & i & Hi & ->). eauto. }
  split; [exact Hcells |]. intros ->.
  eapply Forall_impl; [exact Hcells |]. intros r (i & Hi & ->).
  assert (Hi' : i = 1 \/ i = 2) by lia. destruct Hi' as [-> | ->]; auto.
Qed.

(** ** Tokenized samples *)

Lemma sample_getitem_absent (name : string) (sample : list (string * pd.cell)) :
  name ∉ sample.*1 -> Lab8.sample_getitem name sample = Raise (KeyError name).
Proof.
  intros Hno. unfold Lab8.sample_getitem.
  assert (Hnone : list_find (fun kv : string * pd.cell => kv.1 = name) sample = None).
  { apply list_find_None. apply Forall_forall. intros kv Hkv Heq. apply Hno.
    apply list_elem_of_fmap. exists kv. auto. }
  now rewrite Hnone.
Qed.

Lemma tokenize_sample_Ok (sample : list (string * pd.cell)) (tk : transformers.Tokenizer)
    (max_length : nat) (item : gmap string (list nat)) :
  Lab8.tokenize_sample sample tk max_length = Ok item ->
  exists source target,
    Lab8.sample_getitem ColumnNames.SOURCE sample = Ok (pd.Str source)
    /\ Lab8.sample_getitem ColumnNames.TARGET sample = Ok (pd.Str target)
    /\ item = {[ "input_ids" :=
                   transformers.input_ids (transformers.call_max_length tk source 120);
                 "attention_mask" :=
                   transformers.attention_mask (transformers.call_max_length tk source 120);
                 "labels" :=
                   transformers.input_ids (transformers.call_max_length tk target 120) ]}.
Proof.
  unfold Lab8.tokenize_sample.
  destruct (Lab8.sample_getitem ColumnNames.SOURCE sample) as [[|z|source]|e];
    try discriminate.
  cbn [mbind result_bind torch.as_text].
  destruct (Lab8.sample_getitem ColumnNames.TARGET sample) as [[|z|target]|e];
    try discriminate.
  cbn [mbind result_bind torch.as_text]. intros [= <-]. eauto.
Qed.

Lemma tokenized_item_lengths (tk : transformers.Tokenizer) (source target : string) :
  let item : gmap string (list nat) :=
    {[ "input_ids" := transformers.input_ids (transformers.call_max_length tk source 120);
       "attention_mask" :=
         transformers.attention_mask (transformers.call_max_length tk source 120);
       "labels" := transformers.input_ids (transformers.call_max_length tk target 120) ]} in
  length <$> item !! "input_ids" = Some 120
  /\ length <$> item !! "attention_mask" = Some 120
  /\ length <$> item !! "labels" = Some 120.
Proof.
  destruct (call_max_length_length tk source 120) as [Hi Hm].
  destruct (call_max_length_length tk target 120) as [Hl _].
  cbn zeta. split; [| split].
  - rewrite (lookup_insert_eq (M := gmap string)). simpl. now f_equal.
  - rewrite (lookup_insert_ne (M := gmap string)) by discriminate.
    rewrite (lookup_insert_eq (M := gmap string)). simpl. now f_equal.
  - rewrite (lookup_insert_ne (M := gmap string)) by discriminate.
    rewrite (lookup_insert_ne (M := gmap string)) by discriminate.
    rewrite lookup_singleton_eq. simpl. now f_equal.
Qed.

(** X16. When [tokenize_sample] fails or succeeds: a sample without a
    [source] entry raises the key error for [source]; one with a source
    text but without a [target] entry raises the key error for [target];
    and it returns only for a sample whose source and target are both
    text. *)
Theorem tokenize_sample_needs_both_texts (tk : transformers.Tokenizer)
    (sample : list (string * pd.cell)) (max_length : nat) :
  (ColumnNames.SOURCE ∉ sample.*1 ->
   Lab8.tokenize_sample sample tk max_length = Raise (KeyError "source"))
  /\ (forall source,
         Lab8.sample_getitem ColumnNames.SOURCE sample = Ok (pd.Str source) ->
         ColumnNames.TARGET ∉ sample.*1 ->
         Lab8.tokenize_sample sample tk max_length = Raise (KeyError "target"))
  /\ (forall item,
         Lab8.tokenize_sample sample tk max_length = Ok item ->
         exists source target,
           Lab8.sample_getitem ColumnNames.SOURCE sample = Ok (pd.Str source)
           /\ Lab8.sample_getitem ColumnNames.TARGET sample = Ok (pd.Str target)).
Proof.
  split; [| split].
  - intros Hno. unfold Lab8.tokenize_sample.
    now rewrite (sample_getitem_absent _ _ Hno).
  - intros source Hs Hno. unfold Lab8.tokenize_sample. rewrite Hs.
    cbn [mbind result_bind torch.as_text].
    now rewrite (sample_getitem_absent _ _ Hno).
  - intros item H. apply tokenize_sample_Ok in H as (source & target & Hs & Ht & _).
    eauto.
Qed.

Lemma traverse_Ok_lookup {A B : Type} (f : A -> result B) (l : list A) (ys : list B) :
  traverse f l = Ok ys ->
  length ys = length l
  /\ forall i x, l !! i = Some x -> exists y, ys !! i = Some y /\ f x = Ok y.
Proof.
  revert ys. induction l as [|x l IH]; intros ys; simpl.
  - intros [= <-]. split; [reflexivity |]. intros i x Hx. discriminate Hx.
  - destruct (f x) as [y|e] eqn:Hy; simpl; [| discriminate].
    destruct (traverse f l) as [ys'|e]; simpl; [| discriminate].
    intros [= <-]. destruct (IH ys' eq_refl) as [Hlen Hall].
    split; [simpl; now rewrite Hlen |].
    intros [|i] x' Hx'; simpl in *.
    + injection Hx' as <-. eauto.
    + now apply Hall.
Qed.

(** X17. A tokenized dataset built from a table with rows holds one
    item per row, by position: its length is the number of rows, item [i] is
    the tokenization of row [i] with 120 entries under each of its three
    keys, and an index at or past the length raises an index error.  (On a
    table without rows [apply] gives an empty frame, which [list] turns
    into its column labels; that case is left out.) *)
Theorem tokenized_dataset_indexing (data : pd.DataFrame) (tk : transformers.Tokenizer)
    (max_length : nat) (dataset : Lab8.TokenizedTaskDataset.t) :
  0 < pd.len data ->
  Lab8.TokenizedTaskDataset.__init__ data tk max_length = Ok dataset ->
  Lab8.TokenizedTaskDataset.__len__ dataset = pd.len data
  /\ (forall i r,
         pd.rows data !! i = Some r ->
         exists item,
           Lab8.TokenizedTaskDataset.__getitem__ dataset i = Ok item
           /\ Lab8.tokenize_sample (zip (pd.columns data) r.2) tk max_length = Ok item
           /\ length <$> item !! "input_ids" = Some 120
           /\ length <$> item !! "attention_mask" = Some 120
           /\ length <$> item !! "labels" = Some 120)
  /\ (forall i, pd.len data <= i ->
                Lab8.TokenizedTaskDataset.__getitem__ dataset i = Raise IndexError).
Proof.
  intros _ Hinit. unfold Lab8.TokenizedTaskDataset.__init__ in Hinit.
  destruct (traverse _ (pd.rows data)) as [tokenized|e] eqn:Htok; [| discriminate].
  cbn [mbind result_bind] in Hinit. injection Hinit as <-.
  apply traverse_Ok_lookup in Htok as [Hlen Hall].
  unfold Lab8.TokenizedTaskDataset.__len__, Lab8.TokenizedTaskDataset.__getitem__, pd.len.
  cbn [Lab8.TokenizedTaskDataset._data].
  split; [exact Hlen |]. split.
  - intros i r Hr. destruct (Hall i r Hr) as (item & Hitem & Htokenized).
    exists item. rewrite Hitem. split; [reflexivity |]. split; [exact Htokenized |].
    apply tokenize_sample_Ok in Htokenized as (source & target & _ & _ & ->).
    apply tokenized_item_lengths.
  - intros i Hi. rewrite lookup_ge_None_2 by lia. reflexivity.
Qed.

(** ** The evaluators *)

Section registry.
Import Lab7.TaskEvaluator.

(** One pass of the loop that fills the lab-7 registry. *)
Let register (d : list (string * evaluate.EvaluationModule)) (metric : Metrics.t) :=
  let scorer := evaluate.load (Metrics.value metric) None in
  match list_find (fun kv : string * evaluate.EvaluationModule =>
                     kv.1 = Metrics.value metric) d with
  | Some (i, _) => <[i := (Metrics.value metric, scorer)]> d
  | None => (d ++ [(Metrics.value metric, scorer)])%list
  end.

Let registered (d : list (string * evaluate.EvaluationModule)) (metrics : list Metrics.t) :=
  NoDup d.*1
  /\ forall k scorer,
      (k, scorer) ∈ d
      <-> (exists m, m ∈ metrics /\ k = Metrics.value m) /\ scorer = evaluate.load k None.

Lemma register_step d metrics metric :
  registered d metrics -> registered (register d metric) (metrics ++ [metric]).
Proof.
  intros [Hnodup Hiff]. unfold register.
  destruct (list_find _ d) as [[i kv]|] eqn:Hfind.
  - apply list_find_Some in Hfind as (Hi & Hkey & _).
    assert (Hin : kv ∈ d) by (eapply list_elem_of_lookup_2; exact Hi).
    destruct kv as [k scorer]. simpl in Hkey. subst k.
    destruct (proj1 (Hiff _ _) Hin) as [_ ->].
    rewrite (list_insert_id d i _ Hi).
    split; [exact Hnodup |]. intros k scorer. rewrite Hiff. split.
    + intros [(m & Hm & ->) ->]. split; [| reflexivity].
      exists m. split; [| reflexivity]. apply elem_of_app. now left.
    + intros [(m & Hm & ->) ->]. split; [| reflexivity].
      apply elem_of_app in Hm as [Hm | Hm].
      * eauto.
      * apply list_elem_of_singleton in Hm as ->.
        apply Hiff in Hin as [Hin _]. exact Hin.
  - pose proof Hfind as Hnone. apply list_find_None in Hnone.
    rewrite Forall_forall in Hnone.
    split.
    + rewrite fmap_app. apply NoDup_app. split; [exact Hnodup |]. split.
      * intros k Hk Hk'. apply list_elem_of_singleton in Hk'. subst k.
        apply list_elem_of_fmap in Hk as (kv & Hkv & Hin).
        apply (Hnone kv Hin). now symmetry.
      * apply NoDup_singleton.
    + intros k scorer. rewrite elem_of_app, Hiff, list_elem_of_singleton. split.
      * intros [[(m & Hm & ->) ->] | [= -> ->]].
        -- split; [| reflexivity]. exists m. split; [| reflexivity].
           apply elem_of_app. now left.
        -- split; [| reflexivity]. exists metric. split; [| reflexivity].
           apply elem_of_app. right. apply list_elem_of_here.
      * intros [(m & Hm & ->) ->]. apply elem_of_app in Hm as [Hm | Hm].
        -- left. eauto.
        -- apply list_elem_of_singleton in Hm as ->. now right.
Qed.

Lemma registry_registered (data_path : string) (metrics : list Metrics.t) :
  registered (_metrics_dict (__init__ data_path metrics)) metrics.
Proof.
  unfold __init__. cbn [_metrics_dict]. fold register.
  induction metrics as [|metric metrics IH] using rev_ind.
  - split; [constructor |]. intros k scorer. split.
    + intros Hin. now apply elem_of_nil in Hin.
    + intros [(m & Hm & _) _]. now apply elem_of_nil in Hm.
  - rewrite foldl_snoc. now apply register_step.
Qed.

Lemma registry_keys (data_path : string) (metrics : list Metrics.t) (k : string) :
  k ∈ (_metrics_dict (__init__ data_path metrics)).*1
  <-> exists m, m ∈ metrics /\ Metrics.value m = k.
Proof.
  destruct (registry_registered data_path metrics) as [_ Hiff]. split.
  - intros Hk. apply list_elem_of_fmap in Hk as ([k' scorer] & -> & Hin).
    apply Hiff in Hin as [(m & Hm & ->) _]. eauto.
  - intros (m & Hm & <-). apply list_elem_of_fmap.
    exists (Metrics.value m, evaluate.load (Metrics.value m) None).
    split; [reflexivity |]. apply Hiff. eauto.
Qed.

End registry.

(** X18. The registry that the lab-7 evaluator builds holds exactly one
    scorer per distinct requested metric, under the metric's value as key:
    the keys do not repeat, there are no more entries than requested
    metrics, and an entry [(k, scorer)] is there exactly when [k] is the
    value of a requested metric and [scorer] is the module loaded under
    that name, without a seed. *)
Theorem lab7_evaluator_registry (data_path : string) (metrics : list Metrics.t) :
  let registry := Lab7.TaskEvaluator._metrics_dict
                    (Lab7.TaskEvaluator.__init__ data_path metrics) in
  NoDup registry.*1
  /\ length registry <= length metrics
  /\ forall k scorer,
      (k, scorer) ∈ registry
      <-> (exists m, m ∈ metrics /\ k = Metrics.value m) /\ scorer = evaluate.load k None.
Proof.
  destruct (registry_registered data_path metrics) as [Hnodup Hiff].
  split; [exact Hnodup |]. split; [| exact Hiff].
  rewrite <- (length_fmap fst), <- (length_fmap Metrics.value metrics).
  apply submseteq_length, NoDup_submseteq; [exact Hnodup |].
  intros k Hk. apply registry_keys in Hk as (m & Hm & <-).
  apply list_elem_of_fmap. eauto.
Qed.

Section scores.
Context {A : Type} (key : A -> string) (step : result (gmap string Q) -> A -> result (gmap string Q)).
Hypothesis step_Raise : forall e x, step (Raise e) x = Raise e.
Hypothesis step_Ok : forall acc x scores,
    step (Ok acc) x = Ok scores -> exists v, scores = <[key x := v]> acc.

Lemma foldl_step_Raise (e : exn) (l : list A) : foldl step (Raise e) l = Raise e.
Proof. induction l as [|x l IH]; simpl; [reflexivity |]. now rewrite step_Raise. Qed.

Lemma foldl_step_keys (l : list A) (acc scores : gmap string Q) (k : string) :
  foldl step (Ok acc) l = Ok scores ->
  is_Some (scores !! k) <-> is_Some (acc !! k) \/ k ∈ key <$> l.
Proof.
  revert acc. induction l as [|x l IH]; intros acc; simpl.
  - intros [= <-]. split; [now left |]. intros [H | H]; [exact H |].
    now apply elem_of_nil in H.
  - destruct (step (Ok acc) x) as [acc'|e] eqn:Hstep.
    + intros H. destruct (step_Ok _ _ _ Hstep) as (v & ->).
      rewrite (IH _ H). rewrite elem_of_cons.
      destruct (decide (k = key x)) as [->|Hne].
      * rewrite lookup_insert_eq. split; [intros _; right; now left | intros _; left; eauto].
      * rewrite lookup_insert_ne by congruence. tauto.
    + rewrite foldl_step_Raise. discriminate.
Qed.
End scores.

(** X19. Whenever [run()] of an evaluator built by [__init__] returns
    its dictionary, in both labs, the dictionary has a score under the value
    of every requested metric and under no other key. *)
Theorem evaluator_scores_every_metric (compute : evaluate.compute_fn) (data_path : string)
    (metrics : list Metrics.t) (fs : filesystem) (scores : gmap string Q) :
  (Lab7.TaskEvaluator.run compute (Lab7.TaskEvaluator.__init__ data_path metrics) fs
   = Ok scores ->
   forall k, is_Some (scores !! k) <-> exists m, m ∈ metrics /\ Metrics.value m = k)
  /\ (Lab8.TaskEvaluator.run compute (Lab8.TaskEvaluator.__init__ data_path metrics) fs
      = Ok scores ->
      forall k, is_Some (scores !! k) <-> exists m, m ∈ metrics /\ Metrics.value m = k).
Proof.
  split.
  - unfold Lab7.TaskEvaluator.run.
    destruct (from_some _ _) as [content|e]; [| discriminate]. cbn [mbind result_bind].
    destruct (csv.read_csv content) as [pred_df|e]; [| discriminate].
    cbn [mbind result_bind]. intros H k.
    match type of H with
    | foldl ?step _ _ = _ =>
        assert (HR : forall e x, step (Raise e) x = Raise e) by reflexivity;
        assert (HO : forall acc x scores',
                   step (Ok acc) x = Ok scores' -> exists v, scores' = <[x.1 := v]> acc)
    end.
    { intros acc kv scores'. cbn [mbind result_bind].
      destruct (pd.getitem ColumnNames.TARGET pred_df); [| discriminate].
      cbn [mbind result_bind].
      destruct (pd.getitem ColumnNames.PREDICTION pred_df); [| discriminate].
      cbn [mbind result_bind].
      destruct (compute _ _ _ _) as [res|e]; [| discriminate]. cbn [mbind result_bind].
      destruct (res !! kv.1) as [score|]; [| discriminate]. cbn [from_some mbind result_bind].
      intros [= <-]. eauto. }
    rewrite (foldl_step_keys fst _ HR HO _ _ _ k H).
    rewrite lookup_empty, registry_keys. split; [intros [[x Hx] | Hk] | now right].
    + discriminate Hx.
    + exact Hk.
  - unfold Lab8.TaskEvaluator.run.
    destruct (from_some _ _) as [content|e]; [| discriminate]. cbn [mbind result_bind].
    destruct (csv.read_csv content) as [pred_df|e]; [| discriminate].
    cbn [mbind result_bind]. intros H k.
    match type of H with
    | foldl ?step _ _ = _ =>
        assert (HR : forall e x, step (Raise e) x = Raise e) by reflexivity;
        assert (HO : forall acc x scores',
                   step (Ok acc) x = Ok scores'
                   -> exists v, scores' = <[evaluate.name x := v]> acc)
    end.
    { intros acc metric scores'. cbn [mbind result_bind].
      destruct (pd.getitem ColumnNames.TARGET pred_df); [| discriminate].
      cbn [mbind result_bind].
      destruct (pd.getitem ColumnNames.PREDICTION pred_df); [| discriminate].
      cbn [mbind result_bind].
      destruct (compute _ _ _ _) as [res|e]; [| discriminate]. cbn [mbind result_bind].
      destruct (from_some _ _) as [score|e]; [| discriminate]. cbn [mbind result_bind].
      intros [= <-]. eauto. }
    rewrite (foldl_step_keys evaluate.name _ HR HO _ _ _ k H).
    rewrite lookup_empty. cbn [Lab8.TaskEvaluator.__init__ Lab8.TaskEvaluator._metrics_dict].
    rewrite <- list_fmap_compose.
    split; [intros [[x Hx] | Hk] | intros (m & Hm & <-)].
    + discriminate Hx.
    + apply list_elem_of_fmap in Hk as (m & -> & Hm). exists m. split; [exact Hm |].
      reflexivity.
    + right. apply list_elem_of_fmap. exists m. split; [| exact Hm].
      reflexivity.
Qed.

(** ** The demonstration run of lab 7 *)






Lemma lab7_predicted_classes_witness :
  exists predictions : list (nat * pd.cell),
    pd.getitem ColumnNames.PREDICTION
      {| pd.columns := ["target"; "prediction"];
         pd.rows := [(0, [pd.Int 1; pd.Str "1"]); (1, [pd.Int 2; pd.Str "2"]);
                     (2, [pd.Int 0; pd.Str "1"])] |} = Ok predictions
    /\ Forall (fun r : nat * pd.cell =>
                 exists i, (i = 2 \/ 1 <= i < 3) /\ r.2 = pd.Str (str (Z.of_nat i)))
              predictions
    /\ (3 = 3 ->
        Forall (fun r : nat * pd.cell => r.2 = pd.Str "1" \/ r.2 = pd.Str "2") predictions).
Proof.
  apply (lab7_predicted_classes (Samples.pipeline7 (Some Samples.classifier)) _ 3).
  - intros model ids [= <-]. reflexivity.
  - reflexivity.
Defined.

Lemma tokenize_sample_needs_both_texts_witness :
  Lab8.tokenize_sample Samples.sample_without_source Samples.tokenizer 120
  = Raise (KeyError "source").
Proof.
  apply (proj1 (tokenize_sample_needs_both_texts Samples.tokenizer
                  Samples.sample_without_source 120)).
  simpl. intros Hin. not_elem_of_listed Hin.
Defined.

Lemma tokenized_dataset_indexing_witness :
  exists dataset,
    Lab8.TokenizedTaskDataset.__init__ Samples.articles Samples.tokenizer 120 = Ok dataset
    /\ Lab8.TokenizedTaskDataset.__len__ dataset = 3
    /\ Lab8.TokenizedTaskDataset.__getitem__ dataset 3 = Raise IndexError.
Proof.
  eexists. split; [vm_compute; reflexivity |].
  edestruct (tokenized_dataset_indexing Samples.articles Samples.tokenizer 120)
    as (Hlen & _ & Hpast).
  - vm_compute. lia.
  - vm_compute. reflexivity.
  - split; [exact Hlen |]. apply Hpast. vm_compute. lia.
Defined.

Lemma evaluator_scores_every_metric_witness :
  (is_Some (({[ "f1" := (1 # 2)%Q ]} : gmap string Q) !! "f1")
   <-> exists m, m ∈ [Metrics.F1] /\ Metrics.value m = "f1")
  /\ (is_Some (({[ "f1" := (1 # 4)%Q ]} : gmap string Q) !! "bleu")
      <-> exists m, m ∈ [Metrics.F1] /\ Metrics.value m = "bleu").
Proof.
  split.
  - apply (proj1 (evaluator_scores_every_metric Samples.agreeable_scorer
                    "dist/predictions.csv" [Metrics.F1]
                    {[ "dist/predictions.csv" := Samples.predictions_file ]}
                    {[ "f1" := (1 # 2)%Q ]})).
    reflexivity.
  - apply (proj2 (evaluator_scores_every_metric Samples.agreeable_scorer
                    "dist/predictions.csv" [Metrics.F1]
                    {[ "dist/predictions.csv" := Samples.predictions_file ]}
                    {[ "f1" := (1 # 4)%Q ]})).
    reflexivity.
Defined.

